(** * Jakarta traffic big-data pipeline: shallow embedding

    The development follows the Python sources module by module:
    [config.py], [database.py], [weather_api.py], [traffic_engine.py],
    [data_generator.py] and [analytics.py].

    Modelling conventions.
    - Python [int] is [Z] (unbounded, [//] and [%] are [Z.div] and
      [Z.modulo], which round like Python's).
    - Python [float] is an exact rational [Q] in the pipeline: every
      arithmetic step is the mathematical operation.  Where the
      binary64 rounding of the steps decides the result, in
      [calculate_speed], the function is given a second time in module
      [Binary64], on IEEE 754 numbers as [SpecFloat] specifies them, with
      the rounding of every step, the infinities, [NaN] and the failing
      conversion of an [int] beyond the float range.  The values numpy
      and pandas compute ([mean], [std], [corr]) are [npfloat]: a
      rational or [NaN].
    - [dict]s whose iteration order the code relies on are association
      lists in insertion order.
    - What [response.json()] returns is a [pyvalue]: any JSON value, as
      [json.loads] builds it.  A text carries what
      [datetime.fromisoformat] makes of it and whether it can be
      encoded as UTF-8, since neither the parse nor the encoding is
      modelled.
    - The ambient effects are explicit in a [world]: the pseudo-random
      generator is a sequence of draws with a cursor, [datetime.now()] a
      sequence of clock readings, [requests.get] a sequence of outcomes,
      and the SQLite file a [database] value, whose tables exist and
      which can be written; what can fail in a write is the binding of
      a value.  [print] is not modelled: standard output is taken to
      accept every text.
    - Fallible code runs in a state-and-exception monad; a [while] loop
      takes a fuel argument and yields [OutOfFuel] when it is used up. *)

From Stdlib Require Import ZArith QArith Qround List String Bool Lia.
From Stdlib Require Import DecimalString Lqa Sorted Permutation.
From Stdlib Require Import SpecFloat.
Import ListNotations.
Open Scope string_scope.
Open Scope list_scope.
Open Scope Z_scope.

(* ================================================================== *)
(** * Python built-ins *)
(* ================================================================== *)

Module Py.

Inductive exn : Type :=
| ZeroDivisionError
| ValueError
| KeyError
| TypeError
| IndexError
| AttributeError
| ConnectionError
| Timeout
| RequestException
| OverflowError
| ProgrammingError
| UnicodeEncodeError.

(** [a < b] and [a <= b] on floats. *)
Definition ltb (a b : Q) : bool := negb (Qle_bool b a).
Definition leb (a b : Q) : bool := Qle_bool a b.

(** [min(a, b)]: the first argument unless the second is smaller. *)
Definition min (a b : Q) : Q := if ltb b a then b else a.

(** [max(a, b)]: the first argument unless the second is larger. *)
Definition max (a b : Q) : Q := if ltb a b then b else a.

(** [int(x)] on a float: truncation towards zero. *)
Definition int (x : Q) : Z := Z.quot (Qnum x) (Zpos (Qden x)).

(** Rounding to the nearest integer, ties to the even one. *)
Definition round_half_even (x : Q) : Z :=
  let f := Qfloor x in
  match (x - inject_Z f ?= 1 # 2)%Q with
  | Lt => f
  | Gt => f + 1
  | Eq => if Z.even f then f else f + 1
  end.

(** [round(x, ndigits)]. *)
Definition round (x : Q) (ndigits : nat) : Q :=
  let scale := Z.to_pos (10 ^ Z.of_nat ndigits) in
  (round_half_even (x * inject_Z (Zpos scale)) # scale)%Q.

(** [d.get(key)] on a dict kept as an association list. *)
Fixpoint lookup {K V : Type} (eqb : K -> K -> bool) (key : K)
         (d : list (K * V)) : option V :=
  match d with
  | [] => None
  | (k, v) :: rest => if eqb key k then Some v else lookup eqb key rest
  end.

(** [d.get(key, default)]. *)
Definition get {K V : Type} (eqb : K -> K -> bool) (d : list (K * V))
           (key : K) (default : V) : V :=
  match lookup eqb key d with
  | Some v => v
  | None => default
  end.

(** [d[key] = value]: an existing key keeps its position. *)
Fixpoint set {K V : Type} (eqb : K -> K -> bool) (d : list (K * V))
         (key : K) (value : V) : list (K * V) :=
  match d with
  | [] => [(key, value)]
  | (k, v) :: rest =>
      if eqb key k then (k, value) :: rest
      else (k, v) :: set eqb rest key value
  end.

(** [key in d]. *)
Definition contains {K V : Type} (eqb : K -> K -> bool) (d : list (K * V))
           (key : K) : bool :=
  match lookup eqb key d with
  | Some _ => true
  | None => false
  end.

End Py.

(** What a call gives back: a value or an exception. *)
Inductive result (A : Type) : Type :=
| Returns (a : A)
| Raises (e : Py.exn).

Arguments Returns {A} a.
Arguments Raises {A} e.

(* ================================================================== *)
(** * datetime *)
(* ================================================================== *)

(** A naive [datetime].  The calendar date is its proleptic ordinal (what
    [date.toordinal()] returns, here without the bound of year 9999), the
    time of day keeps its fields. *)
Record datetime : Type := mkdatetime {
  ordinal : Z;
  dt_hour : Z;
  dt_minute : Z;
  dt_second : Z;
  dt_microsecond : Z
}.

Module Datetime.

(** Field-wise comparison, most significant field first. *)
Definition key (d : datetime) : list Z :=
  [ordinal d; dt_hour d; dt_minute d; dt_second d; dt_microsecond d].

Fixpoint lex_compare (a b : list Z) : comparison :=
  match a, b with
  | x :: a', y :: b' =>
      match x ?= y with
      | Eq => lex_compare a' b'
      | c => c
      end
  | [], [] => Eq
  | [], _ :: _ => Lt
  | _ :: _, [] => Gt
  end.

Definition compare (a b : datetime) : comparison :=
  lex_compare (key a) (key b).

Definition ltb (a b : datetime) : bool :=
  match compare a b with Lt => true | _ => false end.

Definition leb (a b : datetime) : bool :=
  match compare a b with Gt => false | _ => true end.

(** [d + timedelta(days=n)]. *)
Definition add_days (d : datetime) (n : Z) : datetime :=
  mkdatetime (ordinal d + n) (dt_hour d) (dt_minute d) (dt_second d)
             (dt_microsecond d).

(** [d + timedelta(minutes=n)]: the minutes carry into hours and days. *)
Definition add_minutes (d : datetime) (n : Z) : datetime :=
  let total := dt_hour d * 60 + dt_minute d + n in
  mkdatetime (ordinal d + total / 1440) (total mod 1440 / 60)
             (total mod 60) (dt_second d) (dt_microsecond d).

(** [d.replace(hour=h, minute=m, second=s)]: the date and the
    microsecond are kept. *)
Definition replace_hms (d : datetime) (h m s : Z) : datetime :=
  mkdatetime (ordinal d) h m s (dt_microsecond d).

(** [d.weekday()], Monday is 0; ordinal 1 is a Monday. *)
Definition weekday (d : datetime) : Z := (ordinal d + 6) mod 7.

(** [d.strftime("%Y-%m-%d %H:%M:%S")]: the text keeps every field but
    the microsecond, and its alphabetical order is the order of the
    instants.  The text is represented by the [datetime] it denotes. *)
Definition strftime (d : datetime) : datetime :=
  mkdatetime (ordinal d) (dt_hour d) (dt_minute d) (dt_second d) 0.

End Datetime.

(* ================================================================== *)
(** * Values loaded from JSON *)
(* ================================================================== *)

(** A Python [str]: its characters, what [datetime.fromisoformat]
    returns on it ([None] where it raises [ValueError]), and whether it
    can be encoded as UTF-8 (a JSON string may hold a lone surrogate,
    which cannot). *)
Record text : Type := mktext {
  content : string;
  iso : option datetime;
  utf8 : bool
}.

(** A text that is not an ISO date. *)
Definition plain (s : string) : text := mktext s None true.

(** A value as [json.loads] builds it: [None], [bool], [int], [float]
    (finite, or one of [nan], [inf], [-inf]), [str], [list], and [dict]
    with its entries in insertion order. *)
#[warnings="-register-all"] Inductive pyvalue : Type :=
| PyNone
| PyBool (b : bool)
| PyInt (n : Z)
| PyFloat (x : Q)
| PyNonFinite
| PyStr (t : text)
| PyList (items : list pyvalue)
| PyDict (entries : list (text * pyvalue)).

(* ================================================================== *)
(** * config.py *)
(* ================================================================== *)

Record coords : Type := mkcoords { lat : Q; lon : Q }.

Module Config.

Definition LOCATIONS : list (string * coords) :=
  [ ("Jakarta Pusat",   mkcoords (-62088 # 10000) (1068456 # 10000));
    ("Jakarta Selatan", mkcoords (-62614 # 10000) (1068456 # 10000));
    ("Jakarta Utara",   mkcoords (-61361 # 10000) (1068513 # 10000));
    ("Jakarta Timur",   mkcoords (-62297 # 10000) (1069012 # 10000));
    ("Jakarta Barat",   mkcoords (-61847 # 10000) (1067513 # 10000)) ].

Record band : Type := mkband { b_start : Z; b_end : Z }.

Definition PEAK_MORNING : band := mkband 6 9.
Definition PEAK_EVENING : band := mkband 16 19.

Definition VEHICLE_PATTERN : list (Z * Z) :=
  [ (0, 50); (1, 40); (2, 35); (3, 30); (4, 40); (5, 80);
    (6, 200); (7, 350); (8, 400); (9, 250); (10, 180); (11, 200);
    (12, 220); (13, 200); (14, 180); (15, 200); (16, 300);
    (17, 420); (18, 380); (19, 250); (20, 180); (21, 150);
    (22, 120); (23, 80) ].

Definition RAIN_IMPACT : list (string * Q) :=
  [ ("none", 1%Q);
    ("light", 13 # 10);
    ("moderate", 16 # 10);
    ("heavy", 18 # 10);
    ("extreme", 2%Q) ].

Definition TRAFFIC_THRESHOLDS : list (string * (Z * Z)) :=
  [ ("Lancar",       (0, 100));
    ("Sedang",       (100, 200));
    ("Padat",        (200, 350));
    ("Sangat Padat", (350, 500));
    ("Macet",        (500, 9999)) ].

Definition HISTORICAL_DAYS : Z := 30.
Definition DATA_INTERVAL_MINUTES : Z := 5.

End Config.

(** The settings a deployment may change: the set of locations, the
    length of the backfill and its granularity.  [repo_settings] is what
    [config.py] holds. *)
Record settings : Type := mksettings {
  cfg_LOCATIONS : list (string * coords);
  cfg_HISTORICAL_DAYS : Z;
  cfg_DATA_INTERVAL_MINUTES : Z
}.

Definition repo_settings : settings :=
  mksettings Config.LOCATIONS Config.HISTORICAL_DAYS
             Config.DATA_INTERVAL_MINUTES.

(* ================================================================== *)
(** * Records exchanged between the modules *)
(* ================================================================== *)

(** The dict each simulation step emits (a row of [traffic_data] without
    its [id]). *)
Record traffic_record : Type := mktraffic {
  timestamp : datetime;
  location : string;
  vehicle_count : Z;
  condition : string;
  speed_kmh : Q;
  hour : Z;
  is_peak : Z;
  rain_factor : Q;
  data_source : string
}.

(** The dict a weather fetch or the generator emits (a row of
    [weather_data] without its [id]).  A fetch copies the temperature,
    the precipitation, the wind speed and the weather code from the
    response as they are, whatever JSON value they hold. *)
Record weather_record : Type := mkweather {
  w_timestamp : datetime;
  w_location : string;
  temperature : pyvalue;
  precipitation : pyvalue;
  windspeed : pyvalue;
  weather_code : pyvalue;
  weather_desc : string;
  rain_category : string
}.

(** Rows as [SELECT *] returns them: the record plus the autoincrement
    [id]. *)
Record traffic_row : Type := mktraffic_row {
  id : Z;
  t_record :> traffic_record
}.

Record weather_row : Type := mkweather_row {
  w_id : Z;
  w_record :> weather_record
}.

(* ================================================================== *)
(** * database.py *)
(* ================================================================== *)

(** The SQLite file with its tables created: the two row sets in
    insertion order and the autoincrement counters. *)
Record database : Type := mkdatabase {
  traffic_data : list traffic_row;
  weather_data : list weather_row;
  traffic_seq : Z;
  weather_seq : Z
}.

Module TrafficDatabase.

Definition empty : database := mkdatabase [] [] 0 0.

(** The ids SQLite hands out to a batch: consecutive, from [n]. *)
Fixpoint number_from {A B : Type} (mk : Z -> A -> B) (n : Z)
         (l : list A) : list B :=
  match l with
  | [] => []
  | x :: rest => mk n x :: number_from mk (n + 1) rest
  end.

(** Stable insertion sort, used for [ORDER BY] and pandas sorts. *)
Fixpoint insert_sorted {A : Type} (le : A -> A -> bool) (x : A)
         (l : list A) : list A :=
  match l with
  | [] => [x]
  | y :: rest => if le x y then x :: y :: rest
                 else y :: insert_sorted le x rest
  end.

Definition sort {A : Type} (le : A -> A -> bool) (l : list A) : list A :=
  fold_right (insert_sorted le) [] l.

Definition insert_traffic_data (records : list traffic_record)
           (d : database) : database :=
  match records with
  | [] => d
  | _ :: _ =>
      mkdatabase
        (traffic_data d
           ++ number_from mktraffic_row (traffic_seq d + 1) records)
        (weather_data d)
        (traffic_seq d + Z.of_nat (List.length records))
        (weather_seq d)
  end.

(** What [sqlite3] does with a value bound to a placeholder: [None],
    [bool], [float] and [int] of 64 bits are stored, and so is a text
    that can be encoded; a [list] or a [dict] is refused with
    [ProgrammingError] ([InterfaceError] before Python 3.11, a
    difference that is not represented), an [int] outside 64 bits with
    [OverflowError], a text that cannot be encoded with
    [UnicodeEncodeError]. *)
Definition bind_parameter (v : pyvalue) : option Py.exn :=
  match v with
  | PyList _ | PyDict _ => Some Py.ProgrammingError
  | PyInt n =>
      if (- 2 ^ 63 <=? n) && (n <? 2 ^ 63) then None
      else Some Py.OverflowError
  | PyStr t => if utf8 t then None else Some Py.UnicodeEncodeError
  | PyNone | PyBool _ | PyFloat _ | PyNonFinite => None
  end.

(** The placeholders of the [INSERT INTO weather_data] statement that
    take a value of the response, in the order they are bound; the
    first one refused decides the exception. *)
Definition bind_weather (record : weather_record) : option Py.exn :=
  match bind_parameter (temperature record) with
  | Some e => Some e
  | None =>
      match bind_parameter (precipitation record) with
      | Some e => Some e
      | None =>
          match bind_parameter (windspeed record) with
          | Some e => Some e
          | None => bind_parameter (weather_code record)
          end
      end
  end.

(** [cursor.execute] raises before [commit]: the row is stored only
    when every value can be bound. *)
Definition insert_weather_data (record : weather_record)
           (d : database) : result database :=
  match bind_weather record with
  | Some e => Raises e
  | None =>
      Returns
        (mkdatabase
           (traffic_data d)
           (weather_data d ++ [mkweather_row (weather_seq d + 1) record])
           (traffic_seq d)
           (weather_seq d + 1))
  end.

(** The first record of a batch that cannot be bound, if any. *)
Fixpoint bind_batch (records : list weather_record) : option Py.exn :=
  match records with
  | [] => None
  | r :: rest =>
      match bind_weather r with
      | Some e => Some e
      | None => bind_batch rest
      end
  end.

(** [cursor.executemany] on [weather_data], as the generator calls it:
    it raises at the first record that cannot be bound, before
    [commit], so that nothing of the batch is stored. *)
Definition insert_weather_batch (records : list weather_record)
           (d : database) : result database :=
  match bind_batch records with
  | Some e => Raises e
  | None =>
      Returns
        (mkdatabase
           (traffic_data d)
           (weather_data d
              ++ number_from mkweather_row (weather_seq d + 1) records)
           (traffic_seq d)
           (weather_seq d + Z.of_nat (List.length records)))
  end.

(** [ORDER BY timestamp DESC]. *)
Definition newest_first (a b : traffic_row) : bool :=
  Datetime.leb (timestamp b) (timestamp a).

(** [SELECT * FROM traffic_data ORDER BY timestamp DESC]. *)
Definition get_all_traffic_data (d : database) : list traffic_row :=
  sort newest_first (traffic_data d).

(** [SELECT * FROM traffic_data WHERE location = ? ORDER BY timestamp
    DESC]. *)
Definition get_traffic_by_location (loc : string) (d : database)
  : list traffic_row :=
  sort newest_first
       (filter (fun r : traffic_row => String.eqb (location r) loc)
               (traffic_data d)).

Definition get_traffic_count (d : database) : Z :=
  Z.of_nat (List.length (traffic_data d)).

Definition get_weather_count (d : database) : Z :=
  Z.of_nat (List.length (weather_data d)).

Definition clear_all_data (d : database) : database :=
  mkdatabase [] [] (traffic_seq d) (weather_seq d).

(** [SELECT * FROM traffic_data ORDER BY timestamp DESC LIMIT ?]; a
    negative limit means no limit in SQLite. *)
Definition get_latest_traffic (limit : Z) (d : database)
  : list traffic_row :=
  if limit <? 0 then get_all_traffic_data d
  else firstn (Z.to_nat limit) (get_all_traffic_data d).

Definition newest_weather_first (a b : weather_row) : bool :=
  Datetime.leb (w_timestamp b) (w_timestamp a).

(** [SELECT * FROM weather_data ORDER BY timestamp DESC]. *)
Definition get_all_weather_data (d : database) : list weather_row :=
  sort newest_weather_first (weather_data d).

(** [SELECT MAX(id) FROM weather_data GROUP BY location]: one id per
    location that has rows.  The ids of an autoincrement column are
    positive, so the maximum can be taken from 0. *)
Definition max_ids (rows : list weather_row) : list Z :=
  map (fun loc =>
         fold_right Z.max 0
           (map w_id
                (filter (fun r : weather_row =>
                           String.eqb (w_location r) loc) rows)))
      (nodup string_dec (map (fun r : weather_row => w_location r) rows)).

Definition by_location (a b : weather_row) : bool :=
  String.leb (w_location a) (w_location b).

(** [SELECT * FROM weather_data WHERE id IN (SELECT MAX(id) ... GROUP BY
    location) ORDER BY location]. *)
Definition get_latest_weather (d : database) : list weather_row :=
  sort by_location
       (filter (fun r : weather_row =>
                  existsb (Z.eqb (w_id r)) (max_ids (weather_data d)))
               (weather_data d)).

End TrafficDatabase.

(* ================================================================== *)
(** * The world outside the program *)
(* ================================================================== *)

(** The body of a response: text that is not JSON, or a JSON value. *)
Inductive json_body : Type :=
| InvalidJson                       (* [response.json()] raises *)
| Json (v : pyvalue).

Record response : Type := mkresponse {
  status_code : Z;
  json : json_body
}.

(** What one [requests.get(..., timeout=10)] call does. *)
Inductive http_outcome : Type :=
| HttpConnectionError
| HttpTimeout
| HttpOtherError
| HttpResponse (r : response).

Record world : Type := mkworld {
  rng_draws : nat -> Q;        (* successive values of [random.random()] *)
  rng_pos : nat;
  clock : nat -> datetime;     (* successive values of [datetime.now()] *)
  clock_pos : nat;
  net : nat -> http_outcome;   (* successive outcomes of [requests.get] *)
  net_pos : nat;
  db : database
}.

(** The result of running a command: a value, an exception, or a loop
    that used up its fuel. *)
Inductive outcome (A : Type) : Type :=
| Ok (a : A) (w : world)
| Raise (e : Py.exn) (w : world)
| OutOfFuel.

Arguments Ok {A} a w.
Arguments Raise {A} e w.
Arguments OutOfFuel {A}.

Definition M (A : Type) : Type := world -> outcome A.

Definition ret {A : Type} (a : A) : M A := fun w => Ok a w.

Definition bind {A B : Type} (m : M A) (f : A -> M B) : M B :=
  fun w =>
    match m w with
    | Ok a w' => f a w'
    | Raise e w' => Raise e w'
    | OutOfFuel => OutOfFuel
    end.

Definition raise {A : Type} (e : Py.exn) : M A := fun w => Raise e w.

(** [try: body / except Exception: handler]. *)
Definition try_except {A : Type} (body : M A) (handler : Py.exn -> M A)
  : M A :=
  fun w =>
    match body w with
    | Raise e w' => handler e w'
    | r => r
    end.

Declare Scope monad_scope.
Delimit Scope monad_scope with monad.
Notation "x <- m ;; k" := (bind m (fun x => k))
  (at level 61, m at next level, right associativity) : monad_scope.
Notation "m ;;; k" := (bind m (fun _ => k))
  (at level 61, right associativity) : monad_scope.
Open Scope monad_scope.

(** [for x in xs: acc = body(x, acc)]. *)
Fixpoint for_each {A S : Type} (xs : list A) (body : A -> S -> M S)
         (acc : S) : M S :=
  match xs with
  | [] => ret acc
  | x :: rest => acc' <- body x acc ;; for_each rest body acc'
  end.

(** [a / b] on floats. *)
Definition truediv (a b : Q) : M Q :=
  if Qeq_bool b 0 then raise Py.ZeroDivisionError else ret (a / b)%Q.

(** [a // b] on ints. *)
Definition floordiv (a b : Z) : M Z :=
  if b =? 0 then raise Py.ZeroDivisionError else ret (a / b).

(** [random.random()]. *)
Definition random : M Q :=
  fun w =>
    Ok (rng_draws w (rng_pos w))
       (mkworld (rng_draws w) (S (rng_pos w)) (clock w) (clock_pos w)
                (net w) (net_pos w) (db w)).

(** [random.uniform(a, b)], which is [a + (b - a) * random()]. *)
Definition uniform (a b : Q) : M Q :=
  x <- random ;; ret (a + (b - a) * x)%Q.

(** [datetime.now()]. *)
Definition datetime_now : M datetime :=
  fun w =>
    Ok (clock w (clock_pos w))
       (mkworld (rng_draws w) (rng_pos w) (clock w) (S (clock_pos w))
                (net w) (net_pos w) (db w)).

(** [requests.get(url, params=params, timeout=10)]. *)
Definition requests_get : M response :=
  fun w =>
    let w' := mkworld (rng_draws w) (rng_pos w) (clock w) (clock_pos w)
                      (net w) (S (net_pos w)) (db w) in
    match net w (net_pos w) with
    | HttpConnectionError => Raise Py.ConnectionError w'
    | HttpTimeout => Raise Py.Timeout w'
    | HttpOtherError => Raise Py.RequestException w'
    | HttpResponse r => Ok r w'
    end.

(** Running a database method on the world's database. *)
Definition with_db (f : database -> database) : M unit :=
  fun w =>
    Ok tt (mkworld (rng_draws w) (rng_pos w) (clock w) (clock_pos w)
                   (net w) (net_pos w) (f (db w))).

Definition read_db {A : Type} (f : database -> A) : M A :=
  fun w => Ok (f (db w)) w.

(** Running a database method that can raise: the database changes only
    when it returns. *)
Definition db_do (f : database -> result database) : M unit :=
  fun w =>
    match f (db w) with
    | Returns d =>
        Ok tt (mkworld (rng_draws w) (rng_pos w) (clock w) (clock_pos w)
                       (net w) (net_pos w) d)
    | Raises e => Raise e w
    end.

(** [for name, (low, high) in table.items(): if low <= v < high: ...]:
    the first band, in the table's order, that holds [v]. *)
Fixpoint first_band (table : list (string * (Z * Z))) (v : Z)
  : option string :=
  match table with
  | [] => None
  | (name, (low, high)) :: rest =>
      if (low <=? v) && (v <? high) then Some name else first_band rest v
  end.

(* ================================================================== *)
(** * weather_api.py *)
(* ================================================================== *)

Module WeatherAPI.

Record weather_info : Type := mkinfo {
  description : string;
  info_rain_category : string
}.

Definition weather_map : list (Z * weather_info) :=
  [ (0,  mkinfo "Cerah" "none");
    (1,  mkinfo "Cerah Sebagian" "none");
    (2,  mkinfo "Berawan Sebagian" "none");
    (3,  mkinfo "Mendung" "none");
    (45, mkinfo "Kabut" "none");
    (48, mkinfo "Kabut Tebal" "none");
    (51, mkinfo "Gerimis Ringan" "light");
    (53, mkinfo "Gerimis Sedang" "light");
    (55, mkinfo "Gerimis Lebat" "moderate");
    (61, mkinfo "Hujan Ringan" "light");
    (63, mkinfo "Hujan Sedang" "moderate");
    (65, mkinfo "Hujan Lebat" "heavy");
    (66, mkinfo "Hujan Es Ringan" "moderate");
    (67, mkinfo "Hujan Es Lebat" "heavy");
    (71, mkinfo "Salju Ringan" "light");
    (73, mkinfo "Salju Sedang" "moderate");
    (75, mkinfo "Salju Lebat" "heavy");
    (80, mkinfo "Hujan Singkat" "light");
    (81, mkinfo "Hujan Singkat Sedang" "moderate");
    (82, mkinfo "Hujan Singkat Lebat" "heavy");
    (95, mkinfo "Petir" "extreme");
    (96, mkinfo "Petir + Es" "extreme");
    (99, mkinfo "Petir + Es Lebat" "extreme") ].

(** [weather_map.get(code, {...})] at an [int] code. *)
Definition decode_weather_code (code : Z) : weather_info :=
  Py.get Z.eqb weather_map code (mkinfo "Unknown" "none").

(** [decode_weather_code] at any value of the response.  A [list] or a
    [dict] cannot be hashed; a [bool] or a [float] equal to an [int]
    is the same key as that [int]; nothing else is a key of the
    table. *)
Definition weather_info_of (code : pyvalue) : option weather_info :=
  match code with
  | PyList _ | PyDict _ => None
  | PyInt n => Some (decode_weather_code n)
  | PyBool b => Some (decode_weather_code (if b then 1 else 0))
  | PyFloat x =>
      if Qeq_bool x (inject_Z (Qfloor x))
      then Some (decode_weather_code (Qfloor x))
      else Some (mkinfo "Unknown" "none")
  | PyNone | PyNonFinite | PyStr _ => Some (mkinfo "Unknown" "none")
  end.

Definition decode_weather_value (code : pyvalue) : M weather_info :=
  match weather_info_of code with
  | Some info => ret info
  | None => raise Py.TypeError
  end.

(** [response.json()]. *)
Definition response_json (r : response) : M pyvalue :=
  match json r with
  | InvalidJson => raise Py.ValueError
  | Json v => ret v
  end.

(** The entry of a key in a [dict]. *)
Fixpoint dict_lookup (entries : list (text * pyvalue)) (key : string)
  : option pyvalue :=
  match entries with
  | [] => None
  | (k, v) :: rest =>
      if String.eqb (content k) key then Some v
      else dict_lookup rest key
  end.

(** The entry of a key in a [dict], or the default. *)
Definition get_or (entries : list (text * pyvalue)) (key : string)
           (default : pyvalue) : pyvalue :=
  match dict_lookup entries key with
  | Some v => v
  | None => default
  end.

(** [value.get(key, default)]: only a [dict] has the method. *)
Definition method_get (value : pyvalue) (key : string)
           (default : pyvalue) : M pyvalue :=
  match value with
  | PyDict entries => ret (get_or entries key default)
  | _ => raise Py.AttributeError
  end.

Definition is_text (key : string) (v : pyvalue) : bool :=
  match v with
  | PyStr t => String.eqb (content t) key
  | _ => false
  end.

(** [key in value]: a key of a [dict], an item of a [list], a piece of
    a [str]; anything else cannot be searched. *)
Definition contains (value : pyvalue) (key : string) : M bool :=
  match value with
  | PyDict entries =>
      ret (match dict_lookup entries key with
           | Some _ => true
           | None => false
           end)
  | PyList items => ret (existsb (is_text key) items)
  | PyStr t =>
      ret (match String.index 0 key (content t) with
           | Some _ => true
           | None => false
           end)
  | _ => raise Py.TypeError
  end.

(** A [str] of one character. *)
Definition character (c : Ascii.ascii) : pyvalue :=
  PyStr (plain (String c EmptyString)).

(** What [enumerate(value)] walks through: the items of a [list], the
    characters of a [str], the keys of a [dict]; anything else is not
    iterable. *)
Definition iterate (value : pyvalue) : M (list pyvalue) :=
  match value with
  | PyList items => ret items
  | PyStr t => ret (map character (list_ascii_of_string (content t)))
  | PyDict entries => ret (map (fun kv => PyStr (fst kv)) entries)
  | _ => raise Py.TypeError
  end.

(** [datetime.fromisoformat(value)]. *)
Definition fromisoformat (value : pyvalue) : M datetime :=
  match value with
  | PyStr t =>
      match iso t with
      | Some d => ret d
      | None => raise Py.ValueError
      end
  | _ => raise Py.TypeError
  end.

(** [value[i]] at a position of [enumerate]: a [dict] loaded from JSON
    has no [int] key. *)
Definition subscript (value : pyvalue) (i : nat) : M pyvalue :=
  match value with
  | PyList items =>
      match nth_error items i with
      | Some v => ret v
      | None => raise Py.IndexError
      end
  | PyStr t =>
      match String.get i (content t) with
      | Some c => ret (character c)
      | None => raise Py.IndexError
      end
  | PyDict _ => raise Py.KeyError
  | _ => raise Py.TypeError
  end.

(** The [for i, time_str in enumerate(times)] loop: the precipitation at
    the first entry whose hour is the current one. *)
Fixpoint scan_hourly (times : list pyvalue) (i : nat)
         (precipitations : pyvalue) (current_hour : Z)
         (default : pyvalue) : M pyvalue :=
  match times with
  | [] => ret default
  | time_str :: rest =>
      t <- fromisoformat time_str ;;
      if dt_hour t =? current_hour then subscript precipitations i
      else scan_hourly rest (S i) precipitations current_hour default
  end.

Definition get_weather (locations : list (string * coords))
           (loc : string) : M (option weather_record) :=
  if negb (Py.contains String.eqb locations loc) then ret None
  else
    try_except
      (resp <- requests_get ;;
       if negb (status_code resp =? 200) then ret None
       else
         data <- response_json resp ;;
         current <- method_get data "current_weather" (PyDict []) ;;
         hourly <- method_get data "hourly" (PyDict []) ;;
         now <- datetime_now ;;
         let current_hour := dt_hour now in
         has_precipitation <- contains hourly "precipitation" ;;
         precip <-
           (if has_precipitation then
              times <- method_get hourly "time" (PyList []) ;;
              entries <- iterate times ;;
              precipitations <- method_get hourly "precipitation" PyNone ;;
              scan_hourly entries 0 precipitations current_hour
                          (PyFloat 0)
            else ret (PyFloat 0)) ;;
         code <- method_get current "weathercode" (PyInt 0) ;;
         info <- decode_weather_value code ;;
         temp <- method_get current "temperature" (PyInt 0) ;;
         wind <- method_get current "windspeed" (PyInt 0) ;;
         stamp <- datetime_now ;;
         ret (Some
                (mkweather (Datetime.strftime stamp) loc temp precip wind
                           code (description info)
                           (info_rain_category info))))
      (fun _ => ret None).

Definition get_all_weather (locations : list (string * coords))
  : M (list weather_record) :=
  for_each (map fst locations)
           (fun loc results =>
              data <- get_weather locations loc ;;
              match data with
              | Some d => ret (results ++ [d])
              | None => ret results
              end)
           [].

Definition fetch_and_save (locations : list (string * coords))
  : M (list weather_record) :=
  weather_list <- get_all_weather locations ;;
  for_each weather_list
           (fun weather _ =>
              db_do (TrafficDatabase.insert_weather_data weather))
           tt ;;;
  ret weather_list.

End WeatherAPI.

(* ================================================================== *)
(** * traffic_engine.py *)
(* ================================================================== *)

Module TrafficEngine.

Import Config.

Definition is_peak_hour (hour : Z) : bool :=
  let is_morning_peak :=
    (b_start PEAK_MORNING <=? hour) && (hour <? b_end PEAK_MORNING) in
  let is_evening_peak :=
    (b_start PEAK_EVENING <=? hour) && (hour <? b_end PEAK_EVENING) in
  is_morning_peak || is_evening_peak.

Definition get_traffic_condition (vehicle_count : Z) : string :=
  match first_band TRAFFIC_THRESHOLDS vehicle_count with
  | Some condition => condition
  | None => "Macet"
  end.

Definition calculate_speed (vehicle_count : Z) (rain_factor : Q) : M Q :=
  let max_speed := 60%Q in
  let min_speed := 5%Q in
  let speed := (max_speed - inject_Z vehicle_count / 10)%Q in
  speed <- truediv speed rain_factor ;;
  noise <- uniform (-3) 3 ;;
  let speed := (speed + noise)%Q in
  let speed := Py.max min_speed (Py.min max_speed speed) in
  ret (Py.round speed 1).

Definition simulate_location (loc : string)
           (weather_data : option weather_record) : M traffic_record :=
  now <- datetime_now ;;
  let hour := dt_hour now in
  let base_vehicles := Py.get Z.eqb VEHICLE_PATTERN hour 100 in
  location_variance <- uniform (8 # 10) (12 # 10) ;;
  let vehicles := Py.int (inject_Z base_vehicles * location_variance) in
  let '(rain_factor, vehicles) :=
    match weather_data with
    | Some w =>
        let rain_cat := rain_category w in
        let rain_factor := Py.get String.eqb RAIN_IMPACT rain_cat 1%Q in
        (rain_factor, Py.int (inject_Z vehicles * rain_factor))
    | None => (1%Q, vehicles)
    end in
  let condition := get_traffic_condition vehicles in
  speed <- calculate_speed vehicles rain_factor ;;
  let is_peak := if is_peak_hour hour then 1 else 0 in
  ret (mktraffic (Datetime.strftime now) loc vehicles condition speed
                 hour is_peak rain_factor "real_time_simulated").

Definition run_simulation_cycle (cfg : settings)
  : M (list traffic_record) :=
  weather_list <- WeatherAPI.fetch_and_save (cfg_LOCATIONS cfg) ;;
  let weather_map :=
    fold_left (fun m w => Py.set String.eqb m (w_location w) w)
              weather_list [] in
  traffic_records <-
    for_each (map fst (cfg_LOCATIONS cfg))
             (fun loc records =>
                let weather := Py.lookup String.eqb loc weather_map in
                traffic <- simulate_location loc weather ;;
                ret (records ++ [traffic]))
             [] ;;
  with_db (TrafficDatabase.insert_traffic_data traffic_records) ;;;
  ret traffic_records.

End TrafficEngine.

(* ================================================================== *)
(** * data_generator.py *)
(* ================================================================== *)

(** The dict [simulate_historical_weather] returns. *)
Record simulated_weather : Type := mksimulated {
  sw_precipitation : Q;
  sw_rain_category : string;
  sw_temperature : Q
}.

(** The local variables the two nested loops of the backfill update. *)
Record batches : Type := mkbatches {
  traffic_batch : list traffic_record;
  weather_batch : list weather_record;
  count : Z
}.

Module DataGenerator.

Import Config.

Definition simulate_historical_weather (hour day_of_week : Z)
  : M simulated_weather :=
  let rain_probability :=
    if (6 <=? hour) && (hour <=? 10) then (45 # 100)%Q
    else if (15 <=? hour) && (hour <=? 18) then (40 # 100)%Q
    else if (0 <=? hour) && (hour <=? 5) then (10 # 100)%Q
    else (15 # 100)%Q in
  let rain_probability := (rain_probability * (12 # 10))%Q in
  draw <- random ;;
  let is_rain := Py.ltb draw rain_probability in
  rain <-
    (if is_rain then
       intensity <- random ;;
       if Py.ltb intensity (5 # 10) then
         amount <- uniform (5 # 10) (25 # 10) ;;
         ret ("light", Py.round amount 2)
       else if Py.ltb intensity (8 # 10) then
         amount <- uniform (25 # 10) 7 ;;
         ret ("moderate", Py.round amount 2)
       else if Py.ltb intensity (95 # 100) then
         amount <- uniform 7 15 ;;
         ret ("heavy", Py.round amount 2)
       else
         amount <- uniform 15 30 ;;
         ret ("extreme", Py.round amount 2)
     else ret ("none", 0%Q)) ;;
  let '(rain_cat, precip) := rain in
  degrees <-
    (if (5 <=? hour) && (hour <=? 10) then uniform 25 29
     else if (10 <=? hour) && (hour <=? 15) then uniform 29 33
     else if (15 <=? hour) && (hour <=? 20) then uniform 27 31
     else uniform 24 28) ;;
  ret (mksimulated precip rain_cat (Py.round degrees 1)).

Definition get_condition (vehicle_count : Z) : string :=
  match first_band TRAFFIC_THRESHOLDS vehicle_count with
  | Some condition => condition
  | None => "Macet"
  end.

Definition calculate_speed (vehicle_count : Z) (rain_factor : Q) : M Q :=
  let max_speed := 60%Q in
  let min_speed := 5%Q in
  let speed := (max_speed - inject_Z vehicle_count / 10)%Q in
  speed <- truediv speed rain_factor ;;
  noise <- uniform (-3) 3 ;;
  let speed := (speed + noise)%Q in
  let speed := Py.max min_speed (Py.min max_speed speed) in
  ret (Py.round speed 1).

(** The inline test [6 <= hour <= 8 or 16 <= hour <= 18]. *)
Definition peak_test (hour : Z) : bool :=
  ((6 <=? hour) && (hour <=? 8)) || ((16 <=? hour) && (hour <=? 18)).

(** Body of the first [for location in LOCATIONS]: one traffic record. *)
Definition traffic_step (current_time : datetime) (day_of_week : Z)
           (weather : simulated_weather) (loc : string) (b : batches)
  : M batches :=
  let hour := dt_hour current_time in
  let base_vehicles := Py.get Z.eqb VEHICLE_PATTERN hour 100 in
  location_var <- uniform (8 # 10) (12 # 10) ;;
  day_var <-
    (if day_of_week >=? 5 then uniform (6 # 10) (85 # 100)
     else uniform (9 # 10) (11 # 10)) ;;
  let rain_factor :=
    Py.get String.eqb RAIN_IMPACT (sw_rain_category weather) 1%Q in
  let vehicles :=
    Py.int (inject_Z base_vehicles * location_var * day_var
            * rain_factor) in
  let condition := get_condition vehicles in
  speed <- calculate_speed vehicles rain_factor ;;
  let is_peak := if peak_test hour then 1 else 0 in
  ret (mkbatches
         (traffic_batch b
            ++ [mktraffic (Datetime.strftime current_time) loc vehicles
                          condition speed hour is_peak rain_factor
                          "historical_generated"])
         (weather_batch b)
         (count b + 1)).

(** Body of the second [for location in LOCATIONS]: one weather
    record. *)
Definition weather_step (current_time : datetime)
           (weather : simulated_weather) (loc : string) (b : batches)
  : M batches :=
  wind <- uniform 5 25 ;;
  let rainy := negb (String.eqb (sw_rain_category weather) "none") in
  ret (mkbatches
         (traffic_batch b)
         (weather_batch b
            ++ [mkweather (Datetime.strftime current_time) loc
                          (PyFloat (sw_temperature weather))
                          (PyFloat (sw_precipitation weather))
                          (PyFloat (Py.round wind 1))
                          (PyInt (if rainy then 61 else 0))
                          (if rainy then "Hujan" else "Cerah")
                          (sw_rain_category weather)])
         (count b)).

(** The inner [while current_time <= end_of_day and current_time < now]
    loop. *)
Fixpoint slot_loop (fuel : nat) (cfg : settings) (now end_of_day : datetime)
         (day_of_week total_expected : Z) (current_time : datetime)
         (weather_cache : list (Z * simulated_weather)) (b : batches)
  : M batches :=
  match fuel with
  | O => fun _ => OutOfFuel
  | S fuel' =>
      if Datetime.leb current_time end_of_day
         && Datetime.ltb current_time now
      then
        let hour := dt_hour current_time in
        weather_cache <-
          (if negb (Py.contains Z.eqb weather_cache hour) then
             w <- simulate_historical_weather hour day_of_week ;;
             ret (Py.set Z.eqb weather_cache hour w)
           else ret weather_cache) ;;
        weather <-
          match Py.lookup Z.eqb hour weather_cache with
          | Some w => ret w
          | None => raise Py.KeyError
          end ;;
        b <- for_each (map fst (cfg_LOCATIONS cfg))
                      (traffic_step current_time day_of_week weather) b ;;
        b <- (if dt_minute current_time =? 0 then
                for_each (map fst (cfg_LOCATIONS cfg))
                         (weather_step current_time weather) b
              else ret b) ;;
        (if count b mod 10000 =? 0 then
           truediv (inject_Z (count b)) (inject_Z total_expected) ;;;
           ret tt
         else ret tt) ;;;
        slot_loop fuel' cfg now end_of_day day_of_week total_expected
                  (Datetime.add_minutes current_time
                     (cfg_DATA_INTERVAL_MINUTES cfg))
                  weather_cache b
      else ret b
  end.

(** The outer [while current_date < now] loop. *)
Fixpoint day_loop (fuel : nat) (cfg : settings) (now : datetime)
         (total_expected : Z) (current_date : datetime) (b : batches)
  : M batches :=
  match fuel with
  | O => fun _ => OutOfFuel
  | S fuel' =>
      if Datetime.ltb current_date now then
        let day_of_week := Datetime.weekday current_date in
        let current_time := Datetime.replace_hms current_date 0 0 0 in
        let end_of_day := Datetime.replace_hms current_date 23 59 59 in
        b <- slot_loop fuel cfg now end_of_day day_of_week total_expected
                       current_time [] b ;;
        let current_date := Datetime.add_days current_date 1 in
        b <- (if Z.of_nat (List.length (traffic_batch b)) >? 5000 then
                with_db (TrafficDatabase.insert_traffic_data
                           (traffic_batch b)) ;;;
                ret (mkbatches [] (weather_batch b) (count b))
              else ret b) ;;
        day_loop fuel' cfg now total_expected current_date b
      else ret b
  end.

(** [range(0, n, step)] for a positive [step]. *)
Fixpoint range_from (start step : nat) (len : nat) : list nat :=
  match len with
  | O => []
  | S len' => start :: range_from (start + step) step len'
  end.

Definition range_step (n step : nat) : list nat :=
  range_from 0 step ((n + (step - 1)) / step)%nat.

Definition generate_historical_data (fuel : nat) (cfg : settings)
  : M unit :=
  now <- datetime_now ;;
  let start_date := Datetime.add_days now (- cfg_HISTORICAL_DAYS cfg) in
  per_day <- floordiv (24 * 60) (cfg_DATA_INTERVAL_MINUTES cfg) ;;
  let total_expected :=
    cfg_HISTORICAL_DAYS cfg * per_day
    * Z.of_nat (List.length (cfg_LOCATIONS cfg)) in
  b <- day_loop fuel cfg now total_expected start_date
                (mkbatches [] [] 0) ;;
  (match traffic_batch b with
   | [] => ret tt
   | _ :: _ =>
       with_db (TrafficDatabase.insert_traffic_data (traffic_batch b))
   end) ;;;
  let batch_size := 1000%nat in
  for_each (range_step (List.length (weather_batch b)) batch_size)
           (fun i _ =>
              let batch := firstn batch_size (skipn i (weather_batch b)) in
              db_do (TrafficDatabase.insert_weather_batch batch))
           tt ;;;
  total_traffic <- read_db TrafficDatabase.get_traffic_count ;;
  total_weather <- read_db TrafficDatabase.get_weather_count ;;
  ret tt.

End DataGenerator.

(* ================================================================== *)
(** * numpy and pandas values *)
(* ================================================================== *)

(** A float64 as pandas hands it back: a number, or [NaN] where the
    statistic is undefined. *)
Inductive npfloat : Type :=
| NaN
| Num (q : Q).

Module Np.

Definition sum (xs : list Q) : Q := fold_right Qplus 0%Q xs.

Definition len {A : Type} (xs : list A) : Z := Z.of_nat (List.length xs).

(** [Series.mean()]. *)
Definition mean (xs : list Q) : npfloat :=
  match xs with
  | [] => NaN
  | _ :: _ => Num (sum xs / inject_Z (len xs))
  end.

(** [Series.var()]: the sample variance ([ddof=1]), [NaN] below two
    samples. *)
Definition var (xs : list Q) : npfloat :=
  if len xs <=? 1 then NaN
  else
    let m := (sum xs / inject_Z (len xs))%Q in
    Num (sum (map (fun x => (x - m) * (x - m))%Q xs)
         / inject_Z (len xs - 1)).

(** Sample covariance of two columns of one frame. *)
Definition cov (xs ys : list Q) : npfloat :=
  if len xs <=? 1 then NaN
  else
    let mx := (sum xs / inject_Z (len xs))%Q in
    let my := (sum ys / inject_Z (len ys))%Q in
    Num (sum (map (fun p => (fst p - mx) * (snd p - my))%Q
                  (combine xs ys))
         / inject_Z (len xs - 1)).

Definition add (a b : npfloat) : npfloat :=
  match a, b with
  | Num x, Num y => Num (x + y)
  | _, _ => NaN
  end.

Definition sub (a b : npfloat) : npfloat :=
  match a, b with
  | Num x, Num y => Num (x - y)
  | _, _ => NaN
  end.

(** [int(x)]: [NaN] cannot be converted. *)
Definition int (x : npfloat) : result Z :=
  match x with
  | NaN => Raises Py.ValueError
  | Num q => Returns (Py.int q)
  end.

(** [round(x, ndigits)] and [Series.round(ndigits)]. *)
Definition round (x : npfloat) (ndigits : nat) : npfloat :=
  match x with
  | NaN => NaN
  | Num q => Num (Py.round q ndigits)
  end.

(** [x >= c] and [x <= c]: every comparison with [NaN] is false. *)
Definition geb (x : npfloat) (c : Q) : bool :=
  match x with
  | NaN => false
  | Num q => Qle_bool c q
  end.

Definition leb (x : npfloat) (c : Q) : bool :=
  match x with
  | NaN => false
  | Num q => Qle_bool q c
  end.

(** Order used by [sort_values]: numbers ascending, [NaN] last. *)
Definition le_sort (a b : npfloat) : bool :=
  match a, b with
  | Num x, Num y => Qle_bool x y
  | Num _, NaN => true
  | NaN, Num _ => false
  | NaN, NaN => true
  end.

Definition maxZ (xs : list Z) : Z :=
  match xs with
  | [] => 0
  | x :: rest => fold_left Z.max rest x
  end.

Definition minZ (xs : list Z) : Z :=
  match xs with
  | [] => 0
  | x :: rest => fold_left Z.min rest x
  end.

Section Keys.
Context {K : Type} (eqb : K -> K -> bool) (le : K -> K -> bool).

Definition mem (k : K) (ks : list K) : bool := existsb (eqb k) ks.

(** [Series.unique()]: the distinct values, first occurrence first. *)
Fixpoint unique_acc (seen xs : list K) : list K :=
  match xs with
  | [] => []
  | x :: rest =>
      if mem x seen then unique_acc seen rest
      else x :: unique_acc (x :: seen) rest
  end.

Definition unique (xs : list K) : list K := unique_acc [] xs.

(** The group keys of [groupby(col)]: the distinct values, sorted. *)
Definition group_keys (xs : list K) : list K :=
  TrafficDatabase.sort le (unique xs).

Definition count_of (k : K) (xs : list K) : Z :=
  len (filter (eqb k) xs).

(** [Series.mode()]: the most frequent values, sorted. *)
Definition mode (xs : list K) : list K :=
  let keys := group_keys xs in
  let best := maxZ (map (fun k => count_of k xs) keys) in
  filter (fun k => count_of k xs =? best) keys.
End Keys.

End Np.

(* ================================================================== *)
(** * analytics.py *)
(* ================================================================== *)

(** A dict result: either the [{"error": msg}] dict or the payload. *)
Inductive report (A : Type) : Type :=
| ErrorDict (msg : string)
| Dict (a : A).

Arguments ErrorDict {A} msg.
Arguments Dict {A} a.

Record overall_stats : Type := mkoverall {
  os_total_records : Z;
  os_total_locations : Z;
  os_avg_vehicles : npfloat;
  os_max_vehicles : Z;
  os_min_vehicles : Z;
  os_avg_speed : npfloat;
  os_most_common_condition : string;
  os_peak_records : Z;
  os_rainy_records : Z
}.

(** One row of a [groupby(...).agg(avg_vehicles, max_vehicles, avg_speed,
    count)] frame, keyed by [K]. *)
Record group_row (K : Type) : Type := mkgroup {
  g_key : K;
  g_avg_vehicles : npfloat;
  g_max_vehicles : Z;
  g_avg_speed : npfloat;
  g_count : Z
}.

Arguments mkgroup {K}.
Arguments g_key {K}.
Arguments g_avg_vehicles {K}.
Arguments g_max_vehicles {K}.
Arguments g_avg_speed {K}.
Arguments g_count {K}.

Record rain_report : Type := mkrain {
  correlation_coefficient : npfloat;
  stats_by_category : list (group_row string);
  interpretation : string
}.

Record location_row : Type := mklocation {
  lc_location : string;
  lc_avg_vehicles : npfloat;
  lc_max_vehicles : Z;
  lc_min_vehicles : Z;
  lc_avg_speed : npfloat;
  lc_total_records : Z;
  lc_macet_count : Z;
  lc_macet_pct : npfloat
}.

Record prediction : Type := mkprediction {
  pr_location : string;
  pr_target_hour : Z;
  predicted_vehicles_min : Z;
  predicted_vehicles_avg : Z;
  predicted_vehicles_max : Z;
  predicted_speed : npfloat;
  predicted_condition : string;
  confidence : string;
  samples_used : Z
}.

Record daytype_stats : Type := mkdaytype {
  dy_label : string;
  dy_avg_vehicles : npfloat;
  dy_avg_speed : npfloat;
  dy_total_records : Z
}.

Record weekday_weekend : Type := mkweekday_weekend {
  weekday : daytype_stats;
  weekend : daytype_stats
}.

Record congestion_row : Type := mkcongestion {
  cg_timestamp : datetime;
  cg_location : string;
  cg_vehicle_count : Z;
  cg_condition : string;
  cg_speed_kmh : Q;
  cg_rain_factor : Q
}.

Record status_row : Type := mkstatus {
  st_location : string;
  st_vehicle_count : Z;
  st_condition : string;
  st_speed_kmh : Q;
  st_rain_factor : Q;
  st_timestamp : datetime
}.

Definition result_bind {A B : Type} (m : result A) (f : A -> result B)
  : result B :=
  match m with
  | Returns a => f a
  | Raises e => Raises e
  end.

Notation "x <~ m ;; k" := (result_bind m (fun x => k))
  (at level 61, m at next level, right associativity) : monad_scope.

Module TrafficAnalytics.

Import TrafficDatabase.

Definition vehicles (df : list traffic_row) : list Q :=
  map (fun r : traffic_row => inject_Z (vehicle_count r)) df.

Definition speeds (df : list traffic_row) : list Q :=
  map (fun r : traffic_row => speed_kmh r) df.

Definition is_empty {A : Type} (df : list A) : bool :=
  match df with [] => true | _ :: _ => false end.

(** [str(n)] inside an f-string. *)
Definition str (n : Z) : string := NilZero.string_of_int (Z.to_int n).

(* ---------------------------------------------------------------- *)
(** ** 1. Overall statistics *)

Definition get_overall_stats (d : database) : report overall_stats :=
  let df := get_all_traffic_data d in
  if is_empty df then ErrorDict "Tidak ada data"
  else
    let modes :=
      Np.mode String.eqb String.leb
              (map (fun r : traffic_row => condition r) df) in
    Dict (mkoverall
            (Np.len df)
            (Np.len (Np.unique String.eqb
                       (map (fun r : traffic_row => location r) df)))
            (Np.round (Np.mean (vehicles df)) 1)
            (Np.maxZ (map (fun r : traffic_row => vehicle_count r) df))
            (Np.minZ (map (fun r : traffic_row => vehicle_count r) df))
            (Np.round (Np.mean (speeds df)) 1)
            (match modes with m :: _ => m | [] => "N/A" end)
            (fold_right Z.add 0
                        (map (fun r : traffic_row => is_peak r) df))
            (Np.len (filter (fun r : traffic_row =>
                               Py.ltb 1 (rain_factor r)) df))).

(* ---------------------------------------------------------------- *)
(** ** 2. Hourly pattern *)

(** The truth value of a string: false only for the empty one. *)
Definition truthy (s : string) : bool := negb (String.eqb s "").

(** [df.groupby(key).agg(mean, max, mean, count).reset_index()]. *)
Definition aggregate {K : Type} (eqb le : K -> K -> bool)
           (key : traffic_row -> K) (df : list traffic_row)
  : list (group_row K) :=
  map (fun k =>
         let g := filter (fun r => eqb (key r) k) df in
         mkgroup k
                 (Np.mean (vehicles g))
                 (Np.maxZ (map (fun r : traffic_row => vehicle_count r) g))
                 (Np.mean (speeds g))
                 (Np.len g))
      (Np.group_keys eqb le (map key df)).

Definition round_means {K : Type} (rows : list (group_row K))
  : list (group_row K) :=
  map (fun g => mkgroup (g_key g)
                        (Np.round (g_avg_vehicles g) 1)
                        (g_max_vehicles g)
                        (Np.round (g_avg_speed g) 1)
                        (g_count g))
      rows.

Definition get_hourly_pattern (d : database) (loc : option string)
  : list (group_row Z) :=
  let df :=
    (* [if location:] fails for [None] and for the empty string *)
    match loc with
    | Some l => if truthy l then get_traffic_by_location l d
                else get_all_traffic_data d
    | None => get_all_traffic_data d
    end in
  if is_empty df then []
  else
    round_means
      (aggregate Z.eqb Z.leb (fun r : traffic_row => hour r) df).

(* ---------------------------------------------------------------- *)
(** ** 3. Rain correlation *)

Definition categorize_rain (factor : Q) : string :=
  if Py.leb factor 1 then "Tidak Hujan"
  else if Py.leb factor (13 # 10) then "Hujan Ringan"
  else if Py.leb factor (16 # 10) then "Hujan Sedang"
  else if Py.leb factor (18 # 10) then "Hujan Lebat"
  else "Hujan Ekstrem".

Definition _interpret_correlation (corr : npfloat) : string :=
  if Np.geb corr (7 # 10) then
    "Korelasi Kuat Positif: Hujan sangat mempengaruhi kemacetan"
  else if Np.geb corr (4 # 10) then
    "Korelasi Sedang Positif: Hujan cukup mempengaruhi kemacetan"
  else if Np.geb corr (2 # 10) then
    "Korelasi Lemah Positif: Hujan sedikit mempengaruhi kemacetan"
  else
    "Korelasi Sangat Lemah: Hujan tidak terlalu mempengaruhi".

Section WithSqrt.

(** numpy's square root on the non-negative rationals it is applied
    to; the development does not depend on how it rounds. *)
Variable sqrt : Q -> Q.

(** [Series.std()]. *)
Definition std (xs : list Q) : npfloat :=
  match Np.var xs with
  | NaN => NaN
  | Num v => Num (sqrt v)
  end.

(** [Series.corr(other)], Pearson: the covariance over the two
    standard deviations, kept within [-1, 1]; [NaN] when it is
    undefined. *)
Definition corr (xs ys : list Q) : npfloat :=
  match Np.cov xs ys, std xs, std ys with
  | Num c, Num sx, Num sy =>
      if Qeq_bool sx 0 || Qeq_bool sy 0 then NaN
      else Num (Py.max (-1) (Py.min 1 (c / sx / sy)))
  | _, _, _ => NaN
  end.

Definition get_rain_correlation (d : database) : report rain_report :=
  let df := get_all_traffic_data d in
  if is_empty df then ErrorDict "Tidak ada data"
  else
    let rain_stats :=
      round_means
        (aggregate String.eqb String.leb
                   (fun r : traffic_row =>
                      categorize_rain (rain_factor r)) df) in
    let correlation :=
      corr (map (fun r : traffic_row => rain_factor r) df)
           (vehicles df) in
    Dict (mkrain (Np.round correlation 3) rain_stats
                 (_interpret_correlation correlation)).

(* -------------------------------------------------------------- *)
(** ** 5. Prediction *)

(** The inline loop over [TRAFFIC_THRESHOLDS] with its initial
    [condition = "Lancar"]. *)
Definition classify_prediction (predicted_avg : Z) : string :=
  match first_band Config.TRAFFIC_THRESHOLDS predicted_avg with
  | Some cond => cond
  | None => "Lancar"
  end.

Definition predict_traffic (d : database) (loc : string)
           (target_hour : Z) : result (report prediction) :=
  let df := get_traffic_by_location loc d in
  if is_empty df then Returns (ErrorDict "Tidak ada data historis")
  else
    let df_hour :=
      filter (fun r : traffic_row => hour r =? target_hour) df in
    if is_empty df_hour then
      Returns (ErrorDict ("Tidak ada data untuk jam "
                            ++ str target_hour ++ ":00")%string)
    else
      let avg_vehicles := Np.mean (vehicles df_hour) in
      let std_vehicles := std (vehicles df_hour) in
      let avg_speed := Np.mean (speeds df_hour) in
      low <~ Np.int (Np.sub avg_vehicles std_vehicles) ;;
      let predicted_min := Z.max 0 low in
      predicted_max <~ Np.int (Np.add avg_vehicles std_vehicles) ;;
      predicted_avg <~ Np.int avg_vehicles ;;
      let condition := classify_prediction predicted_avg in
      Returns (Dict (mkprediction
                       loc target_hour predicted_min predicted_avg
                       predicted_max (Np.round avg_speed 1) condition
                       "Sedang (berbasis rata-rata historis)"
                       (Np.len df_hour))).

End WithSqrt.

(* ---------------------------------------------------------------- *)
(** ** 4. Location comparison *)

Definition compare_row (df : list traffic_row) (loc : string)
  : location_row :=
  let g := filter (fun r : traffic_row => String.eqb (location r) loc) df in
  let total := Np.len g in
  let macet :=
    Np.len (filter (fun r : traffic_row =>
                      String.eqb (condition r) "Macet") g) in
  mklocation loc
             (Np.round (Np.mean (vehicles g)) 1)
             (Np.maxZ (map (fun r : traffic_row => vehicle_count r) g))
             (Np.minZ (map (fun r : traffic_row => vehicle_count r) g))
             (Np.round (Np.mean (speeds g)) 1)
             total
             macet
             (Np.round
                (if total =? 0 then NaN
                 else Num (inject_Z macet / inject_Z total * 100))
                1).

(** [sort_values("avg_vehicles", ascending=False)]. *)
Definition busiest_first (a b : location_row) : bool :=
  Np.le_sort (lc_avg_vehicles b) (lc_avg_vehicles a).

Definition get_location_comparison (d : database) : list location_row :=
  let df := get_all_traffic_data d in
  if is_empty df then []
  else
    sort busiest_first
         (map (compare_row df)
              (Np.group_keys String.eqb String.leb
                 (map (fun r : traffic_row => location r) df))).

(* ---------------------------------------------------------------- *)
(** ** 6. Weekday against weekend *)

Definition day_of_week (r : traffic_row) : Z :=
  Datetime.weekday (timestamp r).

Definition daytype (label : string) (part : list traffic_row)
  : daytype_stats :=
  mkdaytype label
            (if is_empty part then Num 0
             else Np.round (Np.mean (vehicles part)) 1)
            (if is_empty part then Num 0
             else Np.round (Np.mean (speeds part)) 1)
            (Np.len part).

Definition get_weekday_vs_weekend (d : database)
  : report weekday_weekend :=
  let df := get_all_traffic_data d in
  if is_empty df then ErrorDict "Tidak ada data"
  else
    let weekday := filter (fun r => day_of_week r <? 5) df in
    let weekend := filter (fun r => day_of_week r >=? 5) df in
    Dict (mkweekday_weekend
            (daytype "Hari Kerja (Sen-Jum)" weekday)
            (daytype "Weekend (Sab-Min)" weekend)).

(* ---------------------------------------------------------------- *)
(** ** 7. Top congestion *)

Definition most_vehicles_first (a b : traffic_row) : bool :=
  vehicle_count b <=? vehicle_count a.

(** [df.nlargest(top_n, "vehicle_count")]: ties keep the frame's
    order. *)
Definition nlargest (top_n : Z) (df : list traffic_row)
  : list traffic_row :=
  firstn (Z.to_nat top_n) (sort most_vehicles_first df).

Definition get_top_congestion (d : database) (top_n : Z)
  : list congestion_row :=
  let df := get_all_traffic_data d in
  if is_empty df then []
  else
    map (fun r : traffic_row =>
           mkcongestion (timestamp r) (location r) (vehicle_count r)
                        (condition r) (speed_kmh r) (rain_factor r))
        (nlargest top_n df).

(* ---------------------------------------------------------------- *)
(** ** 8. Current status per location *)

Definition oldest_first (a b : traffic_row) : bool :=
  Datetime.leb (timestamp a) (timestamp b).

Definition get_current_status (d : database) : list status_row :=
  let df := get_all_traffic_data d in
  if is_empty df then []
  else
    let sorted := sort oldest_first df in
    flat_map
      (fun loc =>
         match rev (filter (fun r : traffic_row =>
                              String.eqb (location r) loc) sorted) with
         | r :: _ =>
             [mkstatus loc (vehicle_count r) (condition r) (speed_kmh r)
                       (rain_factor r) (timestamp r)]
         | [] => []
         end)
      (Np.group_keys String.eqb String.leb
         (map (fun r : traffic_row => location r) sorted)).

End TrafficAnalytics.

(* ================================================================== *)
(** * [calculate_speed] in binary64 arithmetic *)
(* ================================================================== *)

(** [calculate_speed] rounds its result to one decimal, and the binary64
    rounding of the steps before decides which way a value goes.  This
    module gives the function as CPython evaluates it.  What
    [random.random()] returns is an argument. *)
Module Binary64.

Definition float : Type := spec_float.
Definition prec : Z := 53.
Definition emax : Z := 1024.

(** The number a finite float stands for. *)
Definition value (x : float) : Q :=
  match x with
  | S754_finite s m e => inject_Z (cond_Zopp s (Zpos m)) * Qpower 2 e
  | _ => 0
  end.

(** The float nearest to an [int], ties to even; an infinity beyond the
    range. *)
Definition of_int (n : Z) : float := binary_normalize prec emax n 0 false.

(** The conversion of an [int] operand of a float operation. *)
Definition float_of_int (n : Z) : result float :=
  match of_int n with
  | S754_infinity _ => Raises Py.OverflowError
  | x => Returns x
  end.

(** [x < y] and [x <= y]: false when an operand is [NaN]. *)
Definition ltb (x y : float) : bool :=
  match x, y with
  | S754_nan, _ | _, S754_nan => false
  | S754_infinity sx, S754_infinity sy => sx && negb sy
  | S754_infinity sx, _ => sx
  | _, S754_infinity sy => negb sy
  | _, _ => Py.ltb (value x) (value y)
  end.

Definition leb (x y : float) : bool :=
  match x, y with
  | S754_nan, _ | _, S754_nan => false
  | S754_infinity sx, S754_infinity sy => sx || negb sy
  | S754_infinity sx, _ => sx
  | _, S754_infinity sy => negb sy
  | _, _ => Py.leb (value x) (value y)
  end.

(** [min(a, b)]: the first argument unless the second is smaller. *)
Definition min (a b : float) : float := if ltb b a then b else a.

(** [max(a, b)]: the first argument unless the second is larger. *)
Definition max (a b : float) : float := if ltb a b then b else a.

Definition add (x y : float) : float := SFadd prec emax x y.
Definition sub (x y : float) : float := SFsub prec emax x y.
Definition mul (x y : float) : float := SFmul prec emax x y.

(** [x / y]. *)
Definition truediv (x y : float) : result float :=
  match y with
  | S754_zero _ => Raises Py.ZeroDivisionError
  | _ => Returns (SFdiv prec emax x y)
  end.

(** The float nearest to [n / 10 ^ ndigits]. *)
Definition decimal (n : Z) (ndigits : nat) : float :=
  match n with
  | Z0 => S754_zero false
  | Zpos p =>
      SFdiv prec emax (S754_finite false p 0)
            (of_int (10 ^ Z.of_nat ndigits))
  | Zneg p =>
      SFdiv prec emax (S754_finite true p 0)
            (of_int (10 ^ Z.of_nat ndigits))
  end.

(** [round(x, ndigits)]: the number [x] stands for is rounded to
    [ndigits] decimals, ties to even, and the float nearest to that
    decimal is returned. *)
Definition round (x : float) (ndigits : nat) : float :=
  match x with
  | S754_finite s _ _ =>
      match Py.round_half_even
              (value x * inject_Z (10 ^ Z.of_nat ndigits)) with
      | Z0 => S754_zero s
      | k => decimal k ndigits
      end
  | _ => x
  end.

(** [random.uniform(a, b)] on [int] bounds, which is
    [a + (b - a) * random()]. *)
Definition uniform (a b : Z) (draw : float) : float :=
  add (of_int a) (mul (of_int (b - a)) draw).

Module TrafficEngine.

Definition calculate_speed (vehicle_count : Z) (rain_factor : float)
           (draw : float) : result float :=
  let max_speed := of_int 60 in
  let min_speed := of_int 5 in
  count <~ float_of_int vehicle_count ;;
  tenth <~ truediv count (of_int 10) ;;
  let speed := sub max_speed tenth in
  speed <~ truediv speed rain_factor ;;
  let speed := add speed (uniform (-3) 3 draw) in
  let speed := max min_speed (min max_speed speed) in
  Returns (round speed 1).

End TrafficEngine.

Module DataGenerator.

Definition calculate_speed (vehicle_count : Z) (rain_factor : float)
           (draw : float) : result float :=
  let max_speed := of_int 60 in
  let min_speed := of_int 5 in
  count <~ float_of_int vehicle_count ;;
  tenth <~ truediv count (of_int 10) ;;
  let speed := sub max_speed tenth in
  speed <~ truediv speed rain_factor ;;
  let speed := add speed (uniform (-3) 3 draw) in
  let speed := max min_speed (min max_speed speed) in
  Returns (round speed 1).

End DataGenerator.

End Binary64.

(* ================================================================== *)
(** * Predicates used to state the properties *)
(* ================================================================== *)

(** The five condition labels. *)
Definition condition_labels : list string :=
  ["Lancar"; "Sedang"; "Padat"; "Sangat Padat"; "Macet"].

(** Every band is non-empty and ends where the next one starts. *)
Fixpoint contiguous (table : list (string * (Z * Z))) : bool :=
  match table with
  | [] => true
  | (_, (low, high)) :: rest =>
      (low <? high)
      && match rest with
         | [] => true
         | (_, (next_low, _)) :: _ => high =? next_low
         end
      && contiguous rest
  end.

(** [v] lies in the half-open band [low, high). *)
Definition in_band (v : Z) (entry : string * (Z * Z)) : Prop :=
  fst (snd entry) <= v < snd (snd entry).


(** [x >= c] and [x < c] on a pandas float: false on [NaN]. *)
Definition np_ge (x : npfloat) (c : Q) : Prop :=
  match x with
  | Num q => (c <= q)%Q
  | NaN => False
  end.

Definition np_lt (x : npfloat) (c : Q) : Prop :=
  match x with
  | Num q => (q < c)%Q
  | NaN => False
  end.

(** The hours the specification calls peak hours. *)
Definition peak_hours : list Z := [6; 7; 8; 16; 17; 18].

(** A stored reading at 07:00 of day 739000 with the given id, location
    and vehicle count. *)
Definition reading_at_7 (n : Z) (loc : string) (vehicles : Z)
  : traffic_row :=
  mktraffic_row n
    (mktraffic (mkdatetime 739000 7 0 0 0) loc vehicles
               (TrafficEngine.get_traffic_condition vehicles) 30 7 1 1
               "manual_seed").

Definition database_of (rows : list traffic_row) : database :=
  mkdatabase rows [] (Z.of_nat (List.length rows)) 0.

(** [clamp(x, lo, hi)] as the specification writes it. *)
Definition clamp (x lo hi : Q) : Q :=
  if Py.ltb x lo then lo else if Py.ltb hi x then hi else x.


(** The float [0.375], a value of [random.random()]. *)
Definition three_eighths : Binary64.float :=
  S754_finite false 6755399441055744 (-54).


(** A world whose generator always draws [draw], whose clock always reads
    [now] and whose every request ends in [outcome]. *)
Definition constant_world (draw : Q) (now : datetime)
           (outcome : http_outcome) (d : database) : world :=
  mkworld (fun _ => draw) 0 (fun _ => now) 0 (fun _ => outcome) 0 d.

(** The ways the fetch for [loc] fails when [get_weather] runs in [w]:
    the location is not configured, or the request ends in a connection
    error, a timeout or another exception, or the status is not 200. *)
Definition fetch_fails (locations : list (string * coords)) (loc : string)
           (w : world) : Prop :=
  Py.contains String.eqb locations loc = false
  \/ net w (net_pos w) = HttpConnectionError
  \/ net w (net_pos w) = HttpTimeout
  \/ net w (net_pos w) = HttpOtherError
  \/ exists r, net w (net_pos w) = HttpResponse r /\ status_code r <> 200.

(** Two worlds with the same oracles: only the cursors and the database
    may differ. *)
Definition same_oracles (w w' : world) : Prop :=
  rng_draws w' = rng_draws w /\ clock w' = clock w /\ net w' = net w.

(** What a command that only reads the clock leaves of the world: the
    oracles, the database and the other cursors. *)
Definition clock_only (w w' : world) : Prop :=
  same_oracles w w' /\ db w' = db w /\ net_pos w' = net_pos w
  /\ rng_pos w' = rng_pos w.

(** [m] only reads the clock, and what it returns satisfies [P]. *)
Definition runs {A : Type} (P : A -> Prop) (m : M A) : Prop :=
  forall w, exists w',
    clock_only w w'
    /\ ((exists a, m w = Ok a w' /\ P a) \/ (exists e, m w = Raise e w')).

(** A request outcome that makes [get_weather] give up. *)
Definition request_fails (o : http_outcome) : Prop :=
  match o with
  | HttpResponse r => status_code r <> 200
  | _ => True
  end.

(** A world where every request times out. *)
Definition offline_world : world :=
  constant_world (1 # 2) (mkdatetime 739000 17 30 0 0) HttpTimeout
                 TrafficDatabase.empty.

(** The instant [m] minutes after midnight of [day], with the
    microsecond [us] the backfill inherits from [now]. *)
Definition slot_at (day us m : Z) : datetime :=
  mkdatetime (m / 1440 + day) (m mod 1440 / 60) (m mod 60) 0 us.

(** What identifies a reading: its timestamp and its location. *)
Definition traffic_key (r : traffic_record) : datetime * string :=
  (timestamp r, location r).

Definition weather_key (r : weather_record) : datetime * string :=
  (w_timestamp r, w_location r).

(** One key per location at the given instant. *)
Definition keys_at (t : datetime) (names : list string)
  : list (datetime * string) :=
  map (fun l => (t, l)) names.

(** The traffic keys of the five-minute slots [k, k + n) of [day]: one
    per slot and location. *)
Definition slot_keys (day : Z) (names : list string) (k n : nat)
  : list (datetime * string) :=
  flat_map (fun i => keys_at (slot_at day 0 (5 * Z.of_nat i)) names)
           (seq k n).

(** The weather keys of the same slots: only the slots on the hour. *)
Definition hour_keys (day : Z) (names : list string) (k n : nat)
  : list (datetime * string) :=
  flat_map (fun i =>
              if (5 * Z.of_nat i) mod 60 =? 0
              then keys_at (slot_at day 0 (5 * Z.of_nat i)) names
              else [])
           (seq k n).

(** One weather key per hour of [day] and location. *)
Definition hourly_keys (day : Z) (names : list string)
  : list (datetime * string) :=
  flat_map (fun h => keys_at (mkdatetime day (Z.of_nat h) 0 0 0) names)
           (seq 0 24).

(** A deployment with two locations, a one-day backfill and five-minute
    slots. *)
Definition two_location_settings : settings :=
  mksettings
    [ ("Jakarta Pusat",   mkcoords (-62088 # 10000) (1068456 # 10000));
      ("Jakarta Selatan", mkcoords (-62614 # 10000) (1068456 # 10000)) ]
    1 5.

(** The stored readings that match a location and an hour. *)
Definition matching (d : database) (loc : string) (h : Z)
  : list traffic_row :=
  filter (fun r : traffic_row => (String.eqb (location r) loc)
                                 && (hour r =? h))
         (traffic_data d).

(** A result that is the [{"error": ...}] dict. *)
Definition is_error_dict {A : Type} (r : result (report A)) : Prop :=
  exists msg, r = Returns (ErrorDict msg).

(** The readings an hourly pattern with the optional location filter is
    computed over. *)
Definition selected (filter_by : option string) (r : traffic_row) : bool :=
  match filter_by with
  | Some l => if TrafficAnalytics.truthy l
              then String.eqb (location r) l else true
  | None => true
  end.

(** An entry of [hourly["time"]] for 24 April 2024 (day 739000), the
    text [s] being the ISO form of hour [h] of that day. *)
Definition hour_entry (s : string) (h : Z) : text :=
  mktext s (Some (mkdatetime 739000 h 0 0 0)) true.

(** A world where the first request times out and every later one is
    answered with status 200 and weather code 65 (heavy rain). *)
Definition first_request_times_out : world :=
  mkworld (fun _ => 1 # 2) 0
          (fun _ => mkdatetime 739000 17 30 0 0) 0
          (fun n =>
             match n with
             | O => HttpTimeout
             | S _ =>
                 HttpResponse
                   (mkresponse 200
                      (Json (PyDict
                               [(plain "current_weather",
                                 PyDict [(plain "temperature", PyFloat 27);
                                         (plain "windspeed", PyFloat 10);
                                         (plain "weathercode", PyInt 65)])])))
             end)
          0 TrafficDatabase.empty.

(** A world where the first request times out and every later one is
    answered with status 200 and a body whose temperature is a JSON
    object, as in
    [{"current_weather": {"temperature": {}, "weathercode": 65}}]. *)
Definition temperature_is_an_object : world :=
  mkworld (fun _ => 1 # 2) 0
          (fun _ => mkdatetime 739000 17 30 0 0) 0
          (fun n =>
             match n with
             | O => HttpTimeout
             | S _ =>
                 HttpResponse
                   (mkresponse 200
                      (Json (PyDict
                               [(plain "current_weather",
                                 PyDict [(plain "temperature", PyDict []);
                                         (plain "weathercode", PyInt 65)])])))
             end)
          0 TrafficDatabase.empty.

(** Two readings and two weather records of the morning of day
    739000. *)
Definition sample_readings : list traffic_record :=
  [ mktraffic (mkdatetime 739000 7 0 0 0) "Jakarta Pusat" 350 "Padat"
              (255 # 10) 7 1 (13 # 10) "simulated";
    mktraffic (mkdatetime 739000 7 0 0 0) "Jakarta Barat" 120 "Sedang"
              (48 # 1) 7 1 1 "simulated" ].

Definition sample_weather : list weather_record :=
  [ mkweather (mkdatetime 739000 7 0 0 0) "Jakarta Pusat"
              (PyFloat (285 # 10)) (PyFloat (21 # 10))
              (PyFloat (123 # 10)) (PyInt 61) "Hujan Ringan" "light";
    mkweather (mkdatetime 739000 7 0 0 0) "Jakarta Barat"
              (PyFloat (291 # 10)) (PyFloat 0) (PyFloat (87 # 10))
              (PyInt 2) "Berawan Sebagian" "none" ].

(** A database that was filled, cleared and filled again: the rows in
    it have ids above those of the cleared rows. *)
Definition refilled_database : database :=
  mkdatabase
    (TrafficDatabase.number_from mktraffic_row 4 sample_readings)
    (TrafficDatabase.number_from mkweather_row 3 sample_weather)
    5 4.

(** Three weather rows, the first and the last for the same
    location. *)
Definition weather_of_two_locations : database :=
  mkdatabase
    []
    (TrafficDatabase.number_from
       mkweather_row 1
       [ mkweather (mkdatetime 1 0 0 0 0) "B" (PyFloat 30) (PyFloat 0)
                   (PyFloat 5) (PyInt 0) "Cerah" "none";
         mkweather (mkdatetime 1 1 0 0 0) "A" (PyFloat 29) (PyFloat 0)
                   (PyFloat 5) (PyInt 0) "Cerah" "none";
         mkweather (mkdatetime 1 2 0 0 0) "B" (PyFloat 28) (PyFloat 0)
                   (PyFloat 5) (PyInt 0) "Cerah" "none" ])
    0 3.

(** The database a command leaves behind, the empty one if it does not
    complete. *)
Definition database_after {A : Type} (m : M A) (w : world) : database :=
  match m w with
  | Ok _ w' => db w'
  | _ => TrafficDatabase.empty
  end.

(* ================================================================== *)
(** * Further predicates *)
(* ================================================================== *)

(** What every record of the live engine satisfies: the derived fields
    agree with the vehicle count and the hour, the speed and the rain
    factor are within their bounds. *)
Definition engine_record_ok (now : datetime) (r : traffic_record) : Prop :=
  timestamp r = Datetime.strftime now
  /\ hour r = dt_hour now
  /\ condition r = TrafficEngine.get_traffic_condition (vehicle_count r)
  /\ is_peak r = (if TrafficEngine.is_peak_hour (hour r) then 1 else 0)
  /\ (5 <= speed_kmh r <= 60)%Q
  /\ (1 <= rain_factor r <= 2)%Q
  /\ data_source r = "real_time_simulated".

(** The draws of the generator are values of [random.random()]: at least
    0 and below 1. *)
Definition unit_draws (w : world) : Prop :=
  forall n, (0 <= rng_draws w n < 1)%Q.

(** A record of a cycle that started in a world with unit draws: the
    count is within what the hourly pattern, the location variance and
    the rain factors allow, so its label comes from a band of the table,
    and its rain factor is one of the table's. *)
Definition within_table (r : traffic_record) : Prop :=
  0 <= vehicle_count r <= 1008
  /\ first_band Config.TRAFFIC_THRESHOLDS (vehicle_count r)
     = Some (condition r)
  /\ In (rain_factor r) (map snd Config.RAIN_IMPACT).

(** An entry of [hourly["time"]] that parses and is not of hour [h]. *)
Definition other_hour (h : Z) (entry : pyvalue) : Prop :=
  exists txt t, entry = PyStr txt /\ iso txt = Some t /\ dt_hour t <> h.

(** The world after a command advanced the request cursor by one and the
    clock cursor by [ticks]. *)
Definition after_request (ticks : nat) (w : world) : world :=
  mkworld (rng_draws w) (rng_pos w) (clock w) (ticks + clock_pos w)
          (net w) (S (net_pos w)) (db w).

(** A fetched record agrees with the decoding of its weather code. *)
Definition decoded (x : weather_record) : Prop :=
  exists info,
    WeatherAPI.weather_info_of (weather_code x) = Some info
    /\ weather_desc x = WeatherAPI.description info
    /\ rain_category x = WeatherAPI.info_rain_category info.

(** A value the [in] operator can search. *)
Definition searchable (v : pyvalue) : Prop :=
  match v with
  | PyDict _ | PyList _ | PyStr _ => True
  | _ => False
  end.

(** [x] holds the fields of the [current_weather] object of the body
    [data], an object whose [hourly] member can be searched. *)
Definition read_from (data : pyvalue) (x : weather_record) : Prop :=
  exists entries current,
    data = PyDict entries
    /\ WeatherAPI.get_or entries "current_weather" (PyDict [])
       = PyDict current
    /\ searchable (WeatherAPI.get_or entries "hourly" (PyDict []))
    /\ temperature x = WeatherAPI.get_or current "temperature" (PyInt 0)
    /\ windspeed x = WeatherAPI.get_or current "windspeed" (PyInt 0)
    /\ weather_code x
       = WeatherAPI.get_or current "weathercode" (PyInt 0).

(** [x] was made of the request the world answers next. *)
Definition answered_with (w : world) (x : weather_record) : Prop :=
  exists resp data,
    net w (net_pos w) = HttpResponse resp
    /\ status_code resp = 200
    /\ json resp = Json data
    /\ read_from data x.

(** A record every value of which [sqlite3] can bind. *)
Definition storable (x : weather_record) : Prop :=
  TrafficDatabase.bind_weather x = None.

(** The autoincrement discipline of a table: the counter never goes
    below zero, ids are positive, distinct and not above the counter. *)
Definition ids_ok (ids : list Z) (counter : Z) : Prop :=
  0 <= counter /\ NoDup ids /\ Forall (fun n => 0 < n <= counter) ids.

Definition db_ok (d : database) : Prop :=
  ids_ok (map id (traffic_data d)) (traffic_seq d)
  /\ ids_ok (map w_id (weather_data d)) (weather_seq d).

(** The order of [ORDER BY timestamp DESC] on traffic rows. *)
Definition newer_or_same (a b : traffic_row) : Prop :=
  TrafficDatabase.newest_first a b = true.


(** [x] is the newest stored weather row of its location: no row of the
    same location has a larger id. *)
Definition latest_for (rows : list weather_row) (x : weather_row) : Prop :=
  In x rows
  /\ forall y, In y rows -> w_location y = w_location x -> w_id y <= w_id x.

(** The order of [ORDER BY location]. *)
Definition location_le (a b : weather_row) : Prop :=
  TrafficDatabase.by_location a b = true.

(** The ids of the stored weather rows of one location, the group that
    [MAX(id) ... GROUP BY location] ranges over. *)
Definition ids_at (loc : string) (rows : list weather_row) : list Z :=
  map w_id
      (filter (fun r : weather_row => String.eqb (w_location r) loc) rows).

(** What a backfill of [n] days adds, per day from [last - n] to
    [last - 1]. *)
Fixpoint days_before {K : Type} (per_day : Z -> list K) (last : Z)
         (n : nat) : list K :=
  match n with
  | O => []
  | S n' => per_day (last - Z.of_nat n) ++ days_before per_day last n'
  end.

(** The range, in mm, from which the historical simulation draws the
    precipitation of a rain category. *)
Definition precipitation_range (cat : string) : option (Q * Q) :=
  if String.eqb cat "none" then Some (0, 0)%Q
  else if String.eqb cat "light" then Some (5 # 10, 25 # 10)%Q
  else if String.eqb cat "moderate" then Some (25 # 10, 7)%Q
  else if String.eqb cat "heavy" then Some (7, 15)%Q
  else if String.eqb cat "extreme" then Some (15, 30)%Q
  else None.

(** What every simulated hour of weather satisfies: its category is a
    key of [RAIN_IMPACT], its precipitation is within the range of the
    category and its temperature within 24 and 33 degrees. *)
Definition simulated_ok (sw : simulated_weather) : Prop :=
  In (sw_rain_category sw) (map fst Config.RAIN_IMPACT)
  /\ (exists lo hi,
         precipitation_range (sw_rain_category sw) = Some (lo, hi)
         /\ (lo <= sw_precipitation sw <= hi)%Q)
  /\ (24 <= sw_temperature sw <= 33)%Q.

(** What every record of the backfill satisfies: its hour is the hour of
    its timestamp, its count is within what the hourly pattern and the
    three factors allow, its label and its peak flag are the ones the
    live engine gives that count and that hour, its speed and its rain
    factor are within their bounds. *)
Definition generated_record_ok (r : traffic_record) : Prop :=
  hour r = dt_hour (timestamp r)
  /\ 14 <= vehicle_count r <= 1108
  /\ condition r = TrafficEngine.get_traffic_condition (vehicle_count r)
  /\ first_band Config.TRAFFIC_THRESHOLDS (vehicle_count r)
     = Some (condition r)
  /\ is_peak r = (if TrafficEngine.is_peak_hour (hour r) then 1 else 0)
  /\ (5 <= speed_kmh r <= 60)%Q
  /\ (1 <= rain_factor r <= 2)%Q
  /\ data_source r = "historical_generated".

(** A stored row that was there before ([old]) or is a consistent
    generated one. *)
Definition generated_or_old (old : list traffic_row) (row : traffic_row)
  : Prop :=
  In row old \/ generated_record_ok row.

(** The state the loops of the backfill keep: unit draws, a consistent
    batch and consistent rows beside the old ones. *)
Definition backfill_invariant (old : list traffic_row) (b : batches)
           (w : world) : Prop :=
  unit_draws w
  /\ Forall generated_record_ok (traffic_batch b)
  /\ Forall (generated_or_old old) (traffic_data (db w)).

(** The columns [get_top_congestion] keeps of a row. *)
Definition congestion_of (r : traffic_row) : congestion_row :=
  mkcongestion (timestamp r) (location r) (vehicle_count r) (condition r)
               (speed_kmh r) (rain_factor r).

(** The columns [get_current_status] keeps of a row. *)
Definition status_of (r : traffic_row) : status_row :=
  mkstatus (location r) (vehicle_count r) (condition r) (speed_kmh r)
           (rain_factor r) (timestamp r).

(** [a] has at least as many vehicles as [b]. *)
Definition busier_or_same (a b : traffic_row) : Prop :=
  vehicle_count b <= vehicle_count a.

(** No stored row of the location of [r] has a later timestamp. *)
Definition latest_reading (rows : list traffic_row) (r : traffic_row)
  : Prop :=
  In r rows
  /\ forall r' : traffic_row,
      In r' rows -> location r' = location r ->
      Datetime.leb (timestamp r') (timestamp r) = true.

(** The alphabetical order of [groupby] keys and [ORDER BY] on text. *)
Definition text_le (a b : string) : Prop := String.leb a b = true.

(** The total of a column of counts. *)
Definition total (xs : list Z) : Z := fold_right Z.add 0 xs.

(** The mean count of [a] is a number at least as large as the mean
    count of [b]. *)
Definition busier_location (a b : location_row) : Prop :=
  match lc_avg_vehicles a, lc_avg_vehicles b with
  | Num x, Num y => (y <= x)%Q
  | _, _ => False
  end.

(** The stored readings of a location, and those of them labelled
    "Macet". *)
Definition readings_of (d : database) (loc : string) : list traffic_row :=
  filter (fun r : traffic_row => String.eqb (location r) loc)
         (traffic_data d).

Definition jams_of (d : database) (loc : string) : list traffic_row :=
  filter (fun r : traffic_row =>
            String.eqb (location r) loc
            && String.eqb (condition r) "Macet")
         (traffic_data d).

(** How many stored readings carry the label [c]. *)
Definition labelled (d : database) (c : string) : Z :=
  Np.len (filter (fun r : traffic_row => String.eqb (condition r) c)
                 (traffic_data d)).

(** The stored readings of working days (Monday to Friday) and of
    weekends. *)
Definition weekday_readings (d : database) : list traffic_row :=
  filter (fun r : traffic_row => Datetime.weekday (timestamp r) <? 5)
         (traffic_data d).

Definition weekend_readings (d : database) : list traffic_row :=
  filter (fun r : traffic_row => 5 <=? Datetime.weekday (timestamp r))
         (traffic_data d).

(** The stored readings an hourly pattern is computed over. *)
Definition selected_readings (d : database) (filter_by : option string)
  : list traffic_row :=
  filter (selected filter_by) (traffic_data d).
(* ================================================================== *)
(** * Properties *)
(* ================================================================== *)

Section Classifier.

Import Config.

Lemma first_band_thresholds (v : Z) :
  first_band TRAFFIC_THRESHOLDS v =
    if (0 <=? v) && (v <? 100) then Some "Lancar"
    else if (100 <=? v) && (v <? 200) then Some "Sedang"
    else if (200 <=? v) && (v <? 350) then Some "Padat"
    else if (350 <=? v) && (v <? 500) then Some "Sangat Padat"
    else if (500 <=? v) && (v <? 9999) then Some "Macet"
    else None.
Proof. reflexivity. Qed.

Lemma first_band_sound table v name :
  first_band table v = Some name ->
  exists low high, In (name, (low, high)) table /\ low <= v < high.
Proof.
  induction table as [|[n [lo hi]] rest IH]; simpl; [discriminate|].
  destruct ((lo <=? v) && (v <? hi)) eqn:E.
  - intros [= <-]. exists lo, hi. split; [now left|].
    apply andb_true_iff in E. lia.
  - intros H. destruct (IH H) as (l & h & Hin & Hr).
    exists l, h. split; [now right | exact Hr].
Qed.

Lemma first_band_none table v :
  first_band table v = None ->
  forall entry, In entry table -> ~ in_band v entry.
Proof.
  induction table as [|[n [lo hi]] rest IH]; simpl; [tauto|].
  destruct ((lo <=? v) && (v <? hi)) eqn:E; [discriminate|].
  intros H entry [<- | Hin]; [|now apply IH].
  unfold in_band; simpl. apply andb_false_iff in E. lia.
Qed.

Lemma classifiers_agree v :
  DataGenerator.get_condition v = TrafficEngine.get_traffic_condition v.
Proof. reflexivity. Qed.

End Classifier.

Ltac split_bands :=
  repeat match goal with
         | |- context [(?a <=? ?b) && (?c <? ?d)] =>
             destruct (Z.leb_spec a b); destruct (Z.ltb_spec c d);
             simpl andb; cbv iota
         end.

(** C1. For every vehicle count [v >= 0] both classifiers return the same
    label, one of the five; the bands of the threshold table are
    contiguous and half-open, so [v] lies in at most one of them and the
    label is that band's name; every [v] below 9999 lies in a band; and
    from 9999 on no band holds [v] and the label is the fallback
    "Macet". *)
Theorem condition_classifier_bands (v : Z) (Hv : 0 <= v) :
  DataGenerator.get_condition v = TrafficEngine.get_traffic_condition v
  /\ In (TrafficEngine.get_traffic_condition v) condition_labels
  /\ contiguous Config.TRAFFIC_THRESHOLDS = true
  /\ (forall entry, In entry Config.TRAFFIC_THRESHOLDS -> in_band v entry ->
      TrafficEngine.get_traffic_condition v = fst entry)
  /\ (v < 9999 ->
      exists entry, In entry Config.TRAFFIC_THRESHOLDS /\ in_band v entry)
  /\ (9999 <= v ->
      first_band Config.TRAFFIC_THRESHOLDS v = None
      /\ TrafficEngine.get_traffic_condition v = "Macet").
Proof.
  split; [reflexivity|].
  unfold TrafficEngine.get_traffic_condition.
  rewrite first_band_thresholds.
  split; [|split; [reflexivity|split; [|split]]].
  - unfold condition_labels. split_bands; simpl; tauto.
  - unfold Config.TRAFFIC_THRESHOLDS, in_band.
    intros entry Hin Hb. simpl in Hin.
    repeat (destruct Hin as [<- | Hin]; [simpl in *; split_bands;
                                         solve [reflexivity | lia]|]).
    contradiction.
  - intros Hlt. unfold Config.TRAFFIC_THRESHOLDS, in_band.
    destruct (Z_lt_le_dec v 100);
      [eexists; split; [left; reflexivity | simpl; lia]|].
    destruct (Z_lt_le_dec v 200);
      [eexists; split; [right; left; reflexivity | simpl; lia]|].
    destruct (Z_lt_le_dec v 350);
      [eexists; split; [do 2 right; left; reflexivity | simpl; lia]|].
    destruct (Z_lt_le_dec v 500);
      [eexists; split; [do 3 right; left; reflexivity | simpl; lia]|].
    eexists; split; [do 4 right; left; reflexivity | simpl; lia].
  - intros Hge. split_bands; solve [split; reflexivity | lia].
Qed.

Lemma condition_classifier_bands_witness :
  0 <= 420
  /\ TrafficEngine.get_traffic_condition 420 = "Sangat Padat"
  /\ TrafficEngine.get_traffic_condition 12000 = "Macet".
Proof.
  split; [lia|]. split.
  - destruct (condition_classifier_bands 420) as (_ & _ & _ & H & _);
      [lia|].
    apply (H ("Sangat Padat", (350, 500))).
    + simpl; tauto.
    + unfold in_band; simpl; lia.
  - destruct (condition_classifier_bands 12000) as (_ & _ & _ & _ & _ & H);
      [lia|].
    apply H. lia.
Defined.

(** C9. For every hour [h] in 0..23 the engine's peak predicate holds
    exactly on 6, 7, 8, 16, 17 and 18, and the generator's inline test
    with closed bounds gives the same answer. *)
Theorem peak_hour_set (h : Z) (Hh : 0 <= h <= 23) :
  (TrafficEngine.is_peak_hour h = true <-> In h peak_hours)
  /\ DataGenerator.peak_test h = TrafficEngine.is_peak_hour h.
Proof.
  unfold TrafficEngine.is_peak_hour, DataGenerator.peak_test, peak_hours.
  cbn [Config.b_start Config.b_end Config.PEAK_MORNING Config.PEAK_EVENING
       In].
  split.
  - rewrite orb_true_iff, !andb_true_iff, !Z.leb_le, !Z.ltb_lt. lia.
  - destruct (Z.leb_spec 6 h), (Z.leb_spec h 8), (Z.ltb_spec h 9),
      (Z.leb_spec 16 h), (Z.leb_spec h 18), (Z.ltb_spec h 19);
      simpl; solve [reflexivity | lia].
Qed.

Lemma peak_hour_set_witness :
  0 <= 17 <= 23
  /\ TrafficEngine.is_peak_hour 17 = true
  /\ DataGenerator.peak_test 17 = true.
Proof.
  split; [lia|].
  destruct (peak_hour_set 17) as [H1 H2]; [lia|].
  split.
  - apply H1. simpl. tauto.
  - rewrite H2. apply H1. simpl. tauto.
Defined.

(** The peak predicate on hours outside 0..23: both tests are false. *)
Lemma peak_tests_agree_everywhere (h : Z) :
  DataGenerator.peak_test h = TrafficEngine.is_peak_hour h.
Proof.
  unfold TrafficEngine.is_peak_hour, DataGenerator.peak_test.
  cbn [Config.b_start Config.b_end Config.PEAK_MORNING Config.PEAK_EVENING].
  destruct (Z.leb_spec 6 h), (Z.leb_spec h 8), (Z.ltb_spec h 9),
    (Z.leb_spec 16 h), (Z.leb_spec h 18), (Z.ltb_spec h 19);
    simpl; solve [reflexivity | lia].
Qed.

Section Correlation.

Import TrafficAnalytics.

Lemma geb_ge x c : Np.geb x c = true <-> np_ge x c.
Proof.
  destruct x as [|q]; simpl; [split; [discriminate | tauto]|].
  apply Qle_bool_iff.
Qed.

Lemma geb_lt x c : np_lt x c -> Np.geb x c = false.
Proof.
  destruct x as [|q]; simpl; [tauto|]. intros H.
  destruct (Qle_bool c q) eqn:E; [|reflexivity].
  apply Qle_bool_iff in E. lra.
Qed.

Lemma not_geb_lt x c c' :
  np_ge x c' -> Np.geb x c = false -> np_lt x c.
Proof.
  destruct x as [|q]; simpl; [tauto|]. intros _ E.
  destruct (Qlt_le_dec q c) as [H|H]; [exact H|].
  apply Qle_bool_iff in H. congruence.
Qed.

(** C8. [_interpret_correlation] answers "strong positive" exactly from
    0.7 up, "moderate positive" exactly on [0.4, 0.7), "weak positive"
    exactly on [0.2, 0.4), and "very weak" for every coefficient below
    0.2, the negative ones included, however strong. *)
Theorem interpret_correlation_bands (c : npfloat) :
  (_interpret_correlation c
     = "Korelasi Kuat Positif: Hujan sangat mempengaruhi kemacetan"
   <-> np_ge c (7 # 10))
  /\ (_interpret_correlation c
        = "Korelasi Sedang Positif: Hujan cukup mempengaruhi kemacetan"
      <-> np_ge c (4 # 10) /\ np_lt c (7 # 10))
  /\ (_interpret_correlation c
        = "Korelasi Lemah Positif: Hujan sedikit mempengaruhi kemacetan"
      <-> np_ge c (2 # 10) /\ np_lt c (4 # 10))
  /\ (np_lt c (2 # 10) ->
      _interpret_correlation c
        = "Korelasi Sangat Lemah: Hujan tidak terlalu mempengaruhi")
  /\ (np_lt c 0 ->
      _interpret_correlation c
        = "Korelasi Sangat Lemah: Hujan tidak terlalu mempengaruhi").
Proof.
  unfold _interpret_correlation.
  destruct (Np.geb c (7 # 10)) eqn:E7;
    destruct (Np.geb c (4 # 10)) eqn:E4;
    destruct (Np.geb c (2 # 10)) eqn:E2;
    repeat match goal with
           | H : Np.geb _ _ = true |- _ => apply geb_ge in H
           end;
    repeat split; intros; try discriminate; try reflexivity;
    repeat match goal with
           | H : _ /\ _ |- _ => destruct H
           | H : np_ge c ?k, E : Np.geb c ?k = false |- _ =>
               apply geb_ge in H; congruence
           | H : np_lt c ?k, E : np_ge c ?k' |- _ =>
               destruct c; simpl in *; [contradiction | lra]
           | |- np_ge _ _ => assumption
           | |- np_lt _ _ => eapply not_geb_lt; eassumption
           end.
Qed.

Lemma interpret_correlation_bands_witness :
  np_lt (Num (-9 # 10)) (2 # 10)
  /\ _interpret_correlation (Num (-9 # 10))
     = "Korelasi Sangat Lemah: Hujan tidak terlalu mempengaruhi".
Proof.
  assert (H : np_lt (Num (-9 # 10)) (2 # 10)) by (simpl; lra).
  split; [exact H|].
  destruct (interpret_correlation_bands (Num (-9 # 10)))
    as (_ & _ & _ & Hweak & _).
  exact (Hweak H).
Defined.

End Correlation.

Section Prediction.

Import TrafficAnalytics.

Variable sqrt : Q -> Q.

(** Below the last band's upper bound the inline loop of
    [predict_traffic] and the shared classifier agree. *)
Lemma classify_prediction_in_table (p : Z) :
  0 <= p < 9999 ->
  classify_prediction p = TrafficEngine.get_traffic_condition p.
Proof.
  intros Hp. unfold classify_prediction,
    TrafficEngine.get_traffic_condition.
  rewrite first_band_thresholds. split_bands; solve [reflexivity | lia].
Qed.

(** From 9999 on they differ: the loop keeps its initial "Lancar", the
    classifier falls back to "Macet". *)
Lemma classify_prediction_beyond_table (p : Z) :
  9999 <= p ->
  classify_prediction p = "Lancar"
  /\ TrafficEngine.get_traffic_condition p = "Macet".
Proof.
  intros Hp. unfold classify_prediction,
    TrafficEngine.get_traffic_condition.
  rewrite first_band_thresholds.
  split; split_bands; solve [reflexivity | lia].
Qed.

(** C5 (fails at 9999 and beyond). With two stored readings of 12000
    vehicles for one location and hour, [predict_traffic] returns the
    point prediction 12000 labelled "Lancar", while the shared
    classifier labels 12000 "Macet". *)
Theorem predicted_condition_beyond_last_band :
  exists p,
    predict_traffic sqrt
      (database_of [reading_at_7 1 "Jakarta Pusat" 12000;
                    reading_at_7 2 "Jakarta Pusat" 12000])
      "Jakarta Pusat" 7 = Returns (Dict p)
    /\ predicted_vehicles_avg p = 12000
    /\ predicted_condition p = "Lancar"
    /\ TrafficEngine.get_traffic_condition (predicted_vehicles_avg p)
       = "Macet".
Proof.
  eexists. split; [vm_compute; reflexivity|].
  repeat split.
Qed.

End Prediction.

Section Speed.

Lemma round_half_even_bounds (x : Q) (a b : Z) :
  (inject_Z a <= x <= inject_Z b)%Q ->
  a <= Py.round_half_even x <= b.
Proof.
  intros [Ha Hb]. unfold Py.round_half_even.
  assert (Hfa : a <= Qfloor x).
  { rewrite <- (Qfloor_Z a). now apply Qfloor_resp_le. }
  assert (Hfb : Qfloor x <= b).
  { rewrite <- (Qfloor_Z b). now apply Qfloor_resp_le. }
  assert (Hstep : (inject_Z (Qfloor x) < x)%Q -> Qfloor x + 1 <= b).
  { intros Hlt.
    assert (Hzb : (inject_Z (Qfloor x) < inject_Z b)%Q) by lra.
    rewrite <- Zlt_Qlt in Hzb. lia. }
  destruct (x - inject_Z (Qfloor x) ?= 1 # 2)%Q eqn:E.
  - apply Qeq_alt in E.
    destruct (Z.even (Qfloor x)); [lia|].
    split; [lia|]. apply Hstep. lra.
  - lia.
  - apply Qgt_alt in E. split; [lia|]. apply Hstep. lra.
Qed.

Lemma round_one_decimal_bounds (x : Q) :
  (5 <= x <= 60)%Q -> (5 <= Py.round x 1 <= 60)%Q.
Proof.
  intros Hx. unfold Py.round.
  change (Z.to_pos (10 ^ Z.of_nat 1)) with 10%positive.
  assert (H : 50 <= Py.round_half_even (x * inject_Z 10) <= 600).
  { apply round_half_even_bounds.
    change (inject_Z 50) with 50%Q. change (inject_Z 600) with 600%Q.
    change (inject_Z 10) with 10%Q. lra. }
  unfold Qle; simpl. lia.
Qed.

Lemma ltb_lt a b : Py.ltb a b = true <-> (a < b)%Q.
Proof.
  unfold Py.ltb. rewrite negb_true_iff.
  split.
  - intros E. destruct (Qlt_le_dec a b) as [H|H]; [exact H|].
    apply Qle_bool_iff in H. congruence.
  - intros H. destruct (Qle_bool b a) eqn:E; [|reflexivity].
    apply Qle_bool_iff in E. lra.
Qed.

Lemma ltb_ge a b : Py.ltb a b = false <-> (b <= a)%Q.
Proof.
  unfold Py.ltb. rewrite negb_false_iff. apply Qle_bool_iff.
Qed.

(** The nested [max(min_speed, min(max_speed, speed))] is the clamp of
    the specification, up to the representation of the rational. *)
Lemma max_min_is_clamp (x : Q) :
  (Py.max 5 (Py.min 60 x) == clamp x 5 60)%Q.
Proof.
  unfold Py.max, Py.min, clamp.
  destruct (Py.ltb x 60) eqn:E1; destruct (Py.ltb x 5) eqn:E2;
    destruct (Py.ltb 60 x) eqn:E3;
    try (destruct (Py.ltb 5 x) eqn:E4);
    try (destruct (Py.ltb 5 60) eqn:E5);
    try reflexivity;
    repeat match goal with
           | H : Py.ltb _ _ = true |- _ => apply ltb_lt in H
           | H : Py.ltb _ _ = false |- _ => apply ltb_ge in H
           end; lra.
Qed.

Lemma round_half_even_proper (x y : Q) :
  (x == y)%Q -> Py.round_half_even x = Py.round_half_even y.
Proof.
  intros E. unfold Py.round_half_even.
  rewrite (Qfloor_comp x y E).
  assert (C : (x - inject_Z (Qfloor y) ?= 1 # 2)%Q
              = (y - inject_Z (Qfloor y) ?= 1 # 2)%Q)
    by now rewrite E.
  now rewrite C.
Qed.

Lemma round_proper (x y : Q) (n : nat) :
  (x == y)%Q -> Py.round x n = Py.round y n.
Proof.
  intros E. unfold Py.round. f_equal.
  apply round_half_even_proper. now rewrite E.
Qed.

Lemma clamp_bounds (x : Q) : (5 <= clamp x 5 60 <= 60)%Q.
Proof.
  unfold clamp.
  destruct (Py.ltb x 5) eqn:E1; [lra|].
  destruct (Py.ltb 60 x) eqn:E2; [lra|].
  apply ltb_ge in E1, E2. lra.
Qed.

Lemma uniform_run (a b : Q) (w : world) :
  uniform a b w
  = Ok (a + (b - a) * rng_draws w (rng_pos w))%Q
       (mkworld (rng_draws w) (S (rng_pos w)) (clock w) (clock_pos w)
                (net w) (net_pos w) (db w)).
Proof. reflexivity. Qed.

(** A division by a non-zero rain factor goes through. *)
Lemma truediv_run (a b : Q) (w : world) :
  ~ (b == 0)%Q -> truediv a b w = Ok (a / b)%Q w.
Proof.
  intros Hb. unfold truediv.
  destruct (Qeq_bool b 0) eqn:E; [|reflexivity].
  apply Qeq_bool_iff in E. contradiction.
Qed.

Lemma engine_speed_run (v : Z) (r : Q) (w : world) :
  ~ (r == 0)%Q ->
  TrafficEngine.calculate_speed v r w
  = Ok (Py.round
          (clamp ((60 - inject_Z v / 10) / r
                  + (-3 + (3 - -3) * rng_draws w (rng_pos w))) 5 60) 1)
       (mkworld (rng_draws w) (S (rng_pos w)) (clock w) (clock_pos w)
                (net w) (net_pos w) (db w)).
Proof.
  intros Hr. unfold TrafficEngine.calculate_speed, bind.
  rewrite truediv_run by exact Hr. rewrite uniform_run.
  unfold ret. f_equal. apply round_proper, max_min_is_clamp.
Qed.

Lemma generator_speed_is_engine_speed (v : Z) (r : Q) :
  DataGenerator.calculate_speed v r = TrafficEngine.calculate_speed v r.
Proof. reflexivity. Qed.

(** ** The function in binary64 arithmetic *)










(** The conversion of the count fails from [2 ** 1024 - 2 ** 970] on,
    the first integer that rounds to no finite float. *)
Example calculate_speed_overflow :
  Binary64.TrafficEngine.calculate_speed
    (2 ^ 1024 - 2 ^ 970) (Binary64.of_int 1) three_eighths
  = Raises Py.OverflowError
  /\ Binary64.TrafficEngine.calculate_speed
       (2 ^ 1024 - 2 ^ 970 - 1) (Binary64.of_int 1) three_eighths
     = Returns (Binary64.decimal 50 1).
Proof. split; vm_compute; reflexivity. Qed.

End Speed.

Section WeatherFailure.

Import WeatherAPI.

Lemma same_oracles_refl w : same_oracles w w.
Proof. repeat split. Qed.

Lemma same_oracles_trans w1 w2 w3 :
  same_oracles w1 w2 -> same_oracles w2 w3 -> same_oracles w1 w3.
Proof.
  unfold same_oracles. intros (A1 & B1 & C1) (A2 & B2 & C2).
  repeat split; congruence.
Qed.

Lemma clock_only_refl w : clock_only w w.
Proof. repeat split. Qed.

Lemma clock_only_trans w1 w2 w3 :
  clock_only w1 w2 -> clock_only w2 w3 -> clock_only w1 w3.
Proof.
  intros (S1 & D1 & N1 & R1) (S2 & D2 & N2 & R2).
  split; [eapply same_oracles_trans; eassumption|].
  repeat split; congruence.
Qed.

(** ** Commands that only read the clock *)

Lemma runs_ret {A : Type} (P : A -> Prop) a : P a -> runs P (ret a).
Proof.
  intros H w. exists w. split; [apply clock_only_refl|].
  left. now exists a.
Qed.

Lemma runs_raise {A : Type} (P : A -> Prop) e : runs P (raise e).
Proof.
  intros w. exists w. split; [apply clock_only_refl|].
  right. now exists e.
Qed.

Lemma runs_bind {A B : Type} (P : A -> Prop) (Q : B -> Prop)
      (m : M A) (k : A -> M B) :
  runs P m -> (forall a, P a -> runs Q (k a)) -> runs Q (bind m k).
Proof.
  intros Hm Hk w. destruct (Hm w) as (w1 & Hc1 & [(a & E & Pa)|(e & E)]).
  - destruct (Hk a Pa w1) as (w2 & Hc2 & H2).
    exists w2. split; [eapply clock_only_trans; eassumption|].
    unfold bind. rewrite E. exact H2.
  - exists w1. split; [exact Hc1|]. right. exists e.
    unfold bind. now rewrite E.
Qed.

Lemma runs_weaken {A : Type} (P Q : A -> Prop) (m : M A) :
  (forall a, P a -> Q a) -> runs P m -> runs Q m.
Proof.
  intros H Hm w. destruct (Hm w) as (w1 & Hc & [(a & E & Pa)|(e & E)]).
  - exists w1. split; [exact Hc|]. left. exists a. auto.
  - exists w1. split; [exact Hc|]. right. now exists e.
Qed.

Lemma runs_datetime_now : runs (fun _ => True) datetime_now.
Proof.
  intros w. eexists. split; [|left; eexists; split; [reflexivity|exact I]].
  repeat split.
Qed.

Lemma runs_response_json resp :
  runs (fun data => json resp = Json data) (response_json resp).
Proof.
  unfold response_json. destruct (json resp);
    [apply runs_raise|now apply runs_ret].
Qed.

Lemma runs_method_get v key default :
  runs (fun r => exists entries,
                   v = PyDict entries /\ r = get_or entries key default)
       (method_get v key default).
Proof.
  destruct v; simpl; try apply runs_raise. apply runs_ret. eauto.
Qed.

Lemma runs_contains v key : runs (fun _ => searchable v) (contains v key).
Proof.
  destruct v; simpl; try apply runs_raise; now apply runs_ret.
Qed.

Lemma runs_iterate v : runs (fun _ => True) (iterate v).
Proof.
  destruct v; simpl; try apply runs_raise; now apply runs_ret.
Qed.

Lemma runs_fromisoformat v : runs (fun _ => True) (fromisoformat v).
Proof.
  destruct v as [ | | | | |t| | ]; simpl; try apply runs_raise.
  destruct (iso t); [now apply runs_ret|apply runs_raise].
Qed.

Lemma runs_subscript v i : runs (fun _ => True) (subscript v i).
Proof.
  destruct v as [ | | | | |t|items| ]; simpl; try apply runs_raise.
  - destruct (String.get i (content t));
      [now apply runs_ret|apply runs_raise].
  - destruct (nth_error items i); [now apply runs_ret|apply runs_raise].
Qed.

Lemma runs_scan_hourly times i precs h default :
  runs (fun _ => True) (scan_hourly times i precs h default).
Proof.
  revert i. induction times as [|e rest IH]; intros i; simpl.
  - now apply runs_ret.
  - eapply runs_bind; [apply runs_fromisoformat|].
    intros t _. destruct (dt_hour t =? h);
      [apply runs_subscript|apply IH].
Qed.

Lemma runs_decode code :
  runs (fun info => weather_info_of code = Some info)
       (decode_weather_value code).
Proof.
  unfold decode_weather_value.
  destruct (weather_info_of code); [now apply runs_ret|apply runs_raise].
Qed.

(** A command that only reads the clock, run inside [try]: it returns,
    and what it returns beside [None] satisfies [P]. *)
Lemma try_runs {A : Type} (P : A -> Prop) (m : M (option A)) w :
  runs (fun r => forall x, r = Some x -> P x) m ->
  exists r w',
    try_except m (fun _ => ret None) w = Ok r w'
    /\ clock_only w w'
    /\ (forall x, r = Some x -> P x).
Proof.
  intros Hm. destruct (Hm w) as (w1 & Hc & [(a & E & Pa)|(e & E)]).
  - exists a, w1. unfold try_except. rewrite E. auto.
  - exists None, w1. unfold try_except, ret. rewrite E.
    split; [reflexivity|]. split; [exact Hc|discriminate].
Qed.

(** The request is the first step inside the [try]. *)
Lemma try_except_requests {A : Type} (k : response -> M A)
      (h : Py.exn -> M A) w :
  try_except (bind requests_get k) h w
  = let w1 := mkworld (rng_draws w) (rng_pos w) (clock w) (clock_pos w)
                      (net w) (S (net_pos w)) (db w) in
    match net w (net_pos w) with
    | HttpConnectionError => h Py.ConnectionError w1
    | HttpTimeout => h Py.Timeout w1
    | HttpOtherError => h Py.RequestException w1
    | HttpResponse r => try_except (k r) h w1
    end.
Proof.
  unfold try_except, bind, requests_get.
  destruct (net w (net_pos w)); reflexivity.
Qed.

(** What [get_weather] does with a response of status 200. *)
Lemma answered_runs (loc : string) (resp : response) :
  runs (fun r => forall x, r = Some x ->
                  w_location x = loc /\ decoded x
                  /\ exists data, json resp = Json data /\ read_from data x)
       (data <- response_json resp ;;
        current <- method_get data "current_weather" (PyDict []) ;;
        hourly <- method_get data "hourly" (PyDict []) ;;
        now <- datetime_now ;;
        let current_hour := dt_hour now in
        has_precipitation <- contains hourly "precipitation" ;;
        precip <-
          (if has_precipitation then
             times <- method_get hourly "time" (PyList []) ;;
             entries <- iterate times ;;
             precipitations <- method_get hourly "precipitation" PyNone ;;
             scan_hourly entries 0 precipitations current_hour (PyFloat 0)
           else ret (PyFloat 0)) ;;
        code <- method_get current "weathercode" (PyInt 0) ;;
        info <- decode_weather_value code ;;
        temp <- method_get current "temperature" (PyInt 0) ;;
        wind <- method_get current "windspeed" (PyInt 0) ;;
        stamp <- datetime_now ;;
        ret (Some
               (mkweather (Datetime.strftime stamp) loc temp precip wind
                          code (description info)
                          (info_rain_category info)))).
Proof.
  eapply runs_bind; [apply runs_response_json|]. intros data Hdata.
  eapply runs_bind; [apply runs_method_get|].
  intros current (entries & -> & ->).
  eapply runs_bind; [apply runs_method_get|].
  intros hourly (entries' & [= <-] & ->).
  eapply runs_bind; [apply runs_datetime_now|]. intros now _. cbv zeta.
  eapply runs_bind; [apply runs_contains|]. intros has Hsearch.
  eapply runs_bind with (P := fun _ => True).
  { destruct has; [|now apply runs_ret].
    eapply runs_bind; [apply runs_method_get|]. intros times _.
    eapply runs_bind; [apply runs_iterate|]. intros items _.
    eapply runs_bind; [apply runs_method_get|]. intros precs _.
    eapply runs_weaken; [|apply runs_scan_hourly]. trivial. }
  intros precip _.
  eapply runs_bind; [apply runs_method_get|].
  intros code (cur & Hcur & ->).
  eapply runs_bind; [apply runs_decode|]. intros info Hinfo.
  eapply runs_bind; [apply runs_method_get|].
  intros temp (cur1 & Hcur1 & ->).
  eapply runs_bind; [apply runs_method_get|].
  intros wind (cur2 & Hcur2 & ->).
  eapply runs_bind; [apply runs_datetime_now|]. intros stamp _.
  apply runs_ret. intros x [= <-]. split; [reflexivity|]. split.
  - exists info. repeat split. exact Hinfo.
  - exists (PyDict entries). split; [exact Hdata|].
    exists entries, cur. rewrite Hcur in Hcur1, Hcur2.
    injection Hcur1 as <-. injection Hcur2 as <-.
    repeat split; assumption.
Qed.

(** [get_weather] always returns: a record for [loc] that agrees with
    its weather code, or [None]; it returns [None] whenever the fetch
    fails. *)
Lemma get_weather_run locations loc w :
  exists r w',
    get_weather locations loc w = Ok r w'
    /\ same_oracles w w'
    /\ db w' = db w
    /\ (fetch_fails locations loc w -> r = None)
    /\ (forall x, r = Some x ->
        w_location x = loc /\ decoded x /\ answered_with w x)
    /\ (Py.contains String.eqb locations loc = true ->
        net_pos w' = S (net_pos w)).
Proof.
  unfold get_weather, fetch_fails.
  destruct (Py.contains String.eqb locations loc) eqn:Hin; simpl.
  2: { exists None, w. repeat split; intros; congruence. }
  rewrite try_except_requests. cbv zeta.
  destruct (net w (net_pos w)) as [ | | |resp] eqn:Hnet;
    try (eexists None, _; repeat split; intros; congruence).
  destruct (status_code resp =? 200) eqn:Hst; simpl.
  2: { eexists None, _. repeat split; intros; congruence. }
  apply Z.eqb_eq in Hst.
  match goal with
  | |- context [try_except ?m _ ?w1] =>
      destruct (try_runs
                  (fun x => w_location x = loc /\ decoded x
                            /\ exists data, json resp = Json data
                                            /\ read_from data x)
                  m w1 (answered_runs loc resp))
        as (r & w' & Hrun & (Hs & Hd & Hn & _) & Hpost)
  end.
  exists r, w'. split; [exact Hrun|].
  cbn [db net_pos] in Hd, Hn.
  split.
  { destruct Hs as (A & B & C). repeat split; assumption. }
  split; [exact Hd|]. split.
  - intros [H|[H|[H|[H|(r0 & H & Hr0)]]]]; congruence.
  - split; [|intros _; exact Hn].
    intros x Hx. destruct (Hpost x Hx) as (Hl & Hdec & data & Hj & Hread).
    split; [exact Hl|]. split; [exact Hdec|].
    exists resp, data. auto.
Qed.

Lemma get_weather_gives_up locations loc w :
  request_fails (net w (net_pos w)) ->
  exists w', get_weather locations loc w = Ok None w'
             /\ same_oracles w w' /\ db w' = db w.
Proof.
  intros Hf.
  destruct (get_weather_run locations loc w)
    as (r & w' & Hrun & Hsame & Hdb & Hnone & _).
  exists w'. rewrite Hrun. rewrite Hnone; [auto|].
  unfold fetch_fails. unfold request_fails in Hf.
  destruct (net w (net_pos w)) as [ | | |resp]; eauto 10.
Qed.

Lemma contains_configured (locations : list (string * coords)) name :
  In name (map fst locations) ->
  Py.contains String.eqb locations name = true.
Proof.
  unfold Py.contains.
  induction locations as [|[k v] rest IH]; simpl; [tauto|].
  intros [->|Hin].
  - now rewrite String.eqb_refl.
  - destruct (String.eqb name k); [reflexivity | now apply IH].
Qed.

(** Every record [get_all_weather] collects comes from a request that
    did not fail: the one made for its location, the [j]-th of the
    cycle. *)
Lemma get_all_weather_sources locations names acc w results w' :
  (forall n, In n names -> Py.contains String.eqb locations n = true) ->
  for_each names
           (fun loc results =>
              data <- get_weather locations loc ;;
              match data with
              | Some d => ret (results ++ [d])
              | None => ret results
              end) acc w = Ok results w' ->
  forall x, In x results ->
    In x acc
    \/ (decoded x
        /\ exists j, nth_error names j = Some (w_location x)
                     /\ ~ request_fails (net w (net_pos w + j)%nat)).
Proof.
  revert acc w. induction names as [|loc rest IH]; intros acc w Hcfg; simpl.
  - intros [= <- <-] x Hx. now left.
  - unfold bind at 1. unfold bind at 1.
    destruct (get_weather_run locations loc w)
      as (r & w1 & Hrun & Hsame & Hdb & Hnone & Hloc & Hpos).
    rewrite Hrun.
    specialize (Hpos (Hcfg loc (or_introl eq_refl))).
    assert (Hnet : forall j, net w1 (net_pos w1 + j)%nat
                             = net w (net_pos w + S j)%nat).
    { intros j. destruct Hsame as (_ & _ & ->). rewrite Hpos.
      f_equal. lia. }
    assert (Hrest : forall n, In n rest ->
                      Py.contains String.eqb locations n = true).
    { intros n Hn. apply Hcfg. now right. }
    destruct r as [d|]; unfold ret at 1; intros Hfor x Hx.
    + destruct (IH _ _ Hrest Hfor x Hx) as [Hacc|(Hdec & j & Hj & Hok)].
      * apply in_app_or in Hacc. destruct Hacc as [Hacc|[<-|[]]].
        -- now left.
        -- right. split; [apply (proj2 (Hloc d eq_refl))|].
           exists 0%nat. rewrite (proj1 (Hloc d eq_refl)).
           split; [reflexivity|]. rewrite Nat.add_0_r. intros Hf.
           destruct (get_weather_gives_up locations loc w Hf)
             as (w2 & Hnone' & _).
           congruence.
      * right. split; [exact Hdec|].
        exists (S j). split; [exact Hj|]. now rewrite <- Hnet.
    + destruct (IH _ _ Hrest Hfor x Hx) as [Hacc|(Hdec & j & Hj & Hok)].
      * now left.
      * right. split; [exact Hdec|].
        exists (S j). split; [exact Hj|]. now rewrite <- Hnet.
Qed.

(** The loop of [get_all_weather], from any accumulator: it never
    raises. *)
Lemma get_all_weather_loop locations names acc w :
  exists results w',
    for_each names
             (fun loc results =>
                data <- get_weather locations loc ;;
                match data with
                | Some d => ret (results ++ [d])
                | None => ret results
                end) acc w = Ok results w'
    /\ same_oracles w w'
    /\ db w' = db w
    /\ ((forall n, request_fails (net w n)) -> results = acc).
Proof.
  revert acc w. induction names as [|loc rest IH]; intros acc w; simpl.
  - exists acc, w. repeat split.
  - unfold bind at 1. unfold bind at 1.
    destruct (get_weather_run locations loc w)
      as (r & w1 & Hrun & Hsame & Hdb & _).
    rewrite Hrun.
    destruct r as [d|]; unfold ret at 1.
    + destruct (IH (acc ++ [d]) w1) as (res & w2 & H2 & Hs2 & Hd2 & _).
      exists res, w2. rewrite H2. split; [reflexivity|].
      split; [eapply same_oracles_trans; eassumption|].
      split; [congruence|].
      intros Hall.
      destruct (get_weather_gives_up locations loc w (Hall _))
        as (w' & Hnone & _).
      congruence.
    + destruct (IH acc w1) as (res & w2 & H2 & Hs2 & Hd2 & Hall2).
      exists res, w2. rewrite H2. split; [reflexivity|].
      split; [eapply same_oracles_trans; eassumption|].
      split; [congruence|].
      intros Hall. apply Hall2. intros n.
      destruct Hsame as (_ & _ & ->). apply Hall.
Qed.

(** Storing the fetched records, when each of them can be bound. *)
Lemma save_loop_run (ws : list weather_record) w :
  Forall storable ws ->
  exists w',
    for_each ws
             (fun weather (_ : unit) =>
                db_do (TrafficDatabase.insert_weather_data weather))
             tt w = Ok tt w'
    /\ same_oracles w w'
    /\ traffic_data (db w') = traffic_data (db w)
    /\ traffic_seq (db w') = traffic_seq (db w)
    /\ map w_record (weather_data (db w'))
       = map w_record (weather_data (db w)) ++ ws.
Proof.
  revert w. induction ws as [|x rest IH]; intros w Hall; simpl.
  - exists w. rewrite app_nil_r. repeat split.
  - apply Forall_cons_iff in Hall. destruct Hall as [Hx Hrest].
    unfold bind at 1, db_do at 1,
      TrafficDatabase.insert_weather_data at 1.
    unfold storable in Hx. rewrite Hx.
    match goal with
    | |- context [for_each rest _ tt ?w1] =>
        destruct (IH w1 Hrest) as (w' & H & Hs & Ht & Hq & Hw)
    end.
    exists w'. rewrite H. cbn [db traffic_data traffic_seq weather_data]
      in Ht, Hq, Hw.
    repeat split; try apply Hs; try assumption.
    rewrite Hw, map_app, <- app_assoc. reflexivity.
Qed.

(** Storing the fetched records, when one of them cannot be bound: the
    exception of that insert leaves the loop, after the records before
    it were stored. *)
Lemma save_loop_fails (pre post : list weather_record)
      (bad : weather_record) (e : Py.exn) w :
  Forall storable pre ->
  TrafficDatabase.bind_weather bad = Some e ->
  exists w',
    for_each (pre ++ bad :: post)
             (fun weather (_ : unit) =>
                db_do (TrafficDatabase.insert_weather_data weather))
             tt w = Raise e w'
    /\ traffic_data (db w') = traffic_data (db w)
    /\ map w_record (weather_data (db w'))
       = map w_record (weather_data (db w)) ++ pre.
Proof.
  revert w. induction pre as [|x rest IH]; intros w Hall Hbad; simpl.
  - exists w. unfold bind at 1, db_do at 1,
      TrafficDatabase.insert_weather_data at 1.
    rewrite Hbad, app_nil_r. repeat split.
  - apply Forall_cons_iff in Hall. destruct Hall as [Hx Hrest].
    unfold bind at 1, db_do at 1,
      TrafficDatabase.insert_weather_data at 1.
    unfold storable in Hx. rewrite Hx.
    match goal with
    | |- context [for_each (rest ++ bad :: post) _ tt ?w1] =>
        destruct (IH w1 Hrest Hbad) as (w' & H & Ht & Hw)
    end.
    exists w'. rewrite H. cbn [db traffic_data weather_data] in Ht, Hw.
    repeat split; [assumption|].
    rewrite Hw, map_app, <- app_assoc. reflexivity.
Qed.

(** A list of records is storable throughout, or has a first record
    that is not. *)
Lemma first_unstorable (ws : list weather_record) :
  Forall storable ws
  \/ exists pre bad post e,
      ws = pre ++ bad :: post
      /\ Forall storable pre
      /\ TrafficDatabase.bind_weather bad = Some e.
Proof.
  induction ws as [|x rest IH]; [left; constructor|].
  destruct (TrafficDatabase.bind_weather x) as [e|] eqn:E.
  - right. exists [], x, rest, e.
    split; [reflexivity|]. split; [constructor|exact E].
  - destruct IH as [H|(pre & bad & post & e & -> & Hpre & Hbad)].
    + left. now constructor.
    + right. exists (x :: pre), bad, post, e.
      split; [reflexivity|]. split; [now constructor|exact Hbad].
Qed.

(** [fetch_and_save]: the fetch never raises; the records are stored
    when each of them can be bound. *)
Lemma fetch_and_save_run locations w :
  exists weather_list w1,
    get_all_weather locations w = Ok weather_list w1
    /\ same_oracles w w1
    /\ db w1 = db w
    /\ ((forall n, request_fails (net w n)) -> weather_list = [])
    /\ (forall x, In x weather_list ->
        decoded x
        /\ exists j, nth_error (map fst locations) j = Some (w_location x)
                     /\ ~ request_fails (net w (net_pos w + j)%nat))
    /\ (Forall storable weather_list ->
        exists w',
          fetch_and_save locations w = Ok weather_list w'
          /\ same_oracles w w'
          /\ traffic_data (db w') = traffic_data (db w)
          /\ traffic_seq (db w') = traffic_seq (db w)
          /\ map w_record (weather_data (db w'))
             = map w_record (weather_data (db w)) ++ weather_list)
    /\ (forall pre bad post e,
           weather_list = pre ++ bad :: post ->
           Forall storable pre ->
           TrafficDatabase.bind_weather bad = Some e ->
           exists w',
             fetch_and_save locations w = Raise e w'
             /\ traffic_data (db w') = traffic_data (db w)
             /\ map w_record (weather_data (db w'))
                = map w_record (weather_data (db w)) ++ pre).
Proof.
  unfold fetch_and_save, get_all_weather.
  destruct (get_all_weather_loop locations (map fst locations) [] w)
    as (ws & w1 & H1 & Hs1 & Hd1 & Hall).
  pose proof (get_all_weather_sources
                locations (map fst locations) [] w ws w1
                (contains_configured locations) H1) as Hsrc.
  exists ws, w1. split; [exact H1|]. split; [exact Hs1|].
  split; [exact Hd1|]. split; [exact Hall|]. split; [|split].
  - intros x Hx. destruct (Hsrc x Hx) as [[]|H]. exact H.
  - intros Hst.
    destruct (save_loop_run ws w1 Hst) as (w2 & H2 & Hs2 & Ht2 & Hq2 & Hw2).
    exists w2. unfold bind at 1. rewrite H1.
    unfold bind at 1. rewrite H2. unfold ret.
    split; [reflexivity|].
    split; [eapply same_oracles_trans; eassumption|].
    split; [now rewrite Ht2, Hd1|].
    split; [now rewrite Hq2, Hd1|]. now rewrite Hw2, Hd1.
  - intros pre bad post e -> Hpre Hbad.
    destruct (save_loop_fails pre post bad e w1 Hpre Hbad)
      as (w2 & H2 & Ht2 & Hw2).
    exists w2. unfold bind at 1. rewrite H1.
    unfold bind at 1. rewrite H2.
    split; [reflexivity|]. split; [now rewrite Ht2, Hd1|].
    now rewrite Hw2, Hd1.
Qed.

End WeatherFailure.

Section SimulationCycle.

Import Config TrafficEngine.

(** Every rain factor the table or its default can give is at least
    1, so the division in [calculate_speed] is defined. *)
Lemma rain_impact_at_least_one (cat : string) :
  (1 <= Py.get String.eqb RAIN_IMPACT cat 1)%Q.
Proof.
  unfold Py.get, RAIN_IMPACT; simpl.
  repeat match goal with
         | |- context [String.eqb cat ?s] => destruct (String.eqb cat s)
         end; unfold Qle; simpl; lia.
Qed.

Lemma lookup_set {V : Type} (m : list (string * V)) k k' v :
  Py.lookup String.eqb k (Py.set String.eqb m k' v)
  = if String.eqb k k' then Some v else Py.lookup String.eqb k m.
Proof.
  induction m as [|[k0 v0] rest IH]; simpl.
  - reflexivity.
  - destruct (String.eqb k' k0) eqn:E0; simpl.
    + apply String.eqb_eq in E0. subst k0.
      destruct (String.eqb k k'); reflexivity.
    + rewrite IH. destruct (String.eqb k k0) eqn:E1; [|reflexivity].
      apply String.eqb_eq in E1. subst k0.
      destruct (String.eqb k k') eqn:E2; [|reflexivity].
      apply String.eqb_eq in E2. subst k'.
      rewrite String.eqb_refl in E0. discriminate.
Qed.

(** A location absent from the fetched list has no entry in the
    [weather_map] built from it. *)
Lemma weather_map_miss (ws : list weather_record)
      (m : list (string * weather_record)) loc :
  Py.lookup String.eqb loc m = None ->
  ~ In loc (map w_location ws) ->
  Py.lookup String.eqb loc
    (fold_left (fun m w => Py.set String.eqb m (w_location w) w) ws m)
  = None.
Proof.
  revert m. induction ws as [|x rest IH]; intros m Hm Hnot; simpl.
  - exact Hm.
  - apply IH.
    + rewrite lookup_set. destruct (String.eqb loc (w_location x)) eqn:E.
      * apply String.eqb_eq in E. exfalso. apply Hnot. now left.
      * exact Hm.
    + intros Hin. apply Hnot. now right.
Qed.

(** One location is always simulated: the record carries the location,
    a speed within bounds and, without weather, the rain factor 1. *)
Lemma simulate_location_run loc weather w :
  exists t w',
    simulate_location loc weather w = Ok t w'
    /\ same_oracles w w'
    /\ db w' = db w
    /\ location t = loc
    /\ data_source t = "real_time_simulated"
    /\ (5 <= speed_kmh t <= 60)%Q
    /\ (weather = None -> rain_factor t = 1%Q).
Proof.
  unfold simulate_location.
  unfold bind at 1, datetime_now at 1.
  unfold bind at 1. rewrite uniform_run. cbn [rng_draws rng_pos clock
    clock_pos net net_pos db].
  set (now := clock w (clock_pos w)).
  set (var := (_ + _ * _)%Q).
  set (w1 := mkworld _ _ _ _ _ _ _).
  destruct weather as [wd|].
  - set (rf := Py.get String.eqb RAIN_IMPACT (rain_category wd) 1%Q).
    assert (Hrf : ~ (rf == 0)%Q).
    { pose proof (rain_impact_at_least_one (rain_category wd)).
      fold rf in H. lra. }
    unfold bind at 1. rewrite (engine_speed_run _ rf w1 Hrf).
    unfold ret. eexists _, _. split; [reflexivity|].
    cbn. repeat split; try discriminate.
    all: apply round_one_decimal_bounds, clamp_bounds.
  - assert (H1 : ~ (1 == 0)%Q) by lra.
    unfold bind at 1. rewrite (engine_speed_run _ 1%Q w1 H1).
    unfold ret. eexists _, _. split; [reflexivity|].
    cbn. repeat split.
    all: apply round_one_decimal_bounds, clamp_bounds.
Qed.

(** The loop of [run_simulation_cycle], from any accumulator. *)
Lemma simulation_loop_run (weather_map : list (string * weather_record))
      names acc w :
  exists records w',
    for_each names
             (fun loc records =>
                let weather := Py.lookup String.eqb loc weather_map in
                traffic <- simulate_location loc weather ;;
                ret (records ++ [traffic])) acc w = Ok records w'
    /\ same_oracles w w'
    /\ db w' = db w
    /\ map location records = map location acc ++ names
    /\ (forall r, In r records ->
        In r acc
        \/ (Py.lookup String.eqb (location r) weather_map = None ->
            rain_factor r = 1%Q)).
Proof.
  revert acc w. induction names as [|loc rest IH]; intros acc w; simpl.
  - exists acc, w. repeat split; [now rewrite app_nil_r | now left].
  - unfold bind at 1. unfold bind at 1.
    destruct (simulate_location_run
                loc (Py.lookup String.eqb loc weather_map) w)
      as (t & w1 & Hrun & Hs & Hd & Hloc & _ & _ & Hrain).
    rewrite Hrun. unfold ret at 1.
    destruct (IH (acc ++ [t]) w1) as (rs & w2 & H2 & Hs2 & Hd2 & Hm & Hr).
    cbv zeta in H2.
    exists rs, w2. rewrite H2. split; [reflexivity|].
    split; [eapply same_oracles_trans; eassumption|].
    split; [congruence|]. split.
    + rewrite Hm, map_app, <- app_assoc. simpl. now rewrite Hloc.
    + intros r Hin. destruct (Hr r Hin) as [Hacc|Hnew]; [|now right].
      apply in_app_or in Hacc. destruct Hacc as [Hacc|[<-|[]]].
      * now left.
      * right. now rewrite Hloc.
Qed.

Lemma number_from_records n (records : list traffic_record) :
  map t_record (TrafficDatabase.number_from mktraffic_row n records)
  = records.
Proof.
  revert n. induction records as [|r rest IH]; intros n; simpl.
  - reflexivity.
  - now rewrite IH.
Qed.

Lemma insert_traffic_data_rows records d :
  map t_record (traffic_data
                  (TrafficDatabase.insert_traffic_data records d))
  = map t_record (traffic_data d) ++ records.
Proof.
  destruct records as [|r rest]; simpl.
  - now rewrite app_nil_r.
  - rewrite map_app. simpl. now rewrite number_from_records.
Qed.

(** A cycle fetches without raising.  When every fetched record can be
    stored it completes with one record per configured location, in
    order, stores them, and gives the rain factor 1 to every location
    whose weather was not fetched; when one cannot, the exception of
    its insert leaves the cycle before any location is simulated. *)
Lemma run_simulation_cycle_run (cfg : settings) (w : world) :
  exists weather_list w1,
    WeatherAPI.get_all_weather (cfg_LOCATIONS cfg) w = Ok weather_list w1
    /\ ((forall n, request_fails (net w n)) -> weather_list = [])
    /\ (Forall storable weather_list ->
        exists w1' records w2,
          WeatherAPI.fetch_and_save (cfg_LOCATIONS cfg) w
          = Ok weather_list w1'
          /\ run_simulation_cycle cfg w = Ok records w2
          /\ map location records = map fst (cfg_LOCATIONS cfg)
          /\ map t_record (traffic_data (db w2))
             = map t_record (traffic_data (db w)) ++ records
          /\ (forall r, In r records ->
              ~ In (location r) (map w_location weather_list) ->
              rain_factor r = 1%Q)
          /\ ((forall n, request_fails (net w n)) ->
              forall r, In r records -> rain_factor r = 1%Q)
          /\ (NoDup (map fst (cfg_LOCATIONS cfg)) ->
              forall i loc,
                nth_error (map fst (cfg_LOCATIONS cfg)) i = Some loc ->
                request_fails (net w (net_pos w + i)%nat) ->
                exists r, nth_error records i = Some r
                          /\ location r = loc /\ rain_factor r = 1%Q))
    /\ (forall pre bad post e,
           weather_list = pre ++ bad :: post ->
           Forall storable pre ->
           TrafficDatabase.bind_weather bad = Some e ->
           exists w',
             run_simulation_cycle cfg w = Raise e w'
             /\ traffic_data (db w') = traffic_data (db w)).
Proof.
  destruct (fetch_and_save_run (cfg_LOCATIONS cfg) w)
    as (ws & w0 & Hg & _ & _ & Hall & Hsrc & Hgood & Hbad).
  exists ws, w0. split; [exact Hg|]. split; [exact Hall|]. split.
  - intros Hst.
    destruct (Hgood Hst) as (w1 & Hf & Hs1 & Ht1 & Hq1 & Hw1).
    unfold run_simulation_cycle. unfold bind at 1. rewrite Hf.
    set (wm := fold_left _ ws []).
    destruct (simulation_loop_run wm (map fst (cfg_LOCATIONS cfg)) [] w1)
      as (rs & w2 & H2 & Hs2 & Hd2 & Hm & Hr).
    cbv zeta in H2 |- *. unfold bind at 1. rewrite H2.
    unfold bind at 1, with_db at 1, ret.
    assert (Hmiss : forall r, In r rs ->
                ~ In (location r) (map w_location ws) ->
                rain_factor r = 1%Q).
    { intros r Hin Hnot. destruct (Hr r Hin) as [[]|Hnone].
      apply Hnone. now apply weather_map_miss. }
    eexists w1, rs, _. split; [reflexivity|]. split; [reflexivity|].
    split; [exact Hm|]. split.
    + cbn [db]. rewrite insert_traffic_data_rows. now rewrite Hd2, Ht1.
    + split; [exact Hmiss|]. split.
      * intros Hfail. specialize (Hall Hfail).
        intros r Hin. apply Hmiss; [exact Hin|]. subst ws. simpl. tauto.
      * intros Hnodup i loc Hi Hfail.
        simpl in Hm. rewrite <- Hm in Hi.
        rewrite nth_error_map in Hi.
        destruct (nth_error rs i) as [r|] eqn:Er; [|discriminate].
        injection Hi as Hloc. exists r. split; [reflexivity|].
        split; [exact Hloc|].
        apply Hmiss; [eapply nth_error_In; eassumption|].
        intros Hin. apply in_map_iff in Hin.
        destruct Hin as (x & Hx & Hxin).
        destruct (Hsrc x Hxin) as (_ & j & Hj & Hok).
        assert (Hij : i = j).
        { apply (proj1 (NoDup_nth_error _) Hnodup).
          - apply nth_error_Some. rewrite <- Hm, nth_error_map, Er.
            discriminate.
          - rewrite Hj, Hx, <- Hm, nth_error_map, Er. reflexivity. }
        subst j. contradiction.
  - intros pre bad post e Hws Hpre Hbadrec.
    destruct (Hbad pre bad post e Hws Hpre Hbadrec) as (w' & Hf & Ht & _).
    exists w'. unfold run_simulation_cycle. unfold bind at 1.
    rewrite Hf. split; [reflexivity|exact Ht].
Qed.

(** C7, as amended.  When the fetch for a location fails (unknown
    location, connection error, timeout, any other exception, or a
    status other than 200), [get_weather] returns [None] and no
    exception escapes.  From any world the fetch of
    [run_simulation_cycle] returns the list of the records it got,
    empty when every request fails.  When each of these records can be
    stored, the cycle completes with exactly one traffic reading per
    configured location, in order, where every location whose weather
    was not fetched has the rain factor 1.0: in particular the [i]-th
    location when the [i]-th request of the cycle fails, and every
    location when all requests fail.  When one of them cannot be stored,
    the exception of its insert leaves the cycle and no reading is
    stored. *)
Theorem weather_failure_is_absorbed (cfg : settings) (loc : string)
        (w : world) :
  fetch_fails (cfg_LOCATIONS cfg) loc w ->
  (exists w', WeatherAPI.get_weather (cfg_LOCATIONS cfg) loc w
              = Ok None w')
  /\ (forall w0, exists weather_list w1,
        WeatherAPI.get_all_weather (cfg_LOCATIONS cfg) w0
        = Ok weather_list w1
        /\ ((forall n, request_fails (net w0 n)) -> weather_list = [])
        /\ (Forall storable weather_list ->
            exists w1' records w2,
              WeatherAPI.fetch_and_save (cfg_LOCATIONS cfg) w0
              = Ok weather_list w1'
              /\ run_simulation_cycle cfg w0 = Ok records w2
              /\ map location records = map fst (cfg_LOCATIONS cfg)
              /\ map t_record (traffic_data (db w2))
                 = map t_record (traffic_data (db w0)) ++ records
              /\ (forall r, In r records ->
                  ~ In (location r) (map w_location weather_list) ->
                  rain_factor r = 1%Q)
              /\ ((forall n, request_fails (net w0 n)) ->
                  forall r, In r records -> rain_factor r = 1%Q)
              /\ (NoDup (map fst (cfg_LOCATIONS cfg)) ->
                  forall i name,
                    nth_error (map fst (cfg_LOCATIONS cfg)) i = Some name ->
                    request_fails (net w0 (net_pos w0 + i)%nat) ->
                    exists r, nth_error records i = Some r
                              /\ location r = name
                              /\ rain_factor r = 1%Q))
        /\ (forall pre bad post e,
               weather_list = pre ++ bad :: post ->
               Forall storable pre ->
               TrafficDatabase.bind_weather bad = Some e ->
               exists w',
                 run_simulation_cycle cfg w0 = Raise e w'
                 /\ traffic_data (db w') = traffic_data (db w0))).
Proof.
  intros Hfail. split.
  - destruct (get_weather_run (cfg_LOCATIONS cfg) loc w)
      as (r & w' & Hrun & _ & _ & Hnone & _).
    exists w'. now rewrite Hrun, (Hnone Hfail).
  - intros w0. apply run_simulation_cycle_run.
Qed.

Lemma weather_failure_is_absorbed_witness :
  fetch_fails Config.LOCATIONS "Jakarta Pusat" first_request_times_out
  /\ exists records w2,
       run_simulation_cycle repo_settings first_request_times_out
       = Ok records w2
       /\ map location records = map fst Config.LOCATIONS
       /\ exists r, nth_error records 0 = Some r
                    /\ location r = "Jakarta Pusat"
                    /\ rain_factor r = 1%Q.
Proof.
  assert (Hfail : fetch_fails (cfg_LOCATIONS repo_settings)
                              "Jakarta Pusat" first_request_times_out).
  { right. right. left. reflexivity. }
  split; [exact Hfail|].
  destruct (weather_failure_is_absorbed repo_settings "Jakarta Pusat"
              first_request_times_out Hfail) as [_ Hcycle].
  destruct (Hcycle first_request_times_out)
    as (ws & w1 & Hget & _ & Hgood & _).
  assert (Hst : Forall storable ws).
  { vm_compute in Hget. injection Hget as <- _.
    repeat constructor. }
  destruct (Hgood Hst)
    as (w1' & rs & w2 & _ & Hrun & Hm & _ & _ & _ & Hith).
  exists rs, w2. split; [exact Hrun|]. split; [exact Hm|].
  assert (Hnd : NoDup (map fst (cfg_LOCATIONS repo_settings))).
  { repeat (constructor; [simpl; intuition discriminate|]). constructor. }
  exact (Hith Hnd 0%nat "Jakarta Pusat" eq_refl I).
Defined.

(** C7, the claim as the specification states it, fails: with the
    configured locations, the first request times out, so the fetch for
    Jakarta Pusat fails, and the second is answered with a temperature
    that is a JSON object; the record made of it cannot be stored, and
    the cycle raises instead of producing readings. *)
Lemma weather_failure_can_stop_the_cycle :
  fetch_fails (cfg_LOCATIONS repo_settings) "Jakarta Pusat"
              temperature_is_an_object
  /\ (exists w', run_simulation_cycle repo_settings
                                      temperature_is_an_object
                 = Raise Py.ProgrammingError w')
  /\ ~ (exists records w',
           run_simulation_cycle repo_settings temperature_is_an_object
           = Ok records w').
Proof.
  split; [right; right; left; reflexivity|].
  assert (H : exists w', run_simulation_cycle repo_settings
                                              temperature_is_an_object
                         = Raise Py.ProgrammingError w').
  { eexists. vm_compute. reflexivity. }
  split; [exact H|].
  destruct H as (w' & H). intros (records & w2 & Hok).
  rewrite H in Hok. discriminate.
Qed.

(** One location without weather among four with heavy rain: the cycle
    still yields five records, the first with the default factor. *)
Example cycle_with_one_failed_fetch :
  exists records w',
    run_simulation_cycle repo_settings first_request_times_out
    = Ok records w'
    /\ map location records = map fst Config.LOCATIONS
    /\ map rain_factor records
       = [1%Q; 18 # 10; 18 # 10; 18 # 10; 18 # 10].
Proof. eexists _, _. split; [vm_compute; reflexivity|]. split; reflexivity. Qed.

End SimulationCycle.

Section Backfill.

Import Config DataGenerator.

Lemma bind_ok {A B : Type} (m : M A) (f : A -> M B) w a w' :
  m w = Ok a w' -> bind m f w = f a w'.
Proof. intros H. unfold bind. now rewrite H. Qed.

(** ** Comparisons of the instants the loops meet *)

Lemma ltb_earlier_day (a b : datetime) :
  ordinal a < ordinal b -> Datetime.ltb a b = true.
Proof.
  intros H. unfold Datetime.ltb, Datetime.compare, Datetime.key; simpl.
  apply Z.compare_lt_iff in H. now rewrite H.
Qed.

Lemma leb_later_day (a b : datetime) :
  ordinal b < ordinal a -> Datetime.leb a b = false.
Proof.
  intros H. unfold Datetime.leb, Datetime.compare, Datetime.key; simpl.
  apply Z.compare_gt_iff in H. now rewrite H.
Qed.

Lemma ltb_irrefl (a : datetime) : Datetime.ltb a a = false.
Proof.
  unfold Datetime.ltb, Datetime.compare, Datetime.key; simpl.
  now rewrite !Z.compare_refl.
Qed.

Lemma slot_before_end_of_day (day us m : Z) :
  0 <= m < 1440 ->
  Datetime.leb (slot_at day us m) (mkdatetime day 23 59 59 us) = true.
Proof.
  intros Hm. unfold slot_at.
  rewrite (Z.div_small m 1440), (Z.mod_small m 1440), Z.add_0_l by lia.
  unfold Datetime.leb, Datetime.compare, Datetime.key; simpl.
  rewrite Z.compare_refl.
  assert (Hh : m / 60 < 24).
  { apply Z.div_lt_upper_bound; lia. }
  assert (Hmin : 0 <= m mod 60 < 60) by (apply Z.mod_pos_bound; lia).
  destruct (Z.compare_spec (m / 60) 23); try reflexivity; try lia.
  destruct (Z.compare_spec (m mod 60) 59); try reflexivity; lia.
Qed.

Lemma add_minutes_slot (day us m : Z) :
  0 <= m < 1440 ->
  Datetime.add_minutes (slot_at day us m) 5 = slot_at day us (m + 5).
Proof.
  intros Hm. unfold Datetime.add_minutes, slot_at; simpl.
  rewrite (Z.div_small m 1440), (Z.mod_small m 1440), Z.add_0_l by lia.
  replace (m / 60 * 60 + m mod 60) with m
    by (pose proof (Z.div_mod m 60 ltac:(lia)); lia).
  f_equal. lia.
Qed.

Lemma slot_hour (day us m : Z) :
  0 <= m < 1440 -> dt_hour (slot_at day us m) = m / 60.
Proof. intros Hm. unfold slot_at; simpl. now rewrite Z.mod_small. Qed.

Lemma strftime_slot (day us m : Z) :
  Datetime.strftime (slot_at day us m) = slot_at day 0 m.
Proof. reflexivity. Qed.

(** ** The steps of one slot *)

Lemma simulate_historical_weather_run hour dow w :
  exists sw w',
    simulate_historical_weather hour dow w = Ok sw w' /\ db w' = db w.
Proof.
  unfold simulate_historical_weather, bind, random, uniform, ret, bind,
    random; cbn [rng_draws rng_pos clock clock_pos net net_pos db].
  repeat match goal with
         | |- context [if ?c then _ else _] => destruct c
         end;
    eexists _, _; split; reflexivity.
Qed.

Lemma generator_speed_run (v : Z) (r : Q) (w : world) :
  ~ (r == 0)%Q ->
  exists speed w',
    DataGenerator.calculate_speed v r w = Ok speed w' /\ db w' = db w.
Proof.
  intros Hr. eexists _, _. split.
  - exact (engine_speed_run v r w Hr).
  - reflexivity.
Qed.

Lemma traffic_step_run ct dow weather loc b w :
  exists r w',
    traffic_step ct dow weather loc b w
    = Ok (mkbatches (traffic_batch b ++ [r]) (weather_batch b)
                    (count b + 1)) w'
    /\ db w' = db w
    /\ traffic_key r = (Datetime.strftime ct, loc)
    /\ data_source r = "historical_generated".
Proof.
  unfold traffic_step.
  rewrite (bind_ok _ _ _ _ _ (uniform_run _ _ w)).
  match goal with
  | |- context [bind (if ?c then _ else _)] => destruct c
  end;
    rewrite (bind_ok _ _ _ _ _ (uniform_run _ _ _));
    match goal with
    | |- context [calculate_speed ?v ?r] =>
        let H := fresh in
        assert (H : ~ (r == 0)%Q)
          by (pose proof (rain_impact_at_least_one
                            (sw_rain_category weather)); lra);
        destruct (generator_speed_run v r
                    (mkworld (rng_draws w) (S (S (rng_pos w))) (clock w)
                             (clock_pos w) (net w) (net_pos w) (db w)) H)
          as (speed & w' & Hs & Hd)
    end;
    cbn [rng_draws rng_pos clock clock_pos net net_pos db] in *;
    rewrite (bind_ok _ _ _ _ _ Hs); unfold ret;
    eexists _, w'; repeat split; assumption.
Qed.

Lemma weather_step_run ct weather loc b w :
  exists r w',
    weather_step ct weather loc b w
    = Ok (mkbatches (traffic_batch b) (weather_batch b ++ [r])
                    (count b)) w'
    /\ db w' = db w
    /\ weather_key r = (Datetime.strftime ct, loc).
Proof.
  unfold weather_step.
  rewrite (bind_ok _ _ _ _ _ (uniform_run _ _ w)). unfold ret.
  eexists _, _. repeat split.
Qed.

Lemma traffic_loop_run ct dow weather names b w :
  exists b' w',
    for_each names (traffic_step ct dow weather) b w = Ok b' w'
    /\ db w' = db w
    /\ map traffic_key (traffic_batch b')
       = map traffic_key (traffic_batch b)
         ++ keys_at (Datetime.strftime ct) names
    /\ weather_batch b' = weather_batch b
    /\ count b' = count b + Z.of_nat (List.length names).
Proof.
  revert b w. induction names as [|loc rest IH]; intros b w.
  - exists b, w. simpl. rewrite app_nil_r. repeat split. lia.
  - destruct (traffic_step_run ct dow weather loc b w)
      as (r & w1 & H1 & Hd1 & Hk & _).
    cbn [for_each]. rewrite (bind_ok _ _ _ _ _ H1).
    destruct (IH (mkbatches (traffic_batch b ++ [r]) (weather_batch b)
                            (count b + 1)) w1)
      as (b' & w' & H2 & Hd2 & Ht & Hw & Hc).
    exists b', w'. split; [exact H2|]. split; [congruence|].
    cbn [traffic_batch weather_batch count] in Ht, Hw, Hc.
    split; [|split; [exact Hw|]].
    + rewrite Ht, map_app, <- app_assoc. simpl. now rewrite Hk.
    + rewrite Hc. cbn [List.length]. lia.
Qed.

Lemma weather_loop_run ct weather names b w :
  exists b' w',
    for_each names (weather_step ct weather) b w = Ok b' w'
    /\ db w' = db w
    /\ traffic_batch b' = traffic_batch b
    /\ map weather_key (weather_batch b')
       = map weather_key (weather_batch b)
         ++ keys_at (Datetime.strftime ct) names
    /\ count b' = count b.
Proof.
  revert b w. induction names as [|loc rest IH]; intros b w.
  - exists b, w. simpl. rewrite app_nil_r. repeat split.
  - destruct (weather_step_run ct weather loc b w)
      as (r & w1 & H1 & Hd1 & Hk).
    cbn [for_each]. rewrite (bind_ok _ _ _ _ _ H1).
    destruct (IH (mkbatches (traffic_batch b) (weather_batch b ++ [r])
                            (count b)) w1)
      as (b' & w' & H2 & Hd2 & Ht & Hw & Hc).
    exists b', w'. split; [exact H2|]. split; [congruence|].
    cbn [traffic_batch weather_batch count] in Ht, Hw, Hc.
    split; [exact Ht|]. split; [|exact Hc].
    rewrite Hw, map_app, <- app_assoc. simpl. now rewrite Hk.
Qed.

Lemma lookup_set_same {V : Type} (m : list (Z * V)) k v :
  Py.lookup Z.eqb k (Py.set Z.eqb m k v) = Some v.
Proof.
  induction m as [|[k0 v0] rest IH]; simpl.
  - now rewrite Z.eqb_refl.
  - destruct (k =? k0) eqn:E; simpl; rewrite E; [reflexivity | exact IH].
Qed.

(** The weather of the hour is simulated once and then found in the
    cache. *)
Lemma weather_cache_run (cache : list (Z * simulated_weather)) hour dow w :
  exists cache' sw w',
    (if negb (Py.contains Z.eqb cache hour) then
       x <- simulate_historical_weather hour dow ;;
       ret (Py.set Z.eqb cache hour x)
     else ret cache) w = Ok cache' w'
    /\ db w' = db w
    /\ Py.lookup Z.eqb hour cache' = Some sw.
Proof.
  unfold Py.contains.
  destruct (Py.lookup Z.eqb hour cache) as [sw|] eqn:E; simpl.
  - exists cache, sw, w. repeat split. exact E.
  - destruct (simulate_historical_weather_run hour dow w)
      as (sw & w' & H & Hd).
    rewrite (bind_ok _ _ _ _ _ H). unfold ret.
    exists (Py.set Z.eqb cache hour sw), sw, w'.
    repeat split; [exact Hd | apply lookup_set_same].
Qed.

(** The progress report divides by the expected total. *)
Lemma progress_run (n total : Z) w :
  total <> 0 ->
  (if n mod 10000 =? 0 then
     truediv (inject_Z n) (inject_Z total) ;;; ret tt
   else ret tt) w = Ok tt w.
Proof.
  intros Ht. destruct (n mod 10000 =? 0); [|reflexivity].
  assert (H0 : ~ (inject_Z total == 0)%Q).
  { intros H. apply Ht. unfold Qeq in H. simpl in H. lia. }
  now rewrite (bind_ok _ _ _ _ _ (truediv_run _ _ w H0)).
Qed.

Lemma slot_keys_step day names k n :
  slot_keys day names k (S n)
  = keys_at (slot_at day 0 (5 * Z.of_nat k)) names
    ++ slot_keys day names (S k) n.
Proof. reflexivity. Qed.

Lemma hour_keys_step day names k n :
  hour_keys day names k (S n)
  = (if (5 * Z.of_nat k) mod 60 =? 0
     then keys_at (slot_at day 0 (5 * Z.of_nat k)) names else [])
    ++ hour_keys day names (S k) n.
Proof. reflexivity. Qed.

(** The inner loop from slot [k] on: it runs through the remaining [n]
    slots of the day and adds one traffic record per slot and location
    and one weather record per location on every slot on the hour. *)
Lemma slot_loop_run (cfg : settings) (now : datetime) (day us dow total : Z) :
  cfg_DATA_INTERVAL_MINUTES cfg = 5 ->
  day < ordinal now ->
  total <> 0 ->
  forall (n k fuel : nat) cache b w,
    (k + n = 288)%nat ->
    (n < fuel)%nat ->
    exists b' w',
      slot_loop fuel cfg now (mkdatetime day 23 59 59 us) dow total
                (slot_at day us (5 * Z.of_nat k)) cache b w = Ok b' w'
      /\ db w' = db w
      /\ map traffic_key (traffic_batch b')
         = map traffic_key (traffic_batch b)
           ++ slot_keys day (map fst (cfg_LOCATIONS cfg)) k n
      /\ map weather_key (weather_batch b')
         = map weather_key (weather_batch b)
           ++ hour_keys day (map fst (cfg_LOCATIONS cfg)) k n
      /\ count b'
         = count b
           + Z.of_nat n * Z.of_nat (List.length (cfg_LOCATIONS cfg)).
Proof.
  intros Hstep Hday Htotal.
  induction n as [|n IH]; intros k fuel cache b w Hk Hfuel.
  - destruct fuel as [|fuel]; [lia|].
    assert (k = 288%nat) by lia. subst k.
    cbn [slot_loop].
    rewrite leb_later_day
      by (unfold slot_at; cbn [ordinal];
          change (5 * Z.of_nat 288 / 1440) with 1; lia).
    cbn [andb]. exists b, w. simpl. rewrite !app_nil_r.
    repeat split. lia.
  - destruct fuel as [|fuel]; [lia|].
    assert (Hm : 0 <= 5 * Z.of_nat k < 1440) by lia.
    set (m := 5 * Z.of_nat k) in *.
    cbn [slot_loop].
    rewrite slot_before_end_of_day by exact Hm.
    rewrite ltb_earlier_day
      by (unfold slot_at; cbn [ordinal]; rewrite Z.div_small; lia).
    cbn [andb].
    destruct (weather_cache_run cache (dt_hour (slot_at day us m)) dow w)
      as (cache' & sw & w1 & H1 & Hd1 & Hsw).
    rewrite (bind_ok _ _ _ _ _ H1). rewrite Hsw.
    rewrite (bind_ok _ _ w1 sw w1 eq_refl).
    destruct (traffic_loop_run (slot_at day us m) dow sw
                (map fst (cfg_LOCATIONS cfg)) b w1)
      as (b1 & w2 & H2 & Hd2 & Ht2 & Hw2 & Hc2).
    rewrite (bind_ok _ _ _ _ _ H2).
    assert (Hweather :
             exists b2 w3,
               (if dt_minute (slot_at day us m) =? 0
                then for_each (map fst (cfg_LOCATIONS cfg))
                              (weather_step (slot_at day us m) sw) b1
                else ret b1) w2 = Ok b2 w3
               /\ db w3 = db w2
               /\ traffic_batch b2 = traffic_batch b1
               /\ map weather_key (weather_batch b2)
                  = map weather_key (weather_batch b1)
                    ++ (if m mod 60 =? 0
                        then keys_at (slot_at day 0 m)
                                     (map fst (cfg_LOCATIONS cfg))
                        else [])
               /\ count b2 = count b1).
    { cbn [slot_at dt_minute].
      destruct (m mod 60 =? 0).
      - apply weather_loop_run.
      - exists b1, w2. rewrite app_nil_r. repeat split. }
    destruct Hweather as (b2 & w3 & H3 & Hd3 & Ht3 & Hw3 & Hc3).
    rewrite (bind_ok _ _ _ _ _ H3).
    rewrite (bind_ok _ _ _ _ _ (progress_run _ _ w3 Htotal)).
    rewrite Hstep, add_minutes_slot by exact Hm.
    replace (m + 5) with (5 * Z.of_nat (S k)) by lia.
    destruct (IH (S k) fuel cache' b2 w3 ltac:(lia) ltac:(lia))
      as (b' & w' & H4 & Hd4 & Ht4 & Hw4 & Hc4).
    exists b', w'. split; [exact H4|]. split; [congruence|].
    split; [|split].
    + rewrite Ht4, Ht3, Ht2, slot_keys_step, strftime_slot.
      now rewrite <- app_assoc.
    + rewrite Hw4, Hw3, Hw2, hour_keys_step. now rewrite <- app_assoc.
    + rewrite Hc4, Hc3, Hc2, length_map. lia.
Qed.

Lemma slot_keys_length day names k n :
  List.length (slot_keys day names k n) = (n * List.length names)%nat.
Proof.
  revert k. induction n as [|n IH]; intros k; [reflexivity|].
  rewrite slot_keys_step, length_app, IH.
  unfold keys_at. now rewrite length_map.
Qed.

(** Over a whole day the slots on the hour are the 24 hours. *)
Lemma hour_keys_whole_day day names :
  hour_keys day names 0 288 = hourly_keys day names.
Proof. reflexivity. Qed.

Lemma hourly_keys_length day names :
  List.length (hourly_keys day names) = (24 * List.length names)%nat.
Proof.
  unfold hourly_keys.
  change 24%nat with (List.length (seq 0 24)) at 2.
  generalize (seq 0 24) as hs.
  induction hs as [|h hs IH]; [reflexivity|].
  cbn [flat_map]. rewrite length_app, IH.
  unfold keys_at. rewrite length_map.
  change (List.length (h :: hs)) with (S (List.length hs)). lia.
Qed.

Lemma number_from_weather n (records : list weather_record) :
  map w_record (TrafficDatabase.number_from mkweather_row n records)
  = records.
Proof.
  revert n. induction records as [|r rest IH]; intros n; simpl.
  - reflexivity.
  - now rewrite IH.
Qed.

Lemma insert_traffic_data_appends records d :
  traffic_data (TrafficDatabase.insert_traffic_data records d)
  = traffic_data d
    ++ TrafficDatabase.number_from mktraffic_row (traffic_seq d + 1)
                                   records.
Proof.
  destruct records; simpl; [now rewrite app_nil_r | reflexivity].
Qed.

Lemma insert_traffic_data_weather records d :
  weather_data (TrafficDatabase.insert_traffic_data records d)
  = weather_data d.
Proof. destruct records; reflexivity. Qed.

Lemma bind_inv {A B : Type} (m : M A) (k : A -> M B) w b w' :
  bind m k w = Ok b w' ->
  exists a w1, m w = Ok a w1 /\ k a w1 = Ok b w'.
Proof.
  unfold bind. destruct (m w) as [a w1| |]; try discriminate.
  intros H. now exists a, w1.
Qed.

(** ** The generated weather records can be stored *)

Lemma bind_batch_storable (records : list weather_record) :
  Forall storable records -> TrafficDatabase.bind_batch records = None.
Proof.
  induction 1 as [|r rest Hr _ IH]; simpl; [reflexivity|].
  unfold storable in Hr. now rewrite Hr.
Qed.

Lemma Forall_chunk {A : Type} (P : A -> Prop) (i n : nat) (l : list A) :
  Forall P l -> Forall P (firstn n (skipn i l)).
Proof.
  intros H.
  assert (Hs : Forall P (skipn i l)).
  { clear n. revert l H. induction i as [|i IH]; intros l H; [exact H|].
    destruct l as [|x rest]; [constructor|].
    apply IH. now inversion H. }
  clear H. revert Hs. generalize (skipn i l). clear i l.
  induction n as [|n IH]; intros l H; [constructor|].
  destruct H as [|x rest Hx Hrest]; simpl; [constructor|].
  constructor; [exact Hx|now apply IH].
Qed.

Lemma weather_step_storable ct weather loc b w :
  exists r w',
    weather_step ct weather loc b w
    = Ok (mkbatches (traffic_batch b) (weather_batch b ++ [r])
                    (count b)) w'
    /\ storable r.
Proof.
  unfold weather_step.
  rewrite (bind_ok _ _ _ _ _ (uniform_run _ _ w)). unfold ret.
  eexists _, _. split; [reflexivity|].
  unfold storable, TrafficDatabase.bind_weather; cbn.
  destruct (negb _); reflexivity.
Qed.

Lemma weather_loop_storable ct weather names b w b' w' :
  for_each names (weather_step ct weather) b w = Ok b' w' ->
  Forall storable (weather_batch b) ->
  Forall storable (weather_batch b').
Proof.
  revert b w. induction names as [|loc rest IH]; intros b w Hrun Hb.
  - injection Hrun as <- _. exact Hb.
  - destruct (weather_step_storable ct weather loc b w)
      as (r & w1 & H1 & Hr).
    cbn [for_each] in Hrun. rewrite (bind_ok _ _ _ _ _ H1) in Hrun.
    apply IH in Hrun; [exact Hrun|].
    cbn [weather_batch]. apply Forall_app. split; [exact Hb|].
    now constructor.
Qed.

(** Whenever the inner loop returns, the weather records it collected
    can be stored. *)
Lemma slot_loop_storable (cfg : settings) (now eod : datetime)
      (dow total : Z) :
  forall (fuel : nat) ct cache b w b' w',
    slot_loop fuel cfg now eod dow total ct cache b w = Ok b' w' ->
    Forall storable (weather_batch b) ->
    Forall storable (weather_batch b').
Proof.
  induction fuel as [|fuel IH]; intros ct cache b w b' w' Hrun Hb.
  - discriminate.
  - cbn [slot_loop] in Hrun.
    destruct (Datetime.leb ct eod && Datetime.ltb ct now).
    + destruct (weather_cache_run cache (dt_hour ct) dow w)
        as (cache' & sw & w1 & H1 & Hd1 & Hsw).
      rewrite (bind_ok _ _ _ _ _ H1) in Hrun. rewrite Hsw in Hrun.
      rewrite (bind_ok _ _ w1 sw w1 eq_refl) in Hrun.
      destruct (traffic_loop_run ct dow sw
                  (map fst (cfg_LOCATIONS cfg)) b w1)
        as (b1 & w2 & H2 & _ & _ & Hw2 & _).
      rewrite (bind_ok _ _ _ _ _ H2) in Hrun.
      apply bind_inv in Hrun. destruct Hrun as (b2 & w3 & H3 & Hrun).
      apply bind_inv in Hrun. destruct Hrun as ([] & w4 & _ & Hrun).
      apply IH in Hrun; [exact Hrun|].
      destruct (dt_minute ct =? 0).
      * apply (weather_loop_storable _ _ _ _ _ _ _ H3).
        now rewrite Hw2.
      * injection H3 as <- _. now rewrite Hw2.
    + injection Hrun as <- _. exact Hb.
Qed.

(** Whenever the outer loop returns, the weather records it collected
    can be stored. *)
Lemma day_loop_storable (cfg : settings) (now : datetime) (total : Z) :
  forall (fuel : nat) day b w b' w',
    day_loop fuel cfg now total day b w = Ok b' w' ->
    Forall storable (weather_batch b) ->
    Forall storable (weather_batch b').
Proof.
  induction fuel as [|fuel IH]; intros day b w b' w' Hrun Hb.
  - discriminate.
  - cbn [day_loop] in Hrun.
    destruct (Datetime.ltb day now).
    + cbv zeta in Hrun.
      apply bind_inv in Hrun. destruct Hrun as (b1 & w1 & H1 & Hrun).
      apply bind_inv in Hrun. destruct Hrun as (b2 & w2 & H2 & Hrun).
      apply IH in Hrun; [exact Hrun|].
      apply (slot_loop_storable _ _ _ _ _ _ _ _ _ _ _ _ H1) in Hb.
      destruct (Z.of_nat (List.length (traffic_batch b1)) >? 5000).
      * unfold bind, with_db, ret in H2. injection H2 as <- _.
        exact Hb.
      * injection H2 as <- _. exact Hb.
    + injection Hrun as <- _. exact Hb.
Qed.

Lemma day_after_day_before (now : datetime) :
  Datetime.add_days (Datetime.add_days now (- (1))) 1 = now.
Proof.
  destruct now as [o h m s us]. unfold Datetime.add_days; simpl.
  f_equal. lia.
Qed.

(** The outer loop of a one-day backfill: one pass over the day before
    [now], then the loop ends because the next day is [now] itself. *)
Lemma day_loop_one_day (cfg : settings) (now : datetime) (total : Z)
      (fuel : nat) (w : world) :
  cfg_DATA_INTERVAL_MINUTES cfg = 5 ->
  total <> 0 ->
  (List.length (cfg_LOCATIONS cfg) <= 17)%nat ->
  (289 <= fuel)%nat ->
  exists b w',
    day_loop fuel cfg now total (Datetime.add_days now (- (1)))
             (mkbatches [] [] 0) w = Ok b w'
    /\ db w' = db w
    /\ map traffic_key (traffic_batch b)
       = slot_keys (ordinal now - 1) (map fst (cfg_LOCATIONS cfg)) 0 288
    /\ map weather_key (weather_batch b)
       = hourly_keys (ordinal now - 1) (map fst (cfg_LOCATIONS cfg)).
Proof.
  intros Hstep Htotal Hlocs Hfuel.
  destruct fuel as [|fuel]; [lia|].
  cbn [day_loop].
  rewrite ltb_earlier_day by (cbn; lia).
  destruct (slot_loop_run cfg now (ordinal now - 1) (dt_microsecond now)
              (Datetime.weekday (Datetime.add_days now (- (1)))) total
              Hstep ltac:(lia) Htotal 288%nat 0%nat (S fuel) []
              (mkbatches [] [] 0) w eq_refl ltac:(lia))
    as (b & w' & Hrun & Hd & Ht & Hw & Hc).
  change (slot_at (ordinal now - 1) (dt_microsecond now) (5 * Z.of_nat 0))
    with (Datetime.replace_hms (Datetime.add_days now (- (1))) 0 0 0)
    in Hrun.
  change (mkdatetime (ordinal now - 1) 23 59 59 (dt_microsecond now))
    with (Datetime.replace_hms (Datetime.add_days now (- (1))) 23 59 59)
    in Hrun.
  rewrite (bind_ok _ _ _ _ _ Hrun).
  cbn [traffic_batch weather_batch map app] in Ht, Hw.
  assert (Hlen : List.length (traffic_batch b)
                 = (288 * List.length (cfg_LOCATIONS cfg))%nat).
  { rewrite <- (length_map traffic_key), Ht, slot_keys_length.
    now rewrite length_map. }
  assert (Hsmall : (Z.of_nat (List.length (traffic_batch b)) >? 5000)
                   = false).
  { rewrite Hlen, Z.gtb_ltb. apply Z.ltb_ge. lia. }
  rewrite Hsmall.
  rewrite (bind_ok _ _ w' b w' eq_refl).
  rewrite day_after_day_before.
  destruct fuel as [|fuel]; [lia|].
  cbn [day_loop]. rewrite ltb_irrefl.
  exists b, w'. split; [reflexivity|]. split; [exact Hd|].
  split; [exact Ht|]. rewrite Hw. apply hour_keys_whole_day.
Qed.

(** C3. A backfill of one day at a five-minute interval over two
    locations completes (given fuel for 289 loop tests) whatever the
    clock, the random draws and the database hold, and stores exactly
    576 traffic rows, one per slot of the day before [now] and
    location, and exactly 48 weather rows, one per hour of that day and
    location, all stamped on the hour. *)
Theorem backfill_one_day_two_locations (cfg : settings) (w : world)
        (fuel : nat) :
  cfg_HISTORICAL_DAYS cfg = 1 ->
  cfg_DATA_INTERVAL_MINUTES cfg = 5 ->
  List.length (cfg_LOCATIONS cfg) = 2%nat ->
  (289 <= fuel)%nat ->
  exists w' new_traffic new_weather,
    generate_historical_data fuel cfg w = Ok tt w'
    /\ traffic_data (db w') = traffic_data (db w) ++ new_traffic
    /\ weather_data (db w') = weather_data (db w) ++ new_weather
    /\ List.length new_traffic = 576%nat
    /\ List.length new_weather = 48%nat
    /\ map (fun r : traffic_row => traffic_key r) new_traffic
       = slot_keys (ordinal (clock w (clock_pos w)) - 1)
                   (map fst (cfg_LOCATIONS cfg)) 0 288
    /\ map (fun r : weather_row => weather_key r) new_weather
       = hourly_keys (ordinal (clock w (clock_pos w)) - 1)
                     (map fst (cfg_LOCATIONS cfg)).
Proof.
  intros Hdays Hstep Hlocs Hfuel.
  unfold generate_historical_data.
  rewrite (bind_ok datetime_now _ w _ _ eq_refl).
  set (now := clock w (clock_pos w)).
  set (w0 := mkworld _ _ _ _ _ _ _).
  rewrite Hdays, Hstep, Hlocs.
  rewrite (bind_ok (floordiv (24 * 60) 5) _ w0 288 w0 eq_refl).
  destruct (day_loop_one_day cfg now (1 * 288 * Z.of_nat 2) fuel w0
              Hstep ltac:(lia) ltac:(lia) Hfuel)
    as (b & w1 & Hrun & Hd & Ht & Hw).
  rewrite (bind_ok _ _ _ _ _ Hrun).
  assert (Htlen : List.length (traffic_batch b) = 576%nat).
  { rewrite <- (length_map traffic_key), Ht, slot_keys_length.
    now rewrite length_map, Hlocs. }
  assert (Hwlen : List.length (weather_batch b) = 48%nat).
  { rewrite <- (length_map weather_key), Hw, hourly_keys_length.
    now rewrite length_map, Hlocs. }
  assert (Hflush :
           (match traffic_batch b with
            | [] => ret tt
            | _ :: _ =>
                with_db (TrafficDatabase.insert_traffic_data
                           (traffic_batch b))
            end)
           = with_db (TrafficDatabase.insert_traffic_data
                        (traffic_batch b))).
  { destruct (traffic_batch b); [discriminate | reflexivity]. }
  assert (Hbind : TrafficDatabase.bind_batch (weather_batch b) = None).
  { apply bind_batch_storable.
    apply (day_loop_storable _ _ _ _ _ _ _ _ _ Hrun). constructor. }
  rewrite Hflush, Hwlen.
  change (range_step 48 1000) with [0%nat].
  cbn [for_each skipn]. rewrite firstn_all2 by lia.
  unfold bind, with_db, db_do, read_db, ret.
  cbn [rng_draws rng_pos clock clock_pos net net_pos db].
  unfold TrafficDatabase.insert_weather_batch at 1. rewrite Hbind.
  cbn [rng_draws rng_pos clock clock_pos net net_pos db].
  eexists _, _, _. split; [reflexivity|].
  cbn [traffic_data weather_data].
  rewrite Hd. subst w0. cbn [db].
  split; [apply insert_traffic_data_appends|].
  rewrite insert_traffic_data_weather.
  split; [reflexivity|].
  assert (Ht' : map t_record
                  (TrafficDatabase.number_from
                     mktraffic_row (traffic_seq (db w) + 1)
                     (traffic_batch b)) = traffic_batch b)
    by apply number_from_records.
  assert (Hw' : forall n,
             map w_record
                 (TrafficDatabase.number_from
                    mkweather_row n (weather_batch b))
             = weather_batch b)
    by (intros; apply number_from_weather).
  split; [|split; [|split]].
  - rewrite <- (length_map t_record), Ht'. exact Htlen.
  - rewrite <- (length_map w_record), Hw'. exact Hwlen.
  - rewrite <- (map_map t_record traffic_key), Ht'. exact Ht.
  - rewrite <- (map_map w_record weather_key), Hw'. exact Hw.
Qed.

Lemma backfill_one_day_two_locations_witness :
  exists w',
    generate_historical_data 289 two_location_settings offline_world
    = Ok tt w'
    /\ List.length (traffic_data (db w')) = 576%nat
    /\ List.length (weather_data (db w')) = 48%nat.
Proof.
  destruct (backfill_one_day_two_locations
              two_location_settings offline_world 289
              eq_refl eq_refl eq_refl (le_n 289))
    as (w' & nt & nw & Hrun & Ht & Hw & Hnt & Hnw & _).
  exists w'. split; [exact Hrun|].
  rewrite Ht, Hw. simpl. split; assumption.
Defined.

End Backfill.

Section Frames.

Import TrafficDatabase.

Lemma insert_sorted_In {A : Type} (le : A -> A -> bool) x y l :
  In y (insert_sorted le x l) <-> y = x \/ In y l.
Proof.
  induction l as [|z rest IH]; simpl.
  - intuition.
  - destruct (le x z); simpl; [intuition|].
    rewrite IH. intuition.
Qed.

Lemma sort_In {A : Type} (le : A -> A -> bool) y l :
  In y (sort le l) <-> In y l.
Proof.
  unfold sort. induction l as [|x rest IH]; simpl; [tauto|].
  rewrite insert_sorted_In, IH. intuition.
Qed.

Lemma insert_sorted_length {A : Type} (le : A -> A -> bool) x l :
  List.length (insert_sorted le x l) = S (List.length l).
Proof.
  induction l as [|z rest IH]; simpl; [reflexivity|].
  destruct (le x z); simpl; [reflexivity | now rewrite IH].
Qed.

Lemma sort_length {A : Type} (le : A -> A -> bool) l :
  List.length (sort le l) = List.length l.
Proof.
  unfold sort. induction l as [|x rest IH]; simpl; [reflexivity|].
  now rewrite insert_sorted_length, IH.
Qed.

Lemma sort_nil {A : Type} (le : A -> A -> bool) l :
  sort le l = [] <-> l = [].
Proof.
  split; [|now intros ->].
  intros H. apply length_zero_iff_nil.
  rewrite <- (sort_length le), H. reflexivity.
Qed.

Lemma is_empty_nil {A : Type} (l : list A) :
  TrafficAnalytics.is_empty l = true <-> l = [].
Proof. destruct l; simpl; split; congruence. Qed.

Lemma is_empty_length {A : Type} (l : list A) :
  TrafficAnalytics.is_empty l = false <-> (0 < List.length l)%nat.
Proof. destruct l; simpl; split; try congruence; lia. Qed.

(** Filtering commutes with the stable sort up to the number of rows
    kept. *)
Lemma filter_length_sort {A : Type} (le : A -> A -> bool)
      (p : A -> bool) l :
  List.length (filter p (sort le l)) = List.length (filter p l).
Proof.
  unfold sort. induction l as [|x rest IH]; simpl; [reflexivity|].
  assert (H : forall s, List.length (filter p (insert_sorted le x s))
                        = List.length (filter p (x :: s))).
  { induction s as [|z s IHs]; simpl; [reflexivity|].
    destruct (le x z); simpl; [reflexivity|].
    destruct (p z); simpl; rewrite IHs; simpl;
      destruct (p x); reflexivity. }
  rewrite H. simpl. destruct (p x); simpl; now rewrite IH.
Qed.

End Frames.

Section EmptyDataset.

Import TrafficDatabase TrafficAnalytics.

Variable sqrt : Q -> Q.

Lemma get_all_traffic_data_empty d :
  traffic_data d = [] -> get_all_traffic_data d = [].
Proof. intros H. unfold get_all_traffic_data. now rewrite H. Qed.

Lemma get_traffic_by_location_empty d loc :
  traffic_data d = [] -> get_traffic_by_location loc d = [].
Proof. intros H. unfold get_traffic_by_location. now rewrite H. Qed.

(** C6. On a dataset without traffic rows each of the eight analytics
    operations returns its empty indicator: the error dict for overall
    statistics, rain correlation, prediction and weekday-vs-weekend,
    the empty table for hourly pattern, location comparison, top-K
    congestion and current status; none of them raises. *)
Theorem analytics_on_empty_dataset (d : database) (loc : string)
        (filter_by : option string) (target_hour top_n : Z) :
  traffic_data d = [] ->
  get_overall_stats d = ErrorDict "Tidak ada data"
  /\ get_hourly_pattern d filter_by = []
  /\ get_rain_correlation sqrt d = ErrorDict "Tidak ada data"
  /\ get_location_comparison d = []
  /\ predict_traffic sqrt d loc target_hour
     = Returns (ErrorDict "Tidak ada data historis")
  /\ get_weekday_vs_weekend d = ErrorDict "Tidak ada data"
  /\ get_top_congestion d top_n = []
  /\ get_current_status d = [].
Proof.
  intros H.
  unfold get_overall_stats, get_hourly_pattern, get_rain_correlation,
    get_location_comparison, predict_traffic, get_weekday_vs_weekend,
    get_top_congestion, get_current_status.
  rewrite (get_all_traffic_data_empty d H).
  rewrite (get_traffic_by_location_empty d loc H).
  repeat split.
  destruct filter_by as [l|]; [|reflexivity].
  rewrite (get_traffic_by_location_empty d l H).
  destruct (truthy l); reflexivity.
Qed.

End EmptyDataset.

Lemma analytics_on_empty_dataset_witness :
  traffic_data TrafficDatabase.empty = []
  /\ TrafficAnalytics.get_overall_stats TrafficDatabase.empty
     = ErrorDict "Tidak ada data"
  /\ TrafficAnalytics.get_top_congestion TrafficDatabase.empty 10 = [].
Proof.
  split; [reflexivity|].
  destruct (analytics_on_empty_dataset
              (fun x => x) TrafficDatabase.empty "Jakarta Pusat" None 7 10
              eq_refl) as (H1 & _ & _ & _ & _ & _ & H7 & _).
  split; assumption.
Defined.

Section PredictionSlice.

Import TrafficDatabase TrafficAnalytics.

Variable sqrt : Q -> Q.

Lemma filter_filter {A : Type} (p q : A -> bool) l :
  filter p (filter q l) = filter (fun x => q x && p x) l.
Proof.
  induction l as [|x rest IH]; simpl; [reflexivity|].
  destruct (q x); simpl; [destruct (p x)|]; now rewrite IH.
Qed.

(** The slice [predict_traffic] works on has as many rows as the stored
    readings that match the location and the hour. *)
Lemma prediction_slice_length d loc h :
  List.length
    (filter (fun r : traffic_row => hour r =? h)
            (get_traffic_by_location loc d))
  = List.length (matching d loc h).
Proof.
  unfold get_traffic_by_location, matching.
  now rewrite filter_length_sort, filter_filter.
Qed.

Lemma slice_of_empty_frame (p : traffic_row -> bool) df :
  is_empty df = true -> filter p df = [].
Proof. intros H. apply is_empty_nil in H. now subst df. Qed.

(** No matching row: the error dict, and only then. *)
Lemma predict_traffic_error_iff d loc h :
  is_error_dict (predict_traffic sqrt d loc h) <-> matching d loc h = [].
Proof.
  pose proof (prediction_slice_length d loc h) as Hlen.
  unfold predict_traffic.
  set (df := get_traffic_by_location loc d) in *.
  set (slice := filter _ df) in *.
  split.
  - intros (msg & Hmsg).
    apply length_zero_iff_nil. rewrite <- Hlen.
    destruct (is_empty df) eqn:Edf.
    + subst slice. now rewrite slice_of_empty_frame.
    + destruct slice as [|r1 rest]; [reflexivity|].
      exfalso. cbn [is_empty] in Hmsg. unfold result_bind in Hmsg.
      repeat match type of Hmsg with
             | context [match ?x with Returns _ => _ | Raises _ => _ end] =>
                 destruct x
             end; discriminate.
  - intros Hnone. rewrite Hnone in Hlen.
    apply length_zero_iff_nil in Hlen. rewrite Hlen.
    destruct (is_empty df); eexists; reflexivity.
Qed.

(** Exactly one matching row: the sample standard deviation is [NaN]
    and [int] raises [ValueError]. *)
Lemma predict_traffic_single_sample d loc h :
  List.length (matching d loc h) = 1%nat ->
  predict_traffic sqrt d loc h = Raises Py.ValueError.
Proof.
  intros H1. rewrite <- prediction_slice_length in H1.
  unfold predict_traffic.
  set (df := get_traffic_by_location loc d) in *.
  set (slice := filter _ df) in *.
  destruct (is_empty df) eqn:Edf.
  - subst slice. rewrite slice_of_empty_frame in H1 by exact Edf.
    discriminate.
  - destruct slice as [|r [|r2 rest]]; try discriminate.
    reflexivity.
Qed.

(** From two matching rows on: a prediction whose range, point value
    and sample count follow the mean and the standard deviation of the
    slice. *)
Lemma predict_traffic_from_two_samples d loc h :
  (2 <= List.length (matching d loc h))%nat ->
  exists slice avg var,
    slice = filter (fun r : traffic_row => hour r =? h)
                   (get_traffic_by_location loc d)
    /\ Np.mean (vehicles slice) = Num avg
    /\ Np.var (vehicles slice) = Num var
    /\ exists p,
        predict_traffic sqrt d loc h = Returns (Dict p)
        /\ predicted_vehicles_min p = Z.max 0 (Py.int (avg - sqrt var))
        /\ predicted_vehicles_max p = Py.int (avg + sqrt var)
        /\ predicted_vehicles_avg p = Py.int avg
        /\ samples_used p = Z.of_nat (List.length (matching d loc h)).
Proof.
  intros H2. rewrite <- prediction_slice_length in *.
  unfold predict_traffic.
  set (df := get_traffic_by_location loc d) in *.
  set (slice := filter _ df) in *.
  destruct (is_empty df) eqn:Edf.
  - subst slice. rewrite slice_of_empty_frame in H2 by exact Edf.
    simpl in H2. lia.
  - destruct slice as [|r1 [|r2 rest]] eqn:Es;
      [simpl in H2; lia | simpl in H2; lia |].
    cbn [is_empty].
    assert (Hvar : exists var, Np.var (vehicles (r1 :: r2 :: rest))
                               = Num var).
    { unfold Np.var.
      destruct (Np.len (vehicles (r1 :: r2 :: rest)) <=? 1) eqn:E.
      - apply Z.leb_le in E. unfold Np.len, vehicles in E.
        rewrite length_map in E. simpl in E. lia.
      - eexists. reflexivity. }
    destruct Hvar as (var & Hvar).
    eexists _, _, var. split; [reflexivity|].
    split; [reflexivity|]. split; [exact Hvar|].
    unfold std. rewrite Hvar.
    eexists. split; [reflexivity|]. repeat split.
Qed.

(** C4 (fails on a one-row slice). With a single stored reading for
    the location and the hour, [predict_traffic] raises [ValueError]
    instead of returning a prediction. *)
Theorem predict_traffic_one_reading_raises :
  predict_traffic sqrt
    (database_of [reading_at_7 1 "Jakarta Pusat" 350])
    "Jakarta Pusat" 7
  = Raises Py.ValueError.
Proof. reflexivity. Qed.

(** The same on the database a first simulation cycle leaves behind:
    each location has one reading, at the current hour. *)
Example prediction_after_first_cycle :
  predict_traffic sqrt
    (database_after (TrafficEngine.run_simulation_cycle repo_settings)
                    offline_world)
    "Jakarta Pusat" 17
  = Raises Py.ValueError.
Proof. vm_compute. reflexivity. Qed.

End PredictionSlice.

Section HourlyPattern.

Import TrafficDatabase TrafficAnalytics.

Lemma mem_In (k : Z) ks : Np.mem Z.eqb k ks = true <-> In k ks.
Proof.
  unfold Np.mem. rewrite existsb_exists. split.
  - intros (x & Hin & E). apply Z.eqb_eq in E. now subst x.
  - intros Hin. exists k. split; [exact Hin | apply Z.eqb_refl].
Qed.

Lemma unique_acc_In (k : Z) seen xs :
  In k (Np.unique_acc Z.eqb seen xs) <-> In k xs /\ ~ In k seen.
Proof.
  revert seen. induction xs as [|x rest IH]; intros seen; simpl.
  - tauto.
  - destruct (Np.mem Z.eqb x seen) eqn:E.
    + apply mem_In in E. rewrite IH. split.
      * intros [H1 H2]. auto.
      * intros [[->|H1] H2]; [contradiction | auto].
    + assert (Hx : ~ In x seen).
      { intros H. apply mem_In in H. congruence. }
      simpl. rewrite IH. simpl. split.
      * intros [->|[H1 H2]]; [auto|]. split; [auto|]. tauto.
      * intros [[->|H1] H2]; [now left|].
        destruct (Z.eq_dec x k) as [->|Hne]; [now left|].
        right. split; [exact H1|]. intros [H|H]; auto.
Qed.

Lemma unique_acc_NoDup seen xs : NoDup (Np.unique_acc Z.eqb seen xs).
Proof.
  revert seen. induction xs as [|x rest IH]; intros seen; simpl.
  - constructor.
  - destruct (Np.mem Z.eqb x seen); [apply IH|].
    constructor; [|apply IH].
    rewrite unique_acc_In. simpl. tauto.
Qed.

Lemma insert_sorted_NoDup {A : Type} (le : A -> A -> bool) x l :
  ~ In x l -> NoDup l -> NoDup (insert_sorted le x l).
Proof.
  induction l as [|z rest IH]; simpl; intros Hx Hl.
  - constructor; [tauto | constructor].
  - destruct (le x z).
    + constructor; [simpl; tauto | exact Hl].
    + inversion Hl as [|? ? Hz Hrest]; subst.
      constructor.
      * rewrite insert_sorted_In. intros [->|H]; tauto.
      * apply IH; tauto.
Qed.

Lemma sort_NoDup {A : Type} (le : A -> A -> bool) l :
  NoDup l -> NoDup (sort le l).
Proof.
  unfold sort. induction 1 as [|x l Hx Hl IH]; simpl.
  - constructor.
  - apply insert_sorted_NoDup; [|exact IH].
    fold (sort le l). now rewrite sort_In.
Qed.

Lemma group_keys_In (k : Z) xs :
  In k (Np.group_keys Z.eqb Z.leb xs) <-> In k xs.
Proof.
  unfold Np.group_keys, Np.unique.
  rewrite sort_In, unique_acc_In. simpl. tauto.
Qed.

Lemma group_keys_NoDup xs : NoDup (Np.group_keys Z.eqb Z.leb xs).
Proof. apply sort_NoDup, unique_acc_NoDup. Qed.

Lemma aggregate_keys (df : list traffic_row) :
  map g_key
      (round_means
         (aggregate Z.eqb Z.leb (fun r : traffic_row => hour r) df))
  = Np.group_keys Z.eqb Z.leb
                  (map (fun r : traffic_row => hour r) df).
Proof.
  unfold round_means, aggregate. rewrite !map_map. simpl.
  apply map_id.
Qed.

(** The frame the pattern is computed over holds exactly the selected
    readings. *)
Lemma hourly_frame d filter_by :
  exists df,
    get_hourly_pattern d filter_by
    = (if is_empty df then []
       else round_means
              (aggregate Z.eqb Z.leb (fun r : traffic_row => hour r) df))
    /\ (forall r, In r df <->
                  In r (traffic_data d) /\ selected filter_by r = true)
    /\ (forall p, List.length (filter p df)
                  = List.length
                      (filter (fun r => selected filter_by r && p r)
                              (traffic_data d))).
Proof.
  assert (Hall : forall r, In r (get_all_traffic_data d)
                           <-> In r (traffic_data d) /\ true = true).
  { intros r. unfold get_all_traffic_data. rewrite sort_In. tauto. }
  assert (Hall' : forall p, List.length (filter p (get_all_traffic_data d))
                            = List.length
                                (filter (fun r => true && p r)
                                        (traffic_data d))).
  { intros p. unfold get_all_traffic_data.
    now rewrite filter_length_sort. }
  unfold get_hourly_pattern, selected.
  destruct filter_by as [l|]; [destruct (truthy l)|];
    try (exists (get_all_traffic_data d); split; [reflexivity|];
         split; assumption).
  exists (get_traffic_by_location l d). split; [reflexivity|]. split.
  - intros r. unfold get_traffic_by_location.
    rewrite sort_In, filter_In. reflexivity.
  - intros p. unfold get_traffic_by_location.
    now rewrite filter_length_sort, filter_filter.
Qed.

(** C10. The hourly pattern, over the whole dataset or over one
    location, has a row for hour [h] exactly when some selected reading
    has that hour; each hour appears once, and its row counts the
    selected readings of that hour, at least one. Hours without readings
    have no row. *)
Theorem hourly_pattern_rows (d : database) (filter_by : option string)
        (h : Z) :
  (In h (map g_key (get_hourly_pattern d filter_by))
   <-> exists r, In r (traffic_data d)
                 /\ selected filter_by r = true /\ hour r = h)
  /\ NoDup (map g_key (get_hourly_pattern d filter_by))
  /\ (forall g, In g (get_hourly_pattern d filter_by) ->
      0 < g_count g
      /\ g_count g
         = Z.of_nat (List.length
                       (filter (fun r : traffic_row =>
                                  selected filter_by r
                                  && (hour r =? g_key g))
                               (traffic_data d)))).
Proof.
  destruct (hourly_frame d filter_by) as (df & -> & Hin & Hlen).
  assert (Hkeys : map g_key
                      (if is_empty df then []
                       else round_means
                              (aggregate Z.eqb Z.leb
                                         (fun r : traffic_row => hour r) df))
                  = Np.group_keys Z.eqb Z.leb
                      (map (fun r : traffic_row => hour r) df)).
  { destruct (is_empty df) eqn:E; [|apply aggregate_keys].
    apply is_empty_nil in E. now subst df. }
  split; [|split].
  - rewrite Hkeys, group_keys_In, in_map_iff. split.
    + intros (r & Hh & Hr). apply Hin in Hr. exists r. tauto.
    + intros (r & Hr & Hs & Hh). exists r. split; [exact Hh|].
      apply Hin. tauto.
  - rewrite Hkeys. apply group_keys_NoDup.
  - intros g Hg.
    destruct (is_empty df); [contradiction|].
    unfold round_means, aggregate in Hg. rewrite map_map in Hg.
    apply in_map_iff in Hg. destruct Hg as (k & <- & Hk).
    cbn [g_count g_key]. unfold Np.len. rewrite Hlen.
    split; [|reflexivity].
    apply group_keys_In, in_map_iff in Hk.
    destruct Hk as (r & Hr & Hdf). apply Hin in Hdf.
    assert (Hf : In r (filter (fun r0 : traffic_row =>
                                 selected filter_by r0 && (hour r0 =? k))
                              (traffic_data d))).
    { apply filter_In. split; [tauto|].
      apply andb_true_iff. split; [tauto | now apply Z.eqb_eq]. }
    destruct (filter _ (traffic_data d)); [contradiction|].
    simpl. lia.
Qed.

(** Two readings at 07:00 and nothing else: one row, not 24. *)
Example hourly_pattern_single_hour :
  map g_key
      (get_hourly_pattern
         (database_of [reading_at_7 1 "Jakarta Pusat" 100;
                       reading_at_7 2 "Jakarta Pusat" 200])
         None)
  = [7].
Proof. reflexivity. Qed.

Lemma hourly_pattern_rows_witness :
  In 7 (map g_key
            (get_hourly_pattern
               (database_of [reading_at_7 1 "Jakarta Pusat" 100;
                             reading_at_7 2 "Jakarta Pusat" 200])
               None))
  /\ ~ In 8 (map g_key
                (get_hourly_pattern
                   (database_of [reading_at_7 1 "Jakarta Pusat" 100;
                                 reading_at_7 2 "Jakarta Pusat" 200])
                   None)).
Proof.
  split.
  - apply (hourly_pattern_rows
             (database_of [reading_at_7 1 "Jakarta Pusat" 100;
                           reading_at_7 2 "Jakarta Pusat" 200]) None 7).
    exists (reading_at_7 1 "Jakarta Pusat" 100).
    split; [simpl; tauto | split; reflexivity].
  - intros H.
    apply (hourly_pattern_rows
             (database_of [reading_at_7 1 "Jakarta Pusat" 100;
                           reading_at_7 2 "Jakarta Pusat" 200]) None 8)
      in H.
    destruct H as (r & [<-|[<-|[]]] & _ & Hh); discriminate.
Defined.

End HourlyPattern.

(* ================================================================== *)
(** * Further properties of the traffic model *)
(* ================================================================== *)

Section SpeedOrder.

Lemma round_half_even_monotone (x y : Q) :
  (x <= y)%Q -> Py.round_half_even x <= Py.round_half_even y.
Proof.
  intros Hxy. unfold Py.round_half_even.
  pose proof (Qfloor_resp_le x y Hxy) as Hf.
  pose proof (Qfloor_le x) as Hx1. pose proof (Qlt_floor x) as Hx2.
  pose proof (Qfloor_le y) as Hy1. pose proof (Qlt_floor y) as Hy2.
  set (f := Qfloor x) in *. set (g := Qfloor y) in *.
  destruct (Z.eq_dec f g) as [E|E].
  - rewrite <- E in *. clear E Hf.
    destruct (Qcompare_spec (x - inject_Z f) (1 # 2));
      destruct (Qcompare_spec (y - inject_Z f) (1 # 2));
      try (destruct (Z.even f)); try lia; exfalso; lra.
  - assert (f + 1 <= g) by lia.
    destruct (x - inject_Z f ?= 1 # 2)%Q;
      destruct (y - inject_Z g ?= 1 # 2)%Q;
      try (destruct (Z.even f)); try (destruct (Z.even g)); lia.
Qed.

Lemma round_monotone (x y : Q) (n : nat) :
  (x <= y)%Q -> (Py.round x n <= Py.round y n)%Q.
Proof.
  intros Hxy. unfold Py.round.
  set (s := Z.to_pos (10 ^ Z.of_nat n)).
  assert (H : Py.round_half_even (x * inject_Z (Z.pos s))
              <= Py.round_half_even (y * inject_Z (Z.pos s))).
  { apply round_half_even_monotone.
    apply Qmult_le_compat_r; [exact Hxy|].
    unfold Qle; simpl; lia. }
  unfold Qle; simpl. nia.
Qed.

Lemma clamp_monotone (x y : Q) :
  (x <= y)%Q -> (clamp x 5 60 <= clamp y 5 60)%Q.
Proof.
  intros Hxy. unfold clamp.
  destruct (Py.ltb x 5) eqn:X1; destruct (Py.ltb y 5) eqn:Y1;
    try (destruct (Py.ltb 60 x) eqn:X2);
    try (destruct (Py.ltb 60 y) eqn:Y2);
    repeat match goal with
           | H : Py.ltb _ _ = true |- _ => apply ltb_lt in H
           | H : Py.ltb _ _ = false |- _ => apply ltb_ge in H
           end; lra.
Qed.

(** The argument of the clamp, when the rain factor grows: it shrinks
    while the free-flow term is not negative, and stays below the lower
    bound otherwise. *)
Lemma clamp_more_rain (base r1 r2 u : Q) :
  (1 <= r1 <= r2)%Q -> (u <= 3)%Q ->
  (clamp (base / r2 + u) 5 60 <= clamp (base / r1 + u) 5 60)%Q.
Proof.
  intros [H1 H12] Hu.
  destruct (Qlt_le_dec base 0) as [Hneg|Hpos].
  - assert (Hlow : forall r, (1 <= r)%Q ->
                     (clamp (base / r + u) 5 60 == 5)%Q).
    { intros r Hr. unfold clamp.
      assert (base / r < 0)%Q.
      { unfold Qdiv. setoid_replace 0%Q with (0 * / r)%Q by ring.
        apply Qmult_lt_compat_r; [apply Qinv_lt_0_compat; lra | exact Hneg]. }
      destruct (Py.ltb (base / r + u) 5) eqn:E; [reflexivity|].
      apply ltb_ge in E. lra. }
    rewrite (Hlow r1), (Hlow r2) by lra. lra.
  - apply clamp_monotone.
    assert (base / r2 <= base / r1)%Q; [|lra].
    unfold Qdiv. rewrite !(Qmult_comm base).
    apply Qmult_le_compat_r; [|exact Hpos].
    apply Qle_shift_inv_l; [lra|].
    setoid_replace (/ r2 * r1)%Q with (r1 / r2)%Q by (unfold Qdiv; ring).
    apply Qle_shift_div_r; lra.
Qed.

(** X1. More vehicles or more rain never give a higher speed: with the same
    perturbation, [calculate_speed] is non-increasing in the vehicle count
    and in the rain factor. *)
Theorem calculate_speed_antitone (v1 v2 : Z) (r1 r2 : Q) (w : world) :
  v1 <= v2 ->
  (1 <= r1 <= r2)%Q ->
  (rng_draws w (rng_pos w) <= 1)%Q ->
  exists s1 s2 w',
    TrafficEngine.calculate_speed v1 r1 w = Ok s1 w'
    /\ TrafficEngine.calculate_speed v2 r2 w = Ok s2 w'
    /\ (s2 <= s1)%Q.
Proof.
  intros Hv Hr Hd.
  assert (H1 : ~ (r1 == 0)%Q) by lra.
  assert (H2 : ~ (r2 == 0)%Q) by lra.
  eexists _, _, _.
  split; [apply (engine_speed_run v1 r1 w H1)|].
  split; [apply (engine_speed_run v2 r2 w H2)|].
  apply round_monotone.
  set (u := (-3 + (3 - -3) * rng_draws w (rng_pos w))%Q).
  assert (Hu : (u <= 3)%Q) by (unfold u; lra).
  apply Qle_trans with (clamp ((60 - inject_Z v2 / 10) / r1 + u) 5 60).
  - now apply clamp_more_rain.
  - apply clamp_monotone.
    assert (Hz : (inject_Z v1 <= inject_Z v2)%Q) by now rewrite <- Zle_Qle.
    assert (Hb : (60 - inject_Z v2 / 10 <= 60 - inject_Z v1 / 10)%Q).
    { unfold Qdiv.
      setoid_replace (/ 10)%Q with (1 # 10)%Q by reflexivity. lra. }
    assert ((60 - inject_Z v2 / 10) / r1
            <= (60 - inject_Z v1 / 10) / r1)%Q; [|lra].
    apply Qmult_le_compat_r; [exact Hb|].
    apply Qlt_le_weak, Qinv_lt_0_compat. lra.
Qed.

Lemma calculate_speed_antitone_witness :
  exists s1 s2 w',
    TrafficEngine.calculate_speed 200 1 offline_world = Ok s1 w'
    /\ TrafficEngine.calculate_speed 350 (18 # 10) offline_world = Ok s2 w'
    /\ (s2 <= s1)%Q.
Proof.
  apply (calculate_speed_antitone 200 350 1 (18 # 10) offline_world).
  - lia.
  - split; unfold Qle; simpl; lia.
  - unfold Qle; simpl; lia.
Defined.

End SpeedOrder.

Section EngineRecords.

Import Config TrafficEngine.

Lemma int_is_floor (q : Q) : (0 <= q)%Q -> Py.int q = Qfloor q.
Proof.
  destruct q as [n d]. unfold Qle, Py.int, Qfloor; simpl.
  intros H. apply Z.quot_div_nonneg; lia.
Qed.

Lemma int_bounds (q : Q) (a b : Z) :
  0 <= a -> (inject_Z a <= q <= inject_Z b)%Q -> a <= Py.int q <= b.
Proof.
  intros Ha [H1 H2].
  assert (H0 : (0 <= q)%Q).
  { apply Qle_trans with (inject_Z a); [|exact H1].
    unfold Qle; simpl; lia. }
  rewrite int_is_floor by exact H0. split.
  - rewrite <- (Qfloor_Z a). now apply Qfloor_resp_le.
  - rewrite <- (Qfloor_Z b). now apply Qfloor_resp_le.
Qed.

(** Whatever the hour, the base volume is between the quietest and the
    busiest entry of the pattern (the default 100 included). *)
Lemma vehicle_pattern_bounds (hour : Z) :
  30 <= Py.get Z.eqb VEHICLE_PATTERN hour 100 <= 420.
Proof.
  unfold Py.get, VEHICLE_PATTERN; simpl.
  repeat match goal with
         | |- context [hour =? ?k] => destruct (hour =? k)
         end; lia.
Qed.

Lemma rain_impact_values (cat : string) :
  In cat (map fst RAIN_IMPACT) ->
  In (Py.get String.eqb RAIN_IMPACT cat 1%Q) (map snd RAIN_IMPACT).
Proof.
  simpl. intros [<-|[<-|[<-|[<-|[<-|[]]]]]]; vm_compute; tauto.
Qed.

Lemma rain_impact_at_most_two (cat : string) :
  (Py.get String.eqb RAIN_IMPACT cat 1 <= 2)%Q.
Proof.
  unfold Py.get, RAIN_IMPACT; simpl.
  repeat match goal with
         | |- context [String.eqb cat ?s] => destruct (String.eqb cat s)
         end; unfold Qle; simpl; lia.
Qed.

Lemma decoded_category_is_key (code : Z) :
  In (WeatherAPI.info_rain_category (WeatherAPI.decode_weather_code code))
     (map fst RAIN_IMPACT).
Proof.
  unfold WeatherAPI.decode_weather_code, Py.get, WeatherAPI.weather_map.
  simpl.
  repeat match goal with
         | |- context [code =? ?k] => destruct (code =? k)
         end; simpl; tauto.
Qed.

(** X2. Every weather code decodes to a rain category that is a key of
    [RAIN_IMPACT], so the rain factor looked up for a decoded category is
    a value of the table and never the default of the lookup; a code
    outside the table decodes to "Unknown" without rain. *)
Theorem decode_weather_code_category (code : Z) :
  In (WeatherAPI.info_rain_category (WeatherAPI.decode_weather_code code))
     (map fst RAIN_IMPACT)
  /\ In (Py.get String.eqb RAIN_IMPACT
                (WeatherAPI.info_rain_category
                   (WeatherAPI.decode_weather_code code)) 1%Q)
        (map snd RAIN_IMPACT)
  /\ (Py.lookup Z.eqb code WeatherAPI.weather_map = None ->
      WeatherAPI.decode_weather_code code
      = WeatherAPI.mkinfo "Unknown" "none").
Proof.
  split; [apply decoded_category_is_key|].
  split; [apply rain_impact_values, decoded_category_is_key|].
  intros H. unfold WeatherAPI.decode_weather_code, Py.get.
  now rewrite H.
Qed.

(** The record [simulate_location] builds, field by field. *)
Lemma simulate_location_value loc weather w :
  let now := clock w (clock_pos w) in
  let base := Py.get Z.eqb VEHICLE_PATTERN (dt_hour now) 100 in
  let var := ((8 # 10) + ((12 # 10) - (8 # 10))
                         * rng_draws w (rng_pos w))%Q in
  let v0 := Py.int (inject_Z base * var) in
  let rf := match weather with
            | Some wd => Py.get String.eqb RAIN_IMPACT (rain_category wd) 1%Q
            | None => 1%Q
            end in
  let v := match weather with
           | Some _ => Py.int (inject_Z v0 * rf)
           | None => v0
           end in
  exists speed w',
    simulate_location loc weather w
    = Ok (mktraffic (Datetime.strftime now) loc v
                    (get_traffic_condition v) speed (dt_hour now)
                    (if is_peak_hour (dt_hour now) then 1 else 0) rf
                    "real_time_simulated") w'
    /\ (5 <= speed <= 60)%Q
    /\ same_oracles w w'.
Proof.
  cbv zeta. unfold simulate_location.
  unfold bind at 1, datetime_now at 1.
  unfold bind at 1. rewrite uniform_run.
  cbn [rng_draws rng_pos clock clock_pos net net_pos db].
  destruct weather as [wd|].
  - set (rf := Py.get String.eqb RAIN_IMPACT (rain_category wd) 1%Q).
    assert (Hrf : ~ (rf == 0)%Q).
    { pose proof (rain_impact_at_least_one (rain_category wd)).
      fold rf in H. lra. }
    unfold bind at 1. rewrite (engine_speed_run _ rf _ Hrf).
    unfold ret. eexists _, _. split; [reflexivity|].
    split; [apply round_one_decimal_bounds, clamp_bounds|].
    repeat split.
  - assert (H1 : ~ (1 == 0)%Q) by lra.
    unfold bind at 1. rewrite (engine_speed_run _ 1%Q _ H1).
    unfold ret. eexists _, _. split; [reflexivity|].
    split; [apply round_one_decimal_bounds, clamp_bounds|].
    repeat split.
Qed.

(** One simulated reading is consistent, and with a draw in [0, 1) its
    count lies in [0, 1008]. *)
Lemma simulate_location_facts (loc : string)
      (weather : option weather_record) (w : world) :
  (0 <= rng_draws w (rng_pos w) < 1)%Q ->
  exists t w',
    simulate_location loc weather w = Ok t w'
    /\ location t = loc
    /\ engine_record_ok (clock w (clock_pos w)) t
    /\ 0 <= vehicle_count t <= 1008
    /\ first_band TRAFFIC_THRESHOLDS (vehicle_count t) = Some (condition t)
    /\ rain_factor t
       = match weather with
         | Some wd => Py.get String.eqb RAIN_IMPACT (rain_category wd) 1%Q
         | None => 1%Q
         end
    /\ same_oracles w w'.
Proof.
  intros Hd.
  destruct (simulate_location_value loc weather w)
    as (speed & w' & Hrun & Hspeed & Hsame).
  cbv zeta in Hrun.
  set (base := Py.get Z.eqb VEHICLE_PATTERN _ 100) in *.
  set (var := (_ + _ * _)%Q) in *.
  pose proof (vehicle_pattern_bounds (dt_hour (clock w (clock_pos w))))
    as Hbase. fold base in Hbase.
  assert (Hb : (30 <= inject_Z base <= 420)%Q).
  { split; [change 30%Q with (inject_Z 30) | change 420%Q with (inject_Z 420)];
      rewrite <- Zle_Qle; lia. }
  assert (Hvar : (8 # 10 <= var <= 12 # 10)%Q) by (unfold var; lra).
  assert (Hv0 : 0 <= Py.int (inject_Z base * var) <= 504).
  { apply int_bounds; [lia|].
    change (inject_Z 0) with 0%Q. change (inject_Z 504) with 504%Q.
    split; nra. }
  set (v0 := Py.int (inject_Z base * var)) in *.
  assert (Hq0 : (0 <= inject_Z v0 <= 504)%Q).
  { split; [change 0%Q with (inject_Z 0) | change 504%Q with (inject_Z 504)];
      rewrite <- Zle_Qle; lia. }
  eexists _, _. split; [exact Hrun|].
  cbn [location vehicle_count condition].
  assert (Hband : forall v, 0 <= v <= 1008 ->
                    first_band TRAFFIC_THRESHOLDS v
                    = Some (get_traffic_condition v)).
  { intros v Hv. unfold get_traffic_condition.
    rewrite first_band_thresholds. split_bands; solve [reflexivity | lia]. }
  split; [reflexivity|].
  destruct weather as [wd|].
  - pose proof (rain_impact_at_least_one (rain_category wd)) as Hr1.
    pose proof (rain_impact_at_most_two (rain_category wd)) as Hr2.
    set (rf := Py.get String.eqb RAIN_IMPACT (rain_category wd) 1%Q) in *.
    assert (Hv : 0 <= Py.int (inject_Z v0 * rf) <= 1008).
    { apply int_bounds; [lia|].
      change (inject_Z 0) with 0%Q. change (inject_Z 1008) with 1008%Q.
      split; nra. }
    split; [|split; [exact Hv | split; [now apply Hband | now split]]].
    unfold engine_record_ok; cbn. repeat split; try tauto; lra.
  - split; [|split; [lia | split; [apply Hband; lia | now split]]].
    unfold engine_record_ok; cbn. repeat split; try tauto; lra.
Qed.

End EngineRecords.

Section WeatherPayload.

Import WeatherAPI.

(** The scan returns the precipitation paired with the first entry of
    the current hour. *)
Lemma scan_hourly_hit pre txt t post precs h p default i w :
  Forall (other_hour h) pre ->
  iso txt = Some t ->
  dt_hour t = h ->
  nth_error precs (i + List.length pre) = Some p ->
  scan_hourly (pre ++ PyStr txt :: post) i (PyList precs) h default w
  = Ok p w.
Proof.
  revert i. induction pre as [|e pre IH]; intros i Hpre Hiso Ht Hp; simpl.
  - unfold bind. rewrite Hiso. unfold ret.
    apply Z.eqb_eq in Ht. rewrite Ht.
    simpl in Hp. rewrite Nat.add_0_r in Hp. simpl. now rewrite Hp.
  - apply Forall_cons_iff in Hpre.
    destruct Hpre as [(txt0 & t0 & -> & Hiso0 & Hne) Hrest].
    unfold bind at 1. simpl. rewrite Hiso0. unfold ret at 1.
    apply Z.eqb_neq in Hne. rewrite Hne.
    apply IH; [exact Hrest | exact Hiso | exact Ht|].
    simpl in Hp. now rewrite Nat.add_succ_r in Hp.
Qed.

Lemma scan_hourly_miss times precs h default i w :
  Forall (other_hour h) times ->
  scan_hourly times i precs h default w = Ok default w.
Proof.
  revert i. induction times as [|e times IH]; intros i Hall; simpl.
  - reflexivity.
  - apply Forall_cons_iff in Hall.
    destruct Hall as [(txt0 & t0 & -> & Hiso0 & Hne) Hrest].
    unfold bind at 1. simpl. rewrite Hiso0. unfold ret at 1.
    apply Z.eqb_neq in Hne. rewrite Hne. now apply IH.
Qed.

Lemma scan_hourly_malformed pre txt post precs h default i w :
  Forall (other_hour h) pre ->
  iso txt = None ->
  scan_hourly (pre ++ PyStr txt :: post) i precs h default w
  = Raise Py.ValueError w.
Proof.
  revert i. induction pre as [|e pre IH]; intros i Hpre Hiso; simpl.
  - unfold bind. now rewrite Hiso.
  - apply Forall_cons_iff in Hpre.
    destruct Hpre as [(txt0 & t0 & -> & Hiso0 & Hne) Hrest].
    unfold bind at 1. simpl. rewrite Hiso0. unfold ret at 1.
    apply Z.eqb_neq in Hne. rewrite Hne. now apply IH.
Qed.

Lemma scan_hourly_short pre txt t post precs h default i w :
  Forall (other_hour h) pre ->
  iso txt = Some t ->
  dt_hour t = h ->
  (List.length precs <= i + List.length pre)%nat ->
  scan_hourly (pre ++ PyStr txt :: post) i (PyList precs) h default w
  = Raise Py.IndexError w.
Proof.
  revert i.
  induction pre as [|e pre IH]; intros i Hpre Hiso Ht Hlen; simpl.
  - unfold bind. rewrite Hiso. unfold ret.
    apply Z.eqb_eq in Ht. rewrite Ht.
    simpl in Hlen. rewrite Nat.add_0_r in Hlen.
    apply nth_error_None in Hlen. simpl. now rewrite Hlen.
  - apply Forall_cons_iff in Hpre.
    destruct Hpre as [(txt0 & t0 & -> & Hiso0 & Hne) Hrest].
    unfold bind at 1. simpl. rewrite Hiso0. unfold ret at 1.
    apply Z.eqb_neq in Hne. rewrite Hne.
    apply IH; [exact Hrest | exact Hiso | exact Ht|].
    simpl in Hlen. now rewrite Nat.add_succ_r in Hlen.
Qed.

(** X3. The hourly scan of [get_weather] picks the precipitation at the
    position of the first time entry whose hour is the current one; it
    gives the default when no entry is of that hour, raises [ValueError]
    at a time entry that does not parse before any match, and
    [IndexError] when the precipitation list is too short for the
    match. *)
Theorem scan_hourly_cases (pre post precs : list pyvalue) (h : Z)
        (default : pyvalue) (w : world) :
  Forall (other_hour h) pre ->
  (forall txt t p,
      iso txt = Some t -> dt_hour t = h ->
      nth_error precs (List.length pre) = Some p ->
      scan_hourly (pre ++ PyStr txt :: post) 0 (PyList precs) h default w
      = Ok p w)
  /\ scan_hourly pre 0 (PyList precs) h default w = Ok default w
  /\ (forall txt,
         iso txt = None ->
         scan_hourly (pre ++ PyStr txt :: post) 0 (PyList precs) h
                     default w
         = Raise Py.ValueError w)
  /\ (forall txt t,
         iso txt = Some t -> dt_hour t = h ->
         (List.length precs <= List.length pre)%nat ->
         scan_hourly (pre ++ PyStr txt :: post) 0 (PyList precs) h
                     default w
         = Raise Py.IndexError w).
Proof.
  intros Hpre. split; [|split; [|split]].
  - intros txt t p Hiso Ht Hp. now apply (scan_hourly_hit pre txt t).
  - now apply scan_hourly_miss.
  - intros txt Hiso. now apply scan_hourly_malformed.
  - intros txt t Hiso Ht Hlen. now apply (scan_hourly_short pre txt t).
Qed.

Lemma scan_hourly_cases_witness :
  scan_hourly [PyStr (hour_entry "2024-04-24T16:00" 16);
               PyStr (hour_entry "2024-04-24T17:00" 17);
               PyStr (hour_entry "2024-04-24T18:00" 18)]
              0 (PyList [PyFloat 0; PyFloat (25 # 10); PyInt 4]) 17
              (PyFloat 0) offline_world
  = Ok (PyFloat (25 # 10)) offline_world.
Proof.
  assert (Hpre : Forall (other_hour 17)
                        [PyStr (hour_entry "2024-04-24T16:00" 16)]).
  { constructor; [|constructor].
    exists (hour_entry "2024-04-24T16:00" 16),
           (mkdatetime 739000 16 0 0 0).
    split; [reflexivity|]. split; [reflexivity|]. simpl. lia. }
  destruct (scan_hourly_cases
              [PyStr (hour_entry "2024-04-24T16:00" 16)]
              [PyStr (hour_entry "2024-04-24T18:00" 18)]
              [PyFloat 0; PyFloat (25 # 10); PyInt 4] 17 (PyFloat 0)
              offline_world Hpre)
    as (Hhit & _).
  apply (Hhit (hour_entry "2024-04-24T17:00" 17)
              (mkdatetime 739000 17 0 0 0) (PyFloat (25 # 10)));
    reflexivity.
Defined.


(** The steps of [get_weather] once the request is answered with status
    200 and an object whose [hourly] member is an object with a
    precipitation series: an exception of the scan ends the fetch,
    whatever the object holds beside. *)
Lemma get_weather_scan_raises locations loc w resp entries hly times
      precs e :
  Py.contains String.eqb locations loc = true ->
  net w (net_pos w) = HttpResponse resp ->
  status_code resp = 200 ->
  json resp = Json (PyDict entries) ->
  get_or entries "hourly" (PyDict []) = PyDict hly ->
  dict_lookup hly "time" = Some (PyList times) ->
  dict_lookup hly "precipitation" = Some precs ->
  scan_hourly times 0 precs (dt_hour (clock w (clock_pos w))) (PyFloat 0)
              (after_request 1 w)
  = Raise e (after_request 1 w) ->
  get_weather locations loc w = Ok None (after_request 1 w).
Proof.
  intros Hin Hnet Hst Hjson Hhly Htime Hprec Hscan.
  unfold get_weather. rewrite Hin. cbn [negb].
  unfold try_except, bind, requests_get, response_json, method_get,
    datetime_now, contains, ret, after_request in *.
  rewrite Hnet, Hst, Hjson, Hhly.
  cbn [Z.eqb Pos.eqb negb fst snd Nat.add
       rng_draws rng_pos clock clock_pos net net_pos db] in *.
  unfold get_or. rewrite Hprec, Htime.
  cbn [iterate ret]. unfold ret. rewrite Hscan. reflexivity.
Qed.

Lemma get_weather_unreadable locations loc w resp :
  Py.contains String.eqb locations loc = true ->
  net w (net_pos w) = HttpResponse resp ->
  status_code resp = 200 ->
  json resp = InvalidJson
  \/ (exists v, json resp = Json v /\ forall entries, v <> PyDict entries) ->
  get_weather locations loc w = Ok None (after_request 0 w).
Proof.
  intros Hin Hnet Hst Hjson.
  unfold get_weather. rewrite Hin. cbn [negb].
  unfold try_except, bind, requests_get, response_json, method_get, ret,
    raise, after_request.
  rewrite Hnet, Hst.
  destruct Hjson as [-> | (v & -> & Hv)]; [reflexivity|].
  destruct v; try reflexivity. exfalso. now apply (Hv entries).
Qed.



(** X5. A request answered with status 200 whose body cannot be used
    gives [None] and raises nothing: a body that is not JSON or not an
    object, a time entry that does not parse before the entry of the
    current hour, or a precipitation list too short for that entry. *)
Theorem get_weather_unusable_body (locations : list (string * coords))
        (loc : string) (w : world) (resp : response) :
  Py.contains String.eqb locations loc = true ->
  net w (net_pos w) = HttpResponse resp ->
  status_code resp = 200 ->
  (json resp = InvalidJson
   \/ (exists v, json resp = Json v /\ forall entries, v <> PyDict entries)
   \/ (exists entries hly times precs pre post,
         json resp = Json (PyDict entries)
         /\ get_or entries "hourly" (PyDict []) = PyDict hly
         /\ dict_lookup hly "time" = Some (PyList times)
         /\ dict_lookup hly "precipitation" = Some (PyList precs)
         /\ Forall (other_hour (dt_hour (clock w (clock_pos w)))) pre
         /\ ((exists txt, times = pre ++ PyStr txt :: post
                          /\ iso txt = None)
             \/ exists txt t,
                 times = pre ++ PyStr txt :: post
                 /\ iso txt = Some t
                 /\ dt_hour t = dt_hour (clock w (clock_pos w))
                 /\ (List.length precs <= List.length pre)%nat))) ->
  exists w', get_weather locations loc w = Ok None w'
             /\ db w' = db w.
Proof.
  intros Hin Hnet Hst [Hj|[Hj|Hj]].
  - rewrite (get_weather_unreadable locations loc w resp); auto.
    eexists; split; reflexivity.
  - rewrite (get_weather_unreadable locations loc w resp); auto.
    eexists; split; reflexivity.
  - destruct Hj as (entries & hly & times & precs & pre & post & Hjson
                    & Hhly & Htime & Hprec & Hpre & Hbad).
    destruct Hbad as [(txt & -> & Hiso) | (txt & t & -> & Hiso & Ht & Hlen)].
    + rewrite (get_weather_scan_raises
                 locations loc w resp entries hly _ _ Py.ValueError
                 Hin Hnet Hst Hjson Hhly Htime Hprec).
      * eexists; split; reflexivity.
      * now apply scan_hourly_malformed.
    + rewrite (get_weather_scan_raises
                 locations loc w resp entries hly _ _ Py.IndexError
                 Hin Hnet Hst Hjson Hhly Htime Hprec).
      * eexists; split; reflexivity.
      * now apply (scan_hourly_short pre txt t).
Qed.

Lemma get_weather_unusable_body_witness :
  exists w',
    get_weather Config.LOCATIONS "Jakarta Barat"
                (constant_world (1 # 2) (mkdatetime 739000 17 30 0 0)
                                (HttpResponse (mkresponse 200 InvalidJson))
                                TrafficDatabase.empty)
    = Ok None w'.
Proof.
  destruct (get_weather_unusable_body
              Config.LOCATIONS "Jakarta Barat"
              (constant_world (1 # 2) (mkdatetime 739000 17 30 0 0)
                              (HttpResponse (mkresponse 200 InvalidJson))
                              TrafficDatabase.empty)
              (mkresponse 200 InvalidJson)
              eq_refl eq_refl eq_refl (or_introl eq_refl))
    as (w' & H & _).
  exists w'. exact H.
Defined.

End WeatherPayload.

Section CycleRecords.

Import Config WeatherAPI TrafficEngine.

(** A property of the accumulator and the world that every step keeps
    holds when the loop returns. *)
Lemma for_each_invariant {A S : Type} (I : S -> world -> Prop)
      (xs : list A) (body : A -> S -> M S) :
  (forall x acc w acc' w',
      In x xs -> I acc w -> body x acc w = Ok acc' w' -> I acc' w') ->
  forall acc w acc' w',
    I acc w -> for_each xs body acc w = Ok acc' w' -> I acc' w'.
Proof.
  induction xs as [|x rest IH]; intros Hstep acc w acc' w' HI Hrun.
  - simpl in Hrun. injection Hrun as <- <-. exact HI.
  - simpl in Hrun. unfold bind in Hrun.
    destruct (body x acc w) as [a1 w1| |] eqn:E; try discriminate.
    apply IH with (acc := a1) (w := w1).
    + intros y acc0 w0 acc1 w2 Hy. apply Hstep. now right.
    + eapply Hstep; [now left | exact HI | exact E].
    + exact Hrun.
Qed.

Lemma get_all_weather_decoded locations w ws w1 :
  get_all_weather locations w = Ok ws w1 ->
  Forall (fun x => In (w_location x) (map fst locations) /\ decoded x) ws
  /\ (List.length ws <= List.length locations)%nat
  /\ db w1 = db w.
Proof.
  unfold get_all_weather. intros Hrun.
  assert (Hgen : forall names,
             incl names (map fst locations) ->
             forall acc w0 res w',
               for_each names
                 (fun loc results =>
                    data <- get_weather locations loc ;;
                    match data with
                    | Some d => ret (results ++ [d])
                    | None => ret results
                    end) acc w0 = Ok res w' ->
               Forall (fun x => In (w_location x) (map fst locations)
                                /\ decoded x) acc ->
               Forall (fun x => In (w_location x) (map fst locations)
                                /\ decoded x) res
               /\ (List.length res
                   <= List.length acc + List.length names)%nat
               /\ db w' = db w0).
  { induction names as [|loc rest IH]; intros Hincl acc w0 res w' Hfor Hacc.
    - simpl in Hfor. injection Hfor as <- <-.
      repeat split; [exact Hacc | lia].
    - simpl in Hfor. unfold bind at 1 in Hfor. unfold bind at 1 in Hfor.
      destruct (get_weather_run locations loc w0)
        as (r & w1' & Hr & _ & Hdb & _ & Hpost & _).
      rewrite Hr in Hfor.
      assert (Hrest : incl rest (map fst locations)).
      { intros y Hy. apply Hincl. now right. }
      destruct r as [d|]; unfold ret at 1 in Hfor.
      + destruct (Hpost d eq_refl) as (Hloc & Hdec & _).
        destruct (IH Hrest _ _ _ _ Hfor) as (H1 & H2 & H3).
        * apply Forall_app. split; [exact Hacc|].
          constructor; [|constructor]. split; [|exact Hdec].
          rewrite Hloc. apply Hincl. now left.
        * split; [exact H1|]. rewrite length_app in H2. simpl in *.
          split; [lia | congruence].
      + destruct (IH Hrest _ _ _ _ Hfor Hacc) as (H1 & H2 & H3).
        split; [exact H1|]. simpl. split; [lia | congruence]. }
  destruct (Hgen (map fst locations) (incl_refl _) [] w ws w1 Hrun
                 (Forall_nil _)) as (H1 & H2 & H3).
  rewrite length_map in H2. simpl in H2. auto.
Qed.

(** X6. The fetch of [fetch_and_save] never raises: it collects at most
    one record per configured location, each for a configured location
    and carrying the description and rain category its weather code
    decodes to, and leaves the database alone.  When each of these
    records can be stored, [fetch_and_save] returns them and appends
    exactly them, in order, to the weather table, leaving the traffic
    table alone.  When one cannot, the exception of its insert leaves
    [fetch_and_save], after the records before it were appended. *)
Theorem fetch_and_save_stores_fetched (locations : list (string * coords))
        (w : world) :
  exists ws w1,
    get_all_weather locations w = Ok ws w1
    /\ db w1 = db w
    /\ (List.length ws <= List.length locations)%nat
    /\ Forall (fun x => In (w_location x) (map fst locations)
                        /\ decoded x) ws
    /\ (Forall storable ws ->
        exists w',
          fetch_and_save locations w = Ok ws w'
          /\ map w_record (weather_data (db w'))
             = map w_record (weather_data (db w)) ++ ws
          /\ traffic_data (db w') = traffic_data (db w))
    /\ (forall pre bad post e,
           ws = pre ++ bad :: post ->
           Forall storable pre ->
           TrafficDatabase.bind_weather bad = Some e ->
           exists w',
             fetch_and_save locations w = Raise e w'
             /\ map w_record (weather_data (db w'))
                = map w_record (weather_data (db w)) ++ pre
             /\ traffic_data (db w') = traffic_data (db w)).
Proof.
  destruct (fetch_and_save_run locations w)
    as (ws & w1 & Hget & _ & Hdb & _ & _ & Hgood & Hbad).
  destruct (get_all_weather_decoded locations w ws w1 Hget)
    as (Hdec & Hlen & _).
  exists ws, w1. split; [exact Hget|]. split; [exact Hdb|].
  split; [exact Hlen|]. split; [exact Hdec|]. split.
  - intros Hst. destruct (Hgood Hst) as (w' & Hrun & _ & Ht & _ & Hrows).
    exists w'. auto.
  - intros pre bad post e Hws Hpre He.
    destruct (Hbad pre bad post e Hws Hpre He) as (w' & Hrun & Ht & Hrows).
    exists w'. auto.
Qed.

(** Whatever value the weather code is, the rain category it decodes
    to is a key of [RAIN_IMPACT]. *)
Lemma decoded_value_is_key (x : weather_record) :
  decoded x -> In (rain_category x) (map fst RAIN_IMPACT).
Proof.
  intros (info & Hinfo & _ & ->).
  destruct (weather_code x) as [ |b|n|q| |t|items|entries];
    simpl in Hinfo; try discriminate.
  - injection Hinfo as <-. simpl. tauto.
  - injection Hinfo as <-. apply decoded_category_is_key.
  - injection Hinfo as <-. apply decoded_category_is_key.
  - destruct (Qeq_bool q (inject_Z (Qfloor q))); injection Hinfo as <-;
      [apply decoded_category_is_key | simpl; tauto].
  - injection Hinfo as <-. simpl. tauto.
  - injection Hinfo as <-. simpl. tauto.
Qed.

Lemma weather_map_hit (ws : list weather_record)
      (m : list (string * weather_record)) loc x :
  Py.lookup String.eqb loc
    (fold_left (fun m w => Py.set String.eqb m (w_location w) w) ws m)
  = Some x ->
  In x ws \/ Py.lookup String.eqb loc m = Some x.
Proof.
  revert m. induction ws as [|y rest IH]; intros m H; simpl in H.
  - now right.
  - destruct (IH _ H) as [Hin|Hm]; [left; now right|].
    rewrite lookup_set in Hm.
    destruct (String.eqb loc (w_location y)); [|now right].
    injection Hm as <-. left. now left.
Qed.

(** X7. With draws in [0, 1), in a cycle whose fetched records can be
    stored, every reading is consistent: timestamp and hour are a clock
    reading's, the condition is the classifier's label of the count,
    the peak flag is the peak predicate of the hour, the speed lies in
    [5, 60]; the count lies in [0, 1008], so the label comes from a band
    of the table and never from the fallback, and the rain factor is one
    of the five of [RAIN_IMPACT]. *)
Theorem cycle_records_consistent (cfg : settings) (w : world)
        (ws : list weather_record) (w0 : world) :
  unit_draws w ->
  get_all_weather (cfg_LOCATIONS cfg) w = Ok ws w0 ->
  Forall storable ws ->
  exists records w',
    run_simulation_cycle cfg w = Ok records w'
    /\ Forall (fun r => (exists n, engine_record_ok (clock w n) r)
                        /\ within_table r) records.
Proof.
  intros Hdraws Hget Hst.
  destruct (fetch_and_save_run (cfg_LOCATIONS cfg) w)
    as (ws' & w0' & Hget' & _ & _ & _ & _ & Hgood & _).
  rewrite Hget in Hget'. injection Hget' as <- <-.
  destruct (Hgood Hst) as (w1 & Hf & Hs1 & _).
  destruct (get_all_weather_decoded _ _ _ _ Hget) as (Hdec & _ & _).
  destruct (run_simulation_cycle_run cfg w)
    as (ws' & w0' & Hget' & _ & Hcycle & _).
  rewrite Hget in Hget'. injection Hget' as <- <-.
  destruct (Hcycle Hst) as (w1' & rs & w2 & Hf' & Hrun & _).
  rewrite Hf in Hf'. injection Hf' as <-.
  exists rs, w2. split; [exact Hrun|].
  unfold run_simulation_cycle in Hrun. unfold bind at 1 in Hrun.
  rewrite Hf in Hrun. cbv zeta in Hrun.
  set (wm := fold_left _ ws []) in Hrun.
  unfold bind at 1 in Hrun.
  match type of Hrun with
  | context [for_each ?xs ?body [] w1] =>
      destruct (for_each xs body [] w1) as [rs' w3| |] eqn:Eloop;
        try discriminate;
        assert (Hinv : same_oracles w w3
                       /\ Forall (fun r =>
                                    (exists n, engine_record_ok (clock w n) r)
                                    /\ within_table r) rs')
  end.
  { eapply (for_each_invariant
              (fun acc w' =>
                 same_oracles w w'
                 /\ Forall (fun r =>
                              (exists n, engine_record_ok (clock w n) r)
                              /\ within_table r) acc));
      [| split; [exact Hs1 | constructor] | exact Eloop].
    intros loc acc wa acc' wb _ [Hsa Hacc] Hstep.
    unfold bind in Hstep.
    destruct (simulate_location_facts
                loc (Py.lookup String.eqb loc wm) wa)
      as (t & wt & Hsim & _ & Hok & Hcount & Hband & Hrf & Hst').
    { destruct Hsa as (-> & _). apply Hdraws. }
    rewrite Hsim in Hstep. unfold ret in Hstep.
    injection Hstep as <- <-.
    split; [eapply same_oracles_trans; eassumption|].
    apply Forall_app. split; [exact Hacc|].
    constructor; [|constructor]. split.
    - exists (clock_pos wa). destruct Hsa as (_ & <- & _). exact Hok.
    - split; [exact Hcount|]. split; [exact Hband|].
      rewrite Hrf.
      destruct (Py.lookup String.eqb loc wm) as [wd|] eqn:El.
      + apply rain_impact_values.
        apply weather_map_hit in El. destruct El as [Hin|El];
          [|discriminate].
        rewrite Forall_forall in Hdec.
        destruct (Hdec wd Hin) as (_ & Hd).
        now apply decoded_value_is_key.
      + simpl. tauto. }
  unfold bind, with_db, ret in Hrun. injection Hrun as <- _.
  apply Hinv.
Qed.

Lemma cycle_records_consistent_witness :
  exists records w',
    run_simulation_cycle repo_settings first_request_times_out
    = Ok records w'
    /\ Forall within_table records.
Proof.
  assert (Hget : exists ws w0,
             get_all_weather (cfg_LOCATIONS repo_settings)
                             first_request_times_out = Ok ws w0
             /\ Forall storable ws).
  { eexists _, _. split; [vm_compute; reflexivity|].
    repeat constructor. }
  destruct Hget as (ws & w0 & Hget & Hst).
  assert (Hdraws : unit_draws first_request_times_out).
  { intros n. simpl. split; unfold Qle, Qlt; simpl; lia. }
  destruct (cycle_records_consistent
              repo_settings first_request_times_out ws w0
              Hdraws Hget Hst)
    as (rs & w' & Hrun & Hall).
  exists rs, w'. split; [exact Hrun|].
  eapply Forall_impl; [|exact Hall]. intros r [_ H]. exact H.
Defined.

End CycleRecords.

(* ================================================================== *)
(** * Further properties of the database *)
(* ================================================================== *)

Section Sorting.

Import TrafficDatabase.

Context {A : Type} (le : A -> A -> bool).
Hypothesis le_total : forall a b, le a b = false -> le b a = true.

Lemma insert_sorted_Sorted x l :
  Sorted (fun a b => le a b = true) l ->
  Sorted (fun a b => le a b = true) (insert_sorted le x l).
Proof.
  induction l as [|y rest IH]; intros Hl; simpl.
  - repeat constructor.
  - destruct (le x y) eqn:E.
    + constructor; [exact Hl | constructor; exact E].
    + inversion Hl as [|? ? Hrest Hhd]; subst.
      constructor; [apply IH; exact Hrest|].
      destruct rest as [|z rest']; simpl.
      * constructor. now apply le_total.
      * destruct (le x z); constructor.
        -- now apply le_total.
        -- inversion Hhd; subst. assumption.
Qed.

Lemma sort_Sorted l : Sorted (fun a b => le a b = true) (sort le l).
Proof.
  unfold sort. induction l as [|x rest IH]; simpl.
  - constructor.
  - now apply insert_sorted_Sorted.
Qed.

Lemma insert_sorted_Permutation x l :
  Permutation (x :: l) (insert_sorted le x l).
Proof.
  induction l as [|y rest IH]; simpl.
  - apply Permutation_refl.
  - destruct (le x y); [apply Permutation_refl|].
    eapply perm_trans; [apply perm_swap|].
    now apply perm_skip.
Qed.

Lemma sort_Permutation l : Permutation l (sort le l).
Proof.
  unfold sort. induction l as [|x rest IH]; simpl.
  - constructor.
  - eapply perm_trans; [apply perm_skip, IH|].
    apply insert_sorted_Permutation.
Qed.

Hypothesis le_trans :
  forall a b c, le a b = true -> le b c = true -> le a c = true.

Lemma sort_StronglySorted l :
  StronglySorted (fun a b => le a b = true) (sort le l).
Proof.
  apply Sorted_StronglySorted; [|apply sort_Sorted].
  intros a b c. apply le_trans.
Qed.

End Sorting.

Section Timestamps.

Lemma lex_compare_antisym a b :
  Datetime.lex_compare a b = CompOpp (Datetime.lex_compare b a).
Proof.
  revert b. induction a as [|x a IH]; intros [|y b]; simpl; try reflexivity.
  rewrite (Z.compare_antisym y x).
  destruct (y ?= x); simpl; [apply IH | reflexivity | reflexivity].
Qed.

Lemma datetime_leb_total a b :
  Datetime.leb a b = false -> Datetime.leb b a = true.
Proof.
  unfold Datetime.leb, Datetime.compare.
  rewrite (lex_compare_antisym (Datetime.key b)).
  destruct (Datetime.lex_compare (Datetime.key a) (Datetime.key b));
    simpl; congruence.
Qed.

Lemma lex_compare_trans a b c :
  Datetime.lex_compare a b <> Gt ->
  Datetime.lex_compare b c <> Gt ->
  Datetime.lex_compare a c <> Gt.
Proof.
  revert b c. induction a as [|x a IH]; intros [|y b] [|z c]; simpl;
    try congruence.
  destruct (Z.compare_spec x y), (Z.compare_spec y z),
    (Z.compare_spec x z); try congruence; try lia.
  apply IH.
Qed.

Lemma datetime_leb_trans a b c :
  Datetime.leb a b = true -> Datetime.leb b c = true ->
  Datetime.leb a c = true.
Proof.
  unfold Datetime.leb, Datetime.compare. intros H1 H2.
  pose proof (lex_compare_trans (Datetime.key a) (Datetime.key b)
                                (Datetime.key c)) as H.
  destruct (Datetime.lex_compare (Datetime.key a) (Datetime.key b));
    destruct (Datetime.lex_compare (Datetime.key b) (Datetime.key c));
    destruct (Datetime.lex_compare (Datetime.key a) (Datetime.key c));
    try reflexivity; try discriminate;
    exfalso; apply H; congruence.
Qed.

End Timestamps.

Section DatabaseQueries.

Import TrafficDatabase.

Lemma newest_first_total a b :
  newest_first a b = false -> newest_first b a = true.
Proof. unfold newest_first. apply datetime_leb_total. Qed.

Lemma newest_first_trans a b c :
  newest_first a b = true -> newest_first b c = true ->
  newest_first a c = true.
Proof.
  unfold newest_first. intros H1 H2.
  eapply datetime_leb_trans; eassumption.
Qed.

(** In a strongly sorted list every element of a prefix is related to
    every element after it. *)
Lemma prefix_dominates {A : Type} (R : A -> A -> Prop) (l : list A) n :
  StronglySorted R l ->
  forall x y, In x (firstn n l) -> In y (skipn n l) -> R x y.
Proof.
  revert n. induction l as [|a l IH]; intros n Hs x y Hx Hy.
  - rewrite firstn_nil in Hx. contradiction.
  - destruct n as [|n]; [contradiction|].
    simpl in Hx, Hy. inversion Hs as [|? ? Hl Hall]; subst.
    destruct Hx as [<-|Hx].
    + rewrite Forall_forall in Hall. apply Hall.
      rewrite <- (firstn_skipn n l). apply in_or_app. now right.
    + now apply (IH n).
Qed.

Lemma get_all_traffic_data_sorted (d : database) :
  StronglySorted newer_or_same (get_all_traffic_data d).
Proof.
  unfold get_all_traffic_data, newer_or_same.
  apply sort_StronglySorted;
    [apply newest_first_total | apply newest_first_trans].
Qed.

(** X8. The two traffic queries return the stored rows (all of them, or
    those of the location) rearranged from newest to oldest timestamp:
    nothing is lost, added or duplicated. *)
Theorem traffic_queries_newest_first (d : database) (loc : string) :
  Permutation (traffic_data d) (get_all_traffic_data d)
  /\ StronglySorted newer_or_same (get_all_traffic_data d)
  /\ Permutation
       (filter (fun r : traffic_row => String.eqb (location r) loc)
               (traffic_data d))
       (get_traffic_by_location loc d)
  /\ StronglySorted newer_or_same (get_traffic_by_location loc d)
  /\ Forall (fun r : traffic_row => location r = loc)
            (get_traffic_by_location loc d).
Proof.
  unfold get_all_traffic_data, get_traffic_by_location, newer_or_same.
  split; [apply sort_Permutation|].
  split; [apply sort_StronglySorted;
          [apply newest_first_total | apply newest_first_trans]|].
  split; [apply sort_Permutation|].
  split; [apply sort_StronglySorted;
          [apply newest_first_total | apply newest_first_trans]|].
  apply Forall_forall. intros r Hr.
  apply sort_In, filter_In in Hr. now apply String.eqb_eq.
Qed.

(** X9. [get_latest_traffic] returns the first [limit] rows of the
    newest-first listing (all rows when fewer are stored or the limit is
    negative), and every row it returns is at least as new as every row
    it leaves out. *)
Theorem get_latest_traffic_newest (limit : Z) (d : database) :
  (0 <= limit ->
   Z.of_nat (List.length (get_latest_traffic limit d))
   = Z.min limit (get_traffic_count d))
  /\ (limit < 0 -> get_latest_traffic limit d = get_all_traffic_data d)
  /\ (forall x y,
        In x (get_latest_traffic limit d) ->
        In y (traffic_data d) ->
        ~ In y (get_latest_traffic limit d) ->
        newer_or_same x y).
Proof.
  unfold get_latest_traffic, get_traffic_count.
  split; [|split].
  - intros H. apply Z.ltb_ge in H. rewrite H.
    rewrite length_firstn. unfold get_all_traffic_data.
    rewrite sort_length. lia.
  - intros H. apply Z.ltb_lt in H. now rewrite H.
  - intros x y Hx Hy Hny.
    destruct (limit <? 0).
    + exfalso. apply Hny. unfold get_all_traffic_data. now apply sort_In.
    + apply (prefix_dominates _ _ (Z.to_nat limit)
                              (get_all_traffic_data_sorted d));
        [exact Hx|].
      assert (Hin : In y (get_all_traffic_data d))
        by (unfold get_all_traffic_data; now apply sort_In).
      rewrite <- (firstn_skipn (Z.to_nat limit)) in Hin.
      apply in_app_or in Hin. tauto.
Qed.

Lemma get_latest_traffic_newest_witness :
  Z.of_nat (List.length
              (get_latest_traffic 10
                 (database_of [reading_at_7 1 "Jakarta Pusat" 100;
                               reading_at_7 2 "Jakarta Pusat" 200])))
  = 2.
Proof.
  destruct (get_latest_traffic_newest 10
              (database_of [reading_at_7 1 "Jakarta Pusat" 100;
                            reading_at_7 2 "Jakarta Pusat" 200]))
    as (H & _).
  rewrite H; [reflexivity | lia].
Defined.

End DatabaseQueries.

Section DatabaseWrites.

Import TrafficDatabase.

Lemma number_from_length {A B : Type} (mk : Z -> A -> B) n l :
  List.length (number_from mk n l) = List.length l.
Proof.
  revert n. induction l as [|x rest IH]; intros n; simpl; [reflexivity|].
  now rewrite IH.
Qed.

Lemma number_from_range {A B : Type} (mk : Z -> A -> B) (key : B -> Z)
      (Hk : forall n x, key (mk n x) = n) n l :
  Forall (fun i => n <= i < n + Z.of_nat (List.length l))
         (map key (number_from mk n l)).
Proof.
  revert n. induction l as [|x rest IH]; intros n; simpl; [constructor|].
  constructor; [rewrite Hk; lia|].
  eapply Forall_impl; [|apply IH]. simpl. intros i Hi. lia.
Qed.

Lemma number_from_NoDup {A B : Type} (mk : Z -> A -> B) (key : B -> Z)
      (Hk : forall n x, key (mk n x) = n) n l :
  NoDup (map key (number_from mk n l)).
Proof.
  revert n. induction l as [|x rest IH]; intros n; simpl; [constructor|].
  constructor; [|apply IH].
  rewrite Hk. intros Hin.
  pose proof (number_from_range mk key Hk (n + 1) rest) as Hr.
  rewrite Forall_forall in Hr. apply Hr in Hin. lia.
Qed.

Lemma ids_ok_app ids c fresh k :
  ids_ok ids c -> 0 <= k -> NoDup fresh ->
  Forall (fun i => c + 1 <= i < c + 1 + k) fresh ->
  ids_ok (ids ++ fresh) (c + k).
Proof.
  intros (Hc & Hnd & Hall) Hk Hfresh Hrange.
  rewrite Forall_forall in Hall, Hrange.
  split; [lia|]. split.
  - apply NoDup_app; [assumption|assumption|].
    intros a Ha Hb. apply Hall in Ha. apply Hrange in Hb. lia.
  - apply Forall_forall. intros a Ha. apply in_app_or in Ha.
    destruct Ha as [Ha|Ha]; [apply Hall in Ha|apply Hrange in Ha]; lia.
Qed.

Lemma ids_ok_batch {A B : Type} (mk : Z -> A -> B) (key : B -> Z)
      (Hk : forall n x, key (mk n x) = n) rows c l :
  ids_ok (map key rows) c ->
  ids_ok (map key (rows ++ number_from mk (c + 1) l))
         (c + Z.of_nat (List.length l)).
Proof.
  intros H. rewrite map_app. apply ids_ok_app; [assumption|lia| |].
  - now apply number_from_NoDup.
  - now apply number_from_range.
Qed.

Lemma ids_ok_cleared c ids : ids_ok ids c -> ids_ok [] c.
Proof.
  intros (Hc & _). split; [assumption|]. split; constructor.
Qed.

(** X10. The write operations keep the autoincrement discipline of both
    tables: after [insert_traffic_data], [insert_weather_data], the
    generator's batch insert of weather rows or [clear_all_data], row ids
    are still positive, pairwise distinct and not above the table's
    counter; clearing keeps the counters, so ids are never reused.  The
    two weather inserts return when the records can be stored, and raise
    otherwise, which leaves the database as it was. *)
Theorem writes_keep_row_ids (d : database) (records : list traffic_record)
        (record : weather_record) (batch : list weather_record) :
  db_ok d ->
  db_ok (insert_traffic_data records d)
  /\ (storable record ->
      exists d', insert_weather_data record d = Returns d' /\ db_ok d')
  /\ (Forall storable batch ->
      exists d', insert_weather_batch batch d = Returns d' /\ db_ok d')
  /\ (forall d', insert_weather_data record d = Returns d' ->
                 storable record /\ db_ok d')
  /\ (forall d', insert_weather_batch batch d = Returns d' ->
                 Forall storable batch /\ db_ok d')
  /\ db_ok (clear_all_data d)
  /\ traffic_seq (clear_all_data d) = traffic_seq d
  /\ weather_seq (clear_all_data d) = weather_seq d.
Proof.
  intros [Ht Hw].
  assert (Hone : forall d',
             insert_weather_data record d = Returns d' ->
             storable record /\ db_ok d').
  { unfold insert_weather_data, storable. intros d'.
    destruct (bind_weather record); [discriminate|].
    intros [= <-]. split; [reflexivity|].
    split; cbn [traffic_data traffic_seq weather_data weather_seq];
      [assumption|].
    exact (ids_ok_batch mkweather_row w_id (fun _ _ => eq_refl)
                        (weather_data d) (weather_seq d) [record] Hw). }
  assert (Hmany : forall d',
             insert_weather_batch batch d = Returns d' ->
             Forall storable batch /\ db_ok d').
  { unfold insert_weather_batch. intros d'.
    destruct (bind_batch batch) eqn:E; [discriminate|].
    intros [= <-]. split.
    - clear -E. induction batch as [|x rest IH]; [constructor|].
      simpl in E. destruct (bind_weather x) eqn:Ex; [discriminate|].
      constructor; [exact Ex|now apply IH].
    - split; cbn [traffic_data traffic_seq weather_data weather_seq];
        [assumption|now apply ids_ok_batch]. }
  split; [|split; [|split; [|split; [|split; [|split; [|split]]]]]];
    try reflexivity; try assumption.
  - unfold insert_traffic_data. destruct records as [|r rest].
    + now split.
    + split; cbn [traffic_data traffic_seq weather_data weather_seq];
        [now apply ids_ok_batch|assumption].
  - intros Hst. unfold storable in Hst.
    destruct (insert_weather_data record d) as [d'|e] eqn:E.
    + exists d'. split; [reflexivity|]. now apply Hone.
    + unfold insert_weather_data in E. rewrite Hst in E. discriminate.
  - intros Hst. apply bind_batch_storable in Hst.
    destruct (insert_weather_batch batch d) as [d'|e] eqn:E.
    + exists d'. split; [reflexivity|]. now apply Hmany.
    + unfold insert_weather_batch in E. rewrite Hst in E. discriminate.
  - split; [exact (ids_ok_cleared _ _ Ht)|exact (ids_ok_cleared _ _ Hw)].
Qed.

Lemma writes_keep_row_ids_witness :
  db_ok refilled_database
  /\ db_ok (insert_traffic_data sample_readings refilled_database)
  /\ map id (traffic_data
               (insert_traffic_data sample_readings refilled_database))
     = [4; 5; 6; 7]
  /\ exists d',
      insert_weather_batch sample_weather refilled_database = Returns d'
      /\ db_ok d'
      /\ map w_id (weather_data d') = [3; 4; 5; 6].
Proof.
  assert (H : db_ok refilled_database).
  { split; (split; [simpl; lia|]); split.
    - constructor; [simpl; intros [E|[]]; discriminate|].
      constructor; [intros []|constructor].
    - repeat constructor; simpl; lia.
    - constructor; [simpl; intros [E|[]]; discriminate|].
      constructor; [intros []|constructor].
    - repeat constructor; simpl; lia. }
  assert (Hst : Forall storable sample_weather).
  { repeat constructor. }
  split; [exact H|].
  destruct (writes_keep_row_ids
              refilled_database sample_readings
              (mkweather (mkdatetime 739000 7 0 0 0) "Jakarta Pusat"
                         (PyFloat (285 # 10)) (PyFloat (21 # 10))
                         (PyFloat (123 # 10)) (PyInt 61)
                         "Hujan Ringan" "light")
              sample_weather H)
    as (Ht & _ & Hb & _).
  split; [exact Ht|]. split; [reflexivity|].
  destruct (Hb Hst) as (d' & Hrun & Hok).
  exists d'. split; [exact Hrun|]. split; [exact Hok|].
  vm_compute in Hrun. injection Hrun as <-. reflexivity.
Defined.

Lemma number_from_finds {A B : Type} (mk : Z -> A -> B) (proj : B -> A)
      (key : B -> Z) (Hp : forall n x, proj (mk n x) = x)
      (Hk : forall n x, key (mk n x) = n) n l r :
  In r l ->
  exists row, In row (number_from mk n l) /\ proj row = r /\ n <= key row.
Proof.
  revert n. induction l as [|x rest IH]; intros n Hin; [destruct Hin|].
  destruct Hin as [->|Hin].
  - exists (mk n r). simpl. rewrite Hp, Hk. repeat split; [now left|lia].
  - destruct (IH (n + 1) Hin) as (row & H1 & H2 & H3).
    exists row. simpl. repeat split; [now right|assumption|lia].
Qed.

(** X11. Inserting a batch of traffic records and reading back: every
    record of the batch is returned by the query for its location, as it
    was written and under an id the table had not used; the rows stored
    before are still returned; the row count grows by the size of the
    batch and the weather table is left alone. *)
Theorem inserted_traffic_is_found (d : database)
        (records : list traffic_record) (r : traffic_record) :
  In r records ->
  (exists row,
      In row (get_traffic_by_location (location r)
                                      (insert_traffic_data records d))
      /\ t_record row = r /\ traffic_seq d < id row)
  /\ (forall row, In row (get_all_traffic_data d) ->
                  In row (get_all_traffic_data
                            (insert_traffic_data records d)))
  /\ get_traffic_count (insert_traffic_data records d)
     = get_traffic_count d + Z.of_nat (List.length records)
  /\ weather_data (insert_traffic_data records d) = weather_data d.
Proof.
  intros Hin. destruct records as [|r0 rest]; [destruct Hin|].
  set (records := r0 :: rest) in *.
  unfold insert_traffic_data, get_traffic_by_location,
    get_all_traffic_data, get_traffic_count.
  change (match records with [] => d | _ :: _ => ?x end) with x.
  cbn [traffic_data weather_data].
  split; [|split; [|split; [|reflexivity]]].
  - destruct (number_from_finds mktraffic_row t_record id
                (fun _ _ => eq_refl) (fun _ _ => eq_refl)
                (traffic_seq d + 1) records r Hin)
      as (row & H1 & H2 & H3).
    exists row. split; [|split; [assumption|lia]].
    apply sort_In. apply filter_In. split.
    + apply in_or_app. now right.
    + rewrite H2. apply String.eqb_refl.
  - intros row Hrow. apply sort_In. apply sort_In in Hrow.
    apply in_or_app. now left.
  - rewrite length_app, number_from_length. lia.
Qed.

Lemma inserted_traffic_is_found_witness :
  exists row,
    In row (get_traffic_by_location
              "Jakarta Pusat"
              (insert_traffic_data
                 [mktraffic (mkdatetime 1 7 0 0 0) "Jakarta Pusat" 100
                            "Lancar" 60 7 1 1 "simulated"]
                 empty))
    /\ vehicle_count row = 100 /\ 0 < id row.
Proof.
  pose (r := mktraffic (mkdatetime 1 7 0 0 0) "Jakarta Pusat" 100
                       "Lancar" 60 7 1 1 "simulated").
  destruct (inserted_traffic_is_found empty [r] r (or_introl eq_refl))
    as ((row & H1 & H2 & H3) & _).
  exists row. split; [exact H1|]. split; [now rewrite H2|exact H3].
Defined.

End DatabaseWrites.

Section LatestWeather.

Import TrafficDatabase.

Lemma fold_max_ge l x : In x l -> x <= fold_right Z.max 0 l.
Proof.
  induction l as [|y rest IH]; intros Hin; [destruct Hin|].
  simpl. destruct Hin as [->|Hin]; [lia|].
  specialize (IH Hin). lia.
Qed.

Lemma fold_max_In l :
  l <> [] -> Forall (fun n => 0 < n) l -> In (fold_right Z.max 0 l) l.
Proof.
  induction l as [|y rest IH]; intros Hne Hpos; [congruence|].
  apply Forall_cons_iff in Hpos. destruct Hpos as [Hy Hrest].
  simpl. destruct rest as [|z rest'].
  - left. simpl. lia.
  - destruct (Z.max_spec y (fold_right Z.max 0 (z :: rest')))
      as [[_ E]|[_ E]]; rewrite E.
    + right. apply IH; [discriminate|assumption].
    + now left.
Qed.

Lemma key_injective {A : Type} (key : A -> Z) l x y :
  NoDup (map key l) -> In x l -> In y l -> key x = key y -> x = y.
Proof.
  induction l as [|a rest IH]; intros Hnd Hx Hy E; [destruct Hx|].
  simpl in Hnd. apply NoDup_cons_iff in Hnd. destruct Hnd as [Hna Hnd].
  destruct Hx as [->|Hx], Hy as [->|Hy].
  - reflexivity.
  - exfalso. apply Hna. rewrite E. now apply in_map.
  - exfalso. apply Hna. rewrite <- E. now apply in_map.
  - now apply IH.
Qed.

Lemma NoDup_map_on {A B : Type} (f : A -> B) l :
  NoDup l ->
  (forall x y, In x l -> In y l -> f x = f y -> x = y) ->
  NoDup (map f l).
Proof.
  induction l as [|a rest IH]; intros Hnd Hinj; [constructor|].
  apply NoDup_cons_iff in Hnd. destruct Hnd as [Hna Hnd].
  simpl. constructor.
  - intros Hin. apply in_map_iff in Hin. destruct Hin as (b & E & Hb).
    assert (b = a) by (apply Hinj; [now right|now left|assumption]).
    subst b. contradiction.
  - apply IH; [assumption|].
    intros x y Hx Hy. apply Hinj; now right.
Qed.

Lemma ids_at_In loc rows i :
  In i (ids_at loc rows)
  <-> exists y, In y rows /\ w_location y = loc /\ w_id y = i.
Proof.
  unfold ids_at. rewrite in_map_iff. split.
  - intros (y & E & Hy). apply filter_In in Hy. destruct Hy as [Hy Hl].
    apply String.eqb_eq in Hl. now exists y.
  - intros (y & Hy & Hl & E). exists y. split; [assumption|].
    apply filter_In. split; [assumption|]. now apply String.eqb_eq.
Qed.

Lemma max_ids_In rows i :
  In i (max_ids rows)
  <-> exists loc,
      In loc (map (fun r : weather_row => w_location r) rows)
      /\ i = fold_right Z.max 0 (ids_at loc rows).
Proof.
  unfold max_ids. rewrite in_map_iff. split.
  - intros (loc & E & Hl). apply nodup_In in Hl. now exists loc.
  - intros (loc & Hl & E). exists loc. split; [now symmetry|].
    now apply nodup_In.
Qed.

Lemma max_at_location rows c loc :
  ids_ok (map w_id rows) c ->
  In loc (map (fun r : weather_row => w_location r) rows) ->
  exists y, In y rows /\ w_location y = loc
            /\ w_id y = fold_right Z.max 0 (ids_at loc rows).
Proof.
  intros (_ & _ & Hpos) Hloc.
  apply ids_at_In. apply fold_max_In.
  - apply in_map_iff in Hloc. destruct Hloc as (y & E & Hy).
    assert (H : In (w_id y) (ids_at loc rows))
      by (apply ids_at_In; now exists y).
    intros E0. rewrite E0 in H. destruct H.
  - apply Forall_forall. intros i Hi. apply ids_at_In in Hi.
    destruct Hi as (y & Hy & _ & <-).
    rewrite Forall_forall in Hpos.
    assert (H : 0 < w_id y <= c) by (apply Hpos; now apply in_map).
    lia.
Qed.

Lemma selected_is_latest rows c x :
  ids_ok (map w_id rows) c ->
  (In x rows /\ existsb (Z.eqb (w_id x)) (max_ids rows) = true)
  <-> latest_for rows x.
Proof.
  intros Hok. pose proof Hok as (_ & Hnd & _). split.
  - intros [Hx Hsel]. apply existsb_exists in Hsel.
    destruct Hsel as (i & Hi & E). apply Z.eqb_eq in E.
    apply max_ids_In in Hi. destruct Hi as (loc & Hloc & Hmax).
    destruct (max_at_location rows c loc Hok Hloc) as (y & Hy & Hl & Hid).
    assert (y = x).
    { apply (key_injective w_id rows); try assumption. congruence. }
    subst y. split; [assumption|].
    intros z Hz Hzl. rewrite E, Hmax. apply fold_max_ge.
    apply ids_at_In. exists z. repeat split; [assumption|congruence].
  - intros [Hx Hlatest]. split; [assumption|].
    apply existsb_exists.
    assert (Hloc : In (w_location x)
                      (map (fun r : weather_row => w_location r) rows))
      by (apply in_map_iff; now exists x).
    destruct (max_at_location rows c _ Hok Hloc) as (y & Hy & Hl & Hid).
    assert (Hge : w_id x <= fold_right Z.max 0 (ids_at (w_location x) rows)).
    { apply fold_max_ge. apply ids_at_In. now exists x. }
    specialize (Hlatest y Hy Hl).
    exists (w_id x). split; [|apply Z.eqb_refl].
    apply max_ids_In. exists (w_location x). split; [assumption|lia].
Qed.

Lemma by_location_total a b :
  by_location a b = false -> by_location b a = true.
Proof.
  unfold by_location. intros H.
  destruct (String.leb_total (w_location a) (w_location b)) as [E|E];
    congruence.
Qed.

(** X12. On a database that keeps the autoincrement discipline,
    [get_latest_weather] returns exactly the newest row of every location:
    a row is returned precisely when it is stored and no stored row of its
    location has a larger id; the result is ordered by location, holds no
    location twice, and holds every location that has a row. *)
Theorem get_latest_weather_per_location (d : database) :
  db_ok d ->
  (forall x, In x (get_latest_weather d) <-> latest_for (weather_data d) x)
  /\ Sorted location_le (get_latest_weather d)
  /\ NoDup (map (fun r : weather_row => w_location r)
                (get_latest_weather d))
  /\ (forall loc,
         In loc (map (fun r : weather_row => w_location r)
                     (get_latest_weather d))
         <-> In loc (map (fun r : weather_row => w_location r)
                         (weather_data d))).
Proof.
  intros [_ Hok]. pose proof Hok as (_ & Hnd & _).
  assert (Hin : forall x, In x (get_latest_weather d)
                          <-> latest_for (weather_data d) x).
  { intros x. unfold get_latest_weather. rewrite sort_In, filter_In.
    now apply selected_is_latest with (c := weather_seq d). }
  split; [exact Hin|]. split; [|split].
  - unfold get_latest_weather, location_le.
    apply sort_Sorted. exact by_location_total.
  - apply NoDup_map_on.
    + unfold get_latest_weather.
      eapply Permutation_NoDup; [apply sort_Permutation|].
      apply NoDup_filter. eapply NoDup_map_inv. exact Hnd.
    + intros x y Hx Hy E. apply Hin in Hx, Hy.
      destruct Hx as [Hx Lx], Hy as [Hy Ly].
      apply (key_injective w_id (weather_data d)); try assumption.
      specialize (Lx y Hy (eq_sym E)). specialize (Ly x Hx E). lia.
  - intros loc. rewrite !in_map_iff. split.
    + intros (x & E & Hx). apply Hin in Hx. destruct Hx as [Hx _].
      now exists x.
    + intros (x & E & Hx).
      assert (Hloc : In loc (map (fun r : weather_row => w_location r)
                                 (weather_data d)))
        by (apply in_map_iff; now exists x).
      destruct (max_at_location _ _ loc Hok Hloc) as (y & Hy & Hl & Hid).
      exists y. split; [assumption|]. apply Hin. split; [assumption|].
      intros z Hz Hzl. rewrite Hid. apply fold_max_ge.
      apply ids_at_In. exists z. repeat split; [assumption|congruence].
Qed.

Lemma get_latest_weather_per_location_witness :
  map w_id (get_latest_weather weather_of_two_locations) = [2; 3]
  /\ NoDup (map (fun r : weather_row => w_location r)
                (get_latest_weather weather_of_two_locations)).
Proof.
  split; [reflexivity|].
  refine (proj1 (proj2 (proj2 (get_latest_weather_per_location _ _)))).
  split; (split; [simpl; lia|]); split;
    repeat constructor; simpl; intuition (try discriminate; try lia).
Defined.

End LatestWeather.

(* ================================================================== *)
(** * Further properties of the generator *)
(* ================================================================== *)

Section BackfillDays.

Import DataGenerator.

Lemma next_day_before (now : datetime) (n : nat) :
  Datetime.add_days (Datetime.add_days now (- Z.of_nat (S n))) 1
  = Datetime.add_days now (- Z.of_nat n).
Proof.
  destruct now as [o h m s us]. unfold Datetime.add_days.
  cbn [ordinal dt_hour dt_minute dt_second dt_microsecond].
  f_equal. lia.
Qed.

Lemma days_before_length {K : Type} (per_day : Z -> list K) last n len :
  (forall day, List.length (per_day day) = len) ->
  List.length (days_before per_day last n) = (n * len)%nat.
Proof.
  intros H. induction n as [|n IH]; [reflexivity|].
  cbn [days_before]. rewrite length_app, H, IH. lia.
Qed.

(** The outer loop with [n] days to go: every day adds its slots, and a
    batch above 5000 records is written out and emptied. *)
Lemma day_loop_days (cfg : settings) (now : datetime) (total : Z) :
  cfg_DATA_INTERVAL_MINUTES cfg = 5 ->
  total <> 0 ->
  forall (n fuel : nat) b w,
    (289 + n <= fuel)%nat ->
    exists b' w' flushed,
      day_loop fuel cfg now total
               (Datetime.add_days now (- Z.of_nat n)) b w = Ok b' w'
      /\ traffic_data (db w') = traffic_data (db w) ++ flushed
      /\ weather_data (db w') = weather_data (db w)
      /\ map traffic_key (map t_record flushed ++ traffic_batch b')
         = map traffic_key (traffic_batch b)
           ++ days_before
                (fun day =>
                   slot_keys day (map fst (cfg_LOCATIONS cfg)) 0 288)
                (ordinal now) n
      /\ map weather_key (weather_batch b')
         = map weather_key (weather_batch b)
           ++ days_before
                (fun day => hourly_keys day (map fst (cfg_LOCATIONS cfg)))
                (ordinal now) n.
Proof.
  intros Hstep Htotal.
  induction n as [|n IH]; intros fuel b w Hfuel.
  - destruct fuel as [|fuel]; [lia|].
    cbn [day_loop].
    replace (Datetime.add_days now (- Z.of_nat 0)) with now
      by (destruct now; unfold Datetime.add_days; simpl; f_equal; lia).
    rewrite ltb_irrefl.
    exists b, w, []. cbn [days_before map app].
    rewrite !app_nil_r. repeat split.
  - destruct fuel as [|fuel]; [lia|].
    cbn [day_loop].
    rewrite ltb_earlier_day
      by (unfold Datetime.add_days; cbn [ordinal]; lia).
    set (day := ordinal now - Z.of_nat (S n)).
    destruct (slot_loop_run cfg now day (dt_microsecond now)
                (Datetime.weekday
                   (Datetime.add_days now (- Z.of_nat (S n))))
                total Hstep ltac:(subst day; lia) Htotal
                288%nat 0%nat (S fuel) [] b w eq_refl ltac:(lia))
      as (b1 & w1 & Hrun & Hd1 & Ht1 & Hw1 & _).
    change (slot_at day (dt_microsecond now) (5 * Z.of_nat 0))
      with (Datetime.replace_hms
              (Datetime.add_days now (- Z.of_nat (S n))) 0 0 0)
      in Hrun.
    change (mkdatetime day 23 59 59 (dt_microsecond now))
      with (Datetime.replace_hms
              (Datetime.add_days now (- Z.of_nat (S n))) 23 59 59)
      in Hrun.
    rewrite (bind_ok _ _ _ _ _ Hrun).
    rewrite hour_keys_whole_day in Hw1.
    rewrite next_day_before.
    destruct (Z.of_nat (List.length (traffic_batch b1)) >? 5000) eqn:E.
    + set (w2 := mkworld (rng_draws w1) (rng_pos w1) (clock w1)
                         (clock_pos w1) (net w1) (net_pos w1)
                         (TrafficDatabase.insert_traffic_data
                            (traffic_batch b1) (db w1))).
      set (b2 := mkbatches [] (weather_batch b1) (count b1)).
      match goal with
      | |- context [bind ?m ?k w1] =>
          rewrite (bind_ok m k w1 b2 w2 eq_refl)
      end.
      destruct (IH fuel b2 w2 ltac:(lia))
        as (b' & w' & flushed & H & Hdt & Hdw & Ht & Hw).
      exists b', w',
        (TrafficDatabase.number_from mktraffic_row
           (traffic_seq (db w1) + 1) (traffic_batch b1) ++ flushed).
      split; [exact H|].
      subst w2 b2. cbn [db traffic_batch weather_batch map app] in *.
      rewrite insert_traffic_data_appends in Hdt.
      rewrite insert_traffic_data_weather in Hdw.
      rewrite Hd1 in *.
      split; [now rewrite Hdt, app_assoc|].
      split; [exact Hdw|]. split.
      * rewrite (map_app t_record), number_from_records, <- app_assoc.
        rewrite (map_app traffic_key (traffic_batch b1)), Ht, Ht1.
        cbn [days_before]. now rewrite <- app_assoc.
      * rewrite Hw, Hw1. cbn [days_before]. now rewrite <- app_assoc.
    + match goal with
      | |- context [bind ?m ?k w1] =>
          rewrite (bind_ok m k w1 b1 w1 eq_refl)
      end.
      destruct (IH fuel b1 w1 ltac:(lia))
        as (b' & w' & flushed & H & Hdt & Hdw & Ht & Hw).
      exists b', w', flushed.
      split; [exact H|]. rewrite Hd1 in *.
      split; [exact Hdt|]. split; [exact Hdw|]. split.
      * rewrite Ht, Ht1. cbn [days_before]. now rewrite <- app_assoc.
      * rewrite Hw, Hw1. cbn [days_before]. now rewrite <- app_assoc.
Qed.

Lemma firstn_add_skipn {A : Type} (a b : nat) (l : list A) :
  firstn (a + b) l = firstn a l ++ firstn b (skipn a l).
Proof.
  revert l. induction a as [|a IH]; intros l; [reflexivity|].
  destruct l as [|x l]; simpl.
  - now rewrite firstn_nil.
  - now rewrite IH.
Qed.

(** The weather records are written in chunks of [size]; together the
    chunks are the batch. *)
Lemma weather_chunks_run (size : nat) (wb : list weather_record) :
  Forall storable wb ->
  forall (c s : nat) w,
  exists w' rows,
    for_each (range_from s size c)
             (fun i _ =>
                db_do (TrafficDatabase.insert_weather_batch
                         (firstn size (skipn i wb))))
             tt w = Ok tt w'
    /\ traffic_data (db w') = traffic_data (db w)
    /\ weather_data (db w') = weather_data (db w) ++ rows
    /\ map w_record rows = firstn (c * size) (skipn s wb).
Proof.
  intros Hst.
  induction c as [|c IH]; intros s w.
  - exists w, []. cbn [range_from for_each]. rewrite app_nil_r.
    repeat split.
  - cbn [range_from for_each].
    assert (Hbind : TrafficDatabase.bind_batch (firstn size (skipn s wb))
                    = None).
    { apply bind_batch_storable. now apply Forall_chunk. }
    unfold bind at 1, db_do at 1,
      TrafficDatabase.insert_weather_batch at 1.
    rewrite Hbind.
    match goal with
    | |- context [for_each _ _ tt ?w1] =>
        destruct (IH (s + size)%nat w1) as (w' & rows & H & Hdt & Hdw & Hr)
    end.
    exists w',
      (TrafficDatabase.number_from mkweather_row (weather_seq (db w) + 1)
         (firstn size (skipn s wb)) ++ rows).
    split; [exact H|]. cbn [db traffic_data weather_data] in Hdt, Hdw.
    split; [exact Hdt|]. split; [now rewrite Hdw, app_assoc|].
    rewrite map_app, number_from_weather, Hr.
    change (S c * size)%nat with (size + c * size)%nat.
    rewrite firstn_add_skipn, skipn_skipn.
    now rewrite (Nat.add_comm size s).
Qed.

Lemma chunks_cover (n size : nat) :
  (0 < size)%nat -> (n <= (n + (size - 1)) / size * size)%nat.
Proof.
  intros Hs.
  pose proof (Nat.div_mod_eq (n + (size - 1)) size) as E.
  pose proof (Nat.mod_upper_bound (n + (size - 1)) size ltac:(lia)) as B.
  rewrite (Nat.mul_comm _ size). lia.
Qed.

(** What is left in the batch after the last day is written out. *)
Lemma final_flush_run (tb : list traffic_record) w :
  exists w',
    (match tb with
     | [] => ret tt
     | _ :: _ => with_db (TrafficDatabase.insert_traffic_data tb)
     end) w = Ok tt w'
    /\ db w' = TrafficDatabase.insert_traffic_data tb (db w).
Proof.
  destruct tb as [|r rest].
  - exists w. split; reflexivity.
  - eexists. split; reflexivity.
Qed.

(** The whole backfill over [days >= 1] days. *)
Lemma backfill_run (cfg : settings) (w : world)
        (fuel : nat) :
  1 <= cfg_HISTORICAL_DAYS cfg ->
  cfg_DATA_INTERVAL_MINUTES cfg = 5 ->
  cfg_LOCATIONS cfg <> [] ->
  (289 + Z.to_nat (cfg_HISTORICAL_DAYS cfg) <= fuel)%nat ->
  exists w' new_traffic new_weather,
    generate_historical_data fuel cfg w = Ok tt w'
    /\ traffic_data (db w') = traffic_data (db w) ++ new_traffic
    /\ weather_data (db w') = weather_data (db w) ++ new_weather
    /\ map (fun r : traffic_row => traffic_key r) new_traffic
       = days_before
           (fun day => slot_keys day (map fst (cfg_LOCATIONS cfg)) 0 288)
           (ordinal (clock w (clock_pos w)))
           (Z.to_nat (cfg_HISTORICAL_DAYS cfg))
    /\ map (fun r : weather_row => weather_key r) new_weather
       = days_before
           (fun day => hourly_keys day (map fst (cfg_LOCATIONS cfg)))
           (ordinal (clock w (clock_pos w)))
           (Z.to_nat (cfg_HISTORICAL_DAYS cfg))
    /\ Z.of_nat (List.length new_traffic)
       = cfg_HISTORICAL_DAYS cfg * 288
         * Z.of_nat (List.length (cfg_LOCATIONS cfg))
    /\ Z.of_nat (List.length new_weather)
       = cfg_HISTORICAL_DAYS cfg * 24
         * Z.of_nat (List.length (cfg_LOCATIONS cfg)).
Proof.
  intros Hdays Hstep Hlocs Hfuel.
  remember (Z.to_nat (cfg_HISTORICAL_DAYS cfg)) as n eqn:En.
  assert (Hn : cfg_HISTORICAL_DAYS cfg = Z.of_nat n) by lia.
  assert (Hlen : (0 < List.length (cfg_LOCATIONS cfg))%nat).
  { destruct (cfg_LOCATIONS cfg); [congruence|simpl; lia]. }
  unfold generate_historical_data.
  rewrite (bind_ok datetime_now _ w _ _ eq_refl).
  set (now := clock w (clock_pos w)).
  set (w0 := mkworld _ _ _ _ _ _ _).
  rewrite Hstep, Hn.
  rewrite (bind_ok (floordiv (24 * 60) 5) _ w0 288 w0 eq_refl).
  assert (Htotal : Z.of_nat n * 288
                   * Z.of_nat (List.length (cfg_LOCATIONS cfg)) <> 0).
  { apply Z.neq_mul_0. split; lia. }
  destruct (day_loop_days cfg now _ Hstep Htotal n fuel
                          (mkbatches [] [] 0) w0 Hfuel)
    as (b & w1 & flushed & Hrun & Hdt1 & Hdw1 & Ht & Hw).
  rewrite (bind_ok _ _ _ _ _ Hrun).
  cbn [traffic_batch weather_batch map app] in Ht, Hw.
  destruct (final_flush_run (traffic_batch b) w1) as (w2 & Hflush & Hd2).
  match goal with
  | |- context [bind ?m ?k w1] => rewrite (bind_ok m k w1 tt w2 Hflush)
  end.
  cbv zeta. unfold range_step.
  assert (Hst : Forall storable (weather_batch b)).
  { apply (day_loop_storable _ _ _ _ _ _ _ _ _ Hrun). constructor. }
  destruct (weather_chunks_run
              1000 (weather_batch b) Hst
              ((List.length (weather_batch b) + (1000 - 1)) / 1000) 0 w2)
    as (w3 & rows & Hchunks & Hdt3 & Hdw3 & Hrows).
  match goal with
  | |- context [bind ?m ?k w2] => rewrite (bind_ok m k w2 tt w3 Hchunks)
  end.
  unfold bind, read_db, ret.
  rewrite firstn_all2 in Hrows
    by (cbn [skipn]; apply chunks_cover; lia).
  cbn [skipn] in Hrows.
  exists w3,
    (flushed ++ TrafficDatabase.number_from
                  mktraffic_row (traffic_seq (db w1) + 1)
                  (traffic_batch b)),
    rows.
  split; [reflexivity|].
  rewrite Hd2, insert_traffic_data_appends in Hdt3.
  rewrite Hd2, insert_traffic_data_weather in Hdw3.
  assert (Hkt : map (fun r : traffic_row => traffic_key r)
                    (flushed ++ TrafficDatabase.number_from
                                  mktraffic_row (traffic_seq (db w1) + 1)
                                  (traffic_batch b))
                = days_before
                    (fun day =>
                       slot_keys day (map fst (cfg_LOCATIONS cfg)) 0 288)
                    (ordinal now) n).
  { rewrite <- Ht, <- (map_map t_record traffic_key).
    now rewrite (map_app t_record), number_from_records. }
  assert (Hkw : map (fun r : weather_row => weather_key r) rows
                = days_before
                    (fun day =>
                       hourly_keys day (map fst (cfg_LOCATIONS cfg)))
                    (ordinal now) n).
  { now rewrite <- Hw, <- (map_map w_record weather_key), Hrows. }
  split; [now rewrite Hdt3, Hdt1, app_assoc|].
  split; [now rewrite Hdw3, Hdw1|].
  split; [exact Hkt|]. split; [exact Hkw|]. split.
  - rewrite <- (length_map (fun r : traffic_row => traffic_key r)), Hkt.
    rewrite (days_before_length _ _ _
               (288 * List.length (cfg_LOCATIONS cfg))%nat)
      by (intros day; now rewrite slot_keys_length, length_map).
    lia.
  - rewrite <- (length_map (fun r : weather_row => weather_key r)), Hkw.
    rewrite (days_before_length _ _ _
               (24 * List.length (cfg_LOCATIONS cfg))%nat)
      by (intros day; now rewrite hourly_keys_length, length_map).
    lia.
Qed.

(** X13. A backfill of [days >= 1] days at a five-minute interval over a
    non-empty list of locations completes, given fuel for the loop tests,
    whatever the clock, the draws and the database hold.  It covers the
    [days] whole days that end the day before [now], never today; it
    stores one traffic row per five-minute slot and location and one
    weather row per hour and location, so
    [days * 288 * len(LOCATIONS)] traffic rows and
    [days * 24 * len(LOCATIONS)] weather rows, whether or not batches
    were written out on the way. *)
Theorem backfill_covers_whole_days (cfg : settings) (w : world)
        (fuel : nat) :
  1 <= cfg_HISTORICAL_DAYS cfg ->
  cfg_DATA_INTERVAL_MINUTES cfg = 5 ->
  cfg_LOCATIONS cfg <> [] ->
  (289 + Z.to_nat (cfg_HISTORICAL_DAYS cfg) <= fuel)%nat ->
  exists w' new_traffic new_weather,
    generate_historical_data fuel cfg w = Ok tt w'
    /\ traffic_data (db w') = traffic_data (db w) ++ new_traffic
    /\ weather_data (db w') = weather_data (db w) ++ new_weather
    /\ map (fun r : traffic_row => traffic_key r) new_traffic
       = days_before
           (fun day => slot_keys day (map fst (cfg_LOCATIONS cfg)) 0 288)
           (ordinal (clock w (clock_pos w)))
           (Z.to_nat (cfg_HISTORICAL_DAYS cfg))
    /\ map (fun r : weather_row => weather_key r) new_weather
       = days_before
           (fun day => hourly_keys day (map fst (cfg_LOCATIONS cfg)))
           (ordinal (clock w (clock_pos w)))
           (Z.to_nat (cfg_HISTORICAL_DAYS cfg))
    /\ Z.of_nat (List.length new_traffic)
       = cfg_HISTORICAL_DAYS cfg * 288
         * Z.of_nat (List.length (cfg_LOCATIONS cfg))
    /\ Z.of_nat (List.length new_weather)
       = cfg_HISTORICAL_DAYS cfg * 24
         * Z.of_nat (List.length (cfg_LOCATIONS cfg)).
Proof. exact (backfill_run cfg w fuel). Qed.

Lemma backfill_covers_whole_days_witness :
  exists w',
    generate_historical_data 319 repo_settings offline_world = Ok tt w'
    /\ TrafficDatabase.get_traffic_count (db w') = 43200
    /\ TrafficDatabase.get_weather_count (db w') = 3600.
Proof.
  destruct (backfill_covers_whole_days
              repo_settings offline_world 319
              ltac:(vm_compute; discriminate) eq_refl
              ltac:(discriminate) ltac:(vm_compute; apply le_n))
    as (w' & nt & nw & Hrun & Ht & Hw & _ & _ & Hnt & Hnw).
  exists w'. split; [exact Hrun|].
  unfold TrafficDatabase.get_traffic_count,
    TrafficDatabase.get_weather_count.
  rewrite Ht, Hw.
  change (traffic_data (db offline_world)) with (@nil traffic_row).
  change (weather_data (db offline_world)) with (@nil weather_row).
  cbn [app]. rewrite Hnt, Hnw. split; reflexivity.
Defined.

End BackfillDays.

Section BackfillEdges.

Import DataGenerator.

Lemma ltb_not_earlier (now : datetime) (k : Z) :
  0 <= k -> Datetime.ltb (Datetime.add_days now k) now = false.
Proof.
  intros Hk. destruct now as [o h m s us].
  unfold Datetime.ltb, Datetime.compare, Datetime.key, Datetime.add_days.
  cbn [ordinal dt_hour dt_minute dt_second dt_microsecond
       Datetime.lex_compare].
  destruct (Z.compare_spec (o + k) o) as [E|E|E]; [|lia|reflexivity].
  now rewrite !Z.compare_refl.
Qed.

Lemma floordiv_run (a b : Z) (w : world) :
  b <> 0 -> floordiv a b w = Ok (a / b) w.
Proof.
  intros Hb. unfold floordiv.
  destruct (Z.eqb_spec b 0) as [E|E]; [contradiction|reflexivity].
Qed.

(** X14. With [HISTORICAL_DAYS] at zero or below and a non-zero interval
    the backfill has nothing to do: it returns without a single random
    draw and leaves both tables as they were. *)
Theorem backfill_without_days (cfg : settings) (w : world) (fuel : nat) :
  cfg_HISTORICAL_DAYS cfg <= 0 ->
  cfg_DATA_INTERVAL_MINUTES cfg <> 0 ->
  (1 <= fuel)%nat ->
  exists w',
    generate_historical_data fuel cfg w = Ok tt w'
    /\ db w' = db w
    /\ rng_pos w' = rng_pos w.
Proof.
  intros Hdays Hstep Hfuel.
  destruct fuel as [|fuel]; [lia|].
  unfold generate_historical_data.
  rewrite (bind_ok datetime_now _ w _ _ eq_refl).
  rewrite (bind_ok _ _ _ _ _ (floordiv_run _ _ _ Hstep)).
  cbn [day_loop].
  rewrite ltb_not_earlier by lia.
  eexists. split; [reflexivity|]. split; reflexivity.
Qed.

Lemma backfill_without_days_witness :
  exists w',
    generate_historical_data 1 (mksettings Config.LOCATIONS 0 5)
                             offline_world = Ok tt w'
    /\ db w' = TrafficDatabase.empty.
Proof.
  destruct (backfill_without_days
              (mksettings Config.LOCATIONS 0 5) offline_world 1
              ltac:(simpl; lia) ltac:(simpl; lia) (le_n 1))
    as (w' & Hrun & Hd & _).
  exists w'. split; [exact Hrun|exact Hd].
Defined.

(** The first slot of a backfill without locations: the weather of the
    hour is simulated, no record is added, and the progress report
    divides by an expected total of zero. *)
Lemma slot_loop_no_locations (cfg : settings) (now start : datetime)
      (fuel : nat) (dow : Z) (w : world) :
  cfg_LOCATIONS cfg = [] ->
  ordinal start < ordinal now ->
  exists w',
    slot_loop (S fuel) cfg now (Datetime.replace_hms start 23 59 59) dow 0
              (Datetime.replace_hms start 0 0 0) [] (mkbatches [] [] 0) w
    = Raise Py.ZeroDivisionError w'
    /\ db w' = db w.
Proof.
  intros Hlocs Hday.
  cbn [slot_loop].
  assert (Hle : Datetime.leb (Datetime.replace_hms start 0 0 0)
                             (Datetime.replace_hms start 23 59 59) = true).
  { exact (slot_before_end_of_day (ordinal start) (dt_microsecond start) 0
             ltac:(lia)). }
  rewrite Hle, ltb_earlier_day by exact Hday.
  cbn [andb].
  destruct (weather_cache_run
              [] (dt_hour (Datetime.replace_hms start 0 0 0)) dow w)
    as (cache' & sw & w1 & H1 & Hd1 & Hsw).
  rewrite (bind_ok _ _ _ _ _ H1). rewrite Hsw.
  rewrite Hlocs. cbn [map for_each].
  exists w1. split; [reflexivity|exact Hd1].
Qed.

(** X15. Two configurations make the backfill end in
    [ZeroDivisionError] before anything is stored: an interval of zero
    minutes, at the computation of the expected total, and an empty list
    of locations with at least one day to cover, at the first progress
    report, where zero records are divided by an expected total of
    zero. *)
Theorem backfill_division_by_zero (cfg : settings) (w : world)
        (fuel : nat) :
  cfg_DATA_INTERVAL_MINUTES cfg = 0
  \/ (cfg_LOCATIONS cfg = [] /\ 1 <= cfg_HISTORICAL_DAYS cfg
      /\ (1 <= fuel)%nat) ->
  exists w',
    generate_historical_data fuel cfg w = Raise Py.ZeroDivisionError w'
    /\ db w' = db w.
Proof.
  intros H.
  unfold generate_historical_data.
  rewrite (bind_ok datetime_now _ w _ _ eq_refl).
  set (now := clock w (clock_pos w)).
  set (w0 := mkworld _ _ _ _ _ _ _).
  destruct (Z.eq_dec (cfg_DATA_INTERVAL_MINUTES cfg) 0) as [E|E].
  - rewrite E. exists w0. split; reflexivity.
  - destruct H as [H|(Hlocs & Hdays & Hfuel)]; [contradiction|].
    rewrite (bind_ok _ _ _ _ _ (floordiv_run _ _ _ E)).
    destruct fuel as [|fuel]; [lia|].
    cbn [day_loop].
    rewrite ltb_earlier_day
      by (unfold Datetime.add_days; cbn [ordinal]; lia).
    rewrite Hlocs. cbn [List.length Z.of_nat]. rewrite Z.mul_0_r.
    destruct (slot_loop_no_locations
                cfg now
                (Datetime.add_days now (- cfg_HISTORICAL_DAYS cfg)) fuel
                (Datetime.weekday
                   (Datetime.add_days now (- cfg_HISTORICAL_DAYS cfg)))
                w0 Hlocs
                ltac:(unfold Datetime.add_days; cbn [ordinal]; lia))
      as (w1 & Hrun & Hd).
    exists w1. unfold bind. rewrite Hrun. split; [reflexivity|exact Hd].
Qed.

Lemma backfill_division_by_zero_witness :
  (exists w',
      generate_historical_data 0 (mksettings Config.LOCATIONS 30 0)
                               offline_world
      = Raise Py.ZeroDivisionError w')
  /\ (exists w',
         generate_historical_data 1 (mksettings [] 30 5) offline_world
         = Raise Py.ZeroDivisionError w').
Proof.
  split.
  - destruct (backfill_division_by_zero
                (mksettings Config.LOCATIONS 30 0) offline_world 0
                (or_introl eq_refl)) as (w' & Hrun & _).
    exists w'. exact Hrun.
  - assert (H : 1 <= cfg_HISTORICAL_DAYS (mksettings [] 30 5))
      by (simpl; lia).
    destruct (backfill_division_by_zero
                (mksettings [] 30 5) offline_world 1
                (or_intror (conj eq_refl (conj H (le_n 1)))))
      as (w' & Hrun & _).
    exists w'. exact Hrun.
Defined.

End BackfillEdges.

Section HistoricalWeather.

Import DataGenerator.

Lemma uniform_within (a b d : Q) :
  (0 <= d < 1)%Q -> (a <= b)%Q -> (a <= a + (b - a) * d <= b)%Q.
Proof. intros Hd Hab. split; nra. Qed.

Lemma round_within (a b x : Q) (n : nat) :
  (a <= x <= b)%Q ->
  (Py.round a n == a)%Q -> (Py.round b n == b)%Q ->
  (a <= Py.round x n <= b)%Q.
Proof.
  intros [H1 H2] Ea Eb. split.
  - rewrite <- Ea. now apply round_monotone.
  - rewrite <- Eb. now apply round_monotone.
Qed.

Lemma round_uniform_within (a b d : Q) (n : nat) :
  (0 <= d < 1)%Q -> (a <= b)%Q ->
  (Py.round a n == a)%Q -> (Py.round b n == b)%Q ->
  (a <= Py.round (a + (b - a) * d) n <= b)%Q.
Proof.
  intros Hd Hab Ea Eb.
  apply round_within; [now apply uniform_within|assumption|assumption].
Qed.

(** X16. Whatever the hour and the day, an hour of simulated weather has
    a category that is a key of [RAIN_IMPACT], a precipitation within the
    range of that category (exactly zero when it does not rain) and a
    temperature between 24 and 33 degrees; it takes two to four random
    draws and leaves the database alone. *)
Theorem simulate_historical_weather_ranges (hour dow : Z) (w : world) :
  unit_draws w ->
  exists sw w',
    simulate_historical_weather hour dow w = Ok sw w'
    /\ simulated_ok sw
    /\ db w' = db w
    /\ (rng_pos w + 2 <= rng_pos w' <= rng_pos w + 4)%nat.
Proof.
  intros Hd.
  unfold simulate_historical_weather, bind, random, uniform, ret, bind,
    random; cbn [rng_draws rng_pos clock clock_pos net net_pos db].
  repeat match goal with
         | |- context [if ?c then _ else _] => destruct c
         end;
    (eexists _, _; split; [reflexivity|]);
    cbn [rng_draws rng_pos clock clock_pos net net_pos db];
    (split; [|split; [reflexivity|lia]]);
    unfold simulated_ok;
    cbn [sw_rain_category sw_precipitation sw_temperature];
    (split; [simpl; tauto|]);
    (split;
     [eexists _, _; split; [reflexivity|];
      first [ split; apply Qle_refl
            | apply round_uniform_within;
              [apply Hd|discriminate|reflexivity|reflexivity] ]
     |]);
    match goal with
    | |- (_ <= Py.round (?a + (?b - ?a) * ?d) 1 <= _)%Q =>
        assert (Hr : (a <= Py.round (a + (b - a) * d) 1 <= b)%Q)
          by (apply round_uniform_within;
              [apply Hd|discriminate|reflexivity|reflexivity]);
        destruct Hr as [Hr1 Hr2]; split;
        [eapply Qle_trans; [|exact Hr1]; discriminate
        |eapply Qle_trans; [exact Hr2|]; discriminate]
    end.
Qed.

Lemma simulate_historical_weather_ranges_witness :
  exists sw w',
    simulate_historical_weather 7 0 offline_world = Ok sw w'
    /\ sw_rain_category sw = "moderate"
    /\ simulated_ok sw.
Proof.
  assert (H : unit_draws offline_world).
  { intros n. split; simpl; [discriminate|reflexivity]. }
  destruct (simulate_historical_weather_ranges 7 0 offline_world H)
    as (sw & w' & Hrun & Hok & _).
  exists sw, w'. split; [exact Hrun|]. split; [|exact Hok].
  vm_compute in Hrun. injection Hrun as <- _. reflexivity.
Defined.

End HistoricalWeather.

Section GeneratedRecords.

Import DataGenerator.

Lemma peak_test_is_engine (h : Z) :
  peak_test h = TrafficEngine.is_peak_hour h.
Proof.
  unfold peak_test, TrafficEngine.is_peak_hour.
  cbn [Config.b_start Config.b_end Config.PEAK_MORNING
       Config.PEAK_EVENING].
  destruct (Z.leb_spec 6 h), (Z.leb_spec h 8), (Z.ltb_spec h 9),
    (Z.leb_spec 16 h), (Z.leb_spec h 18), (Z.ltb_spec h 19);
    try reflexivity; lia.
Qed.

Lemma int_between (q lo hi : Q) :
  (0 <= lo)%Q -> (lo <= q <= hi)%Q -> Qfloor lo <= Py.int q <= Qfloor hi.
Proof.
  intros H0 [H1 H2].
  rewrite int_is_floor by (now apply Qle_trans with lo).
  split; now apply Qfloor_resp_le.
Qed.

Lemma unit_draws_kept (w w' : world) :
  rng_draws w' = rng_draws w -> unit_draws w -> unit_draws w'.
Proof. unfold unit_draws. now intros ->. Qed.

(** One record of the backfill, with draws in [0, 1). *)
Lemma traffic_step_facts ct dow weather loc b w :
  unit_draws w ->
  exists r w',
    traffic_step ct dow weather loc b w
    = Ok (mkbatches (traffic_batch b ++ [r]) (weather_batch b)
                    (count b + 1)) w'
    /\ db w' = db w
    /\ rng_draws w' = rng_draws w
    /\ generated_record_ok r.
Proof.
  intros Hd.
  pose proof (Hd (rng_pos w)) as Hd1.
  pose proof (Hd (S (rng_pos w))) as Hd2.
  pose proof (rain_impact_at_least_one (sw_rain_category weather)) as Hr1.
  pose proof (rain_impact_at_most_two (sw_rain_category weather)) as Hr2.
  pose proof (vehicle_pattern_bounds (dt_hour ct)) as Hbase.
  unfold traffic_step.
  rewrite (bind_ok _ _ _ _ _ (uniform_run _ _ w)).
  set (rf := Py.get String.eqb Config.RAIN_IMPACT
                    (sw_rain_category weather) 1%Q) in *.
  set (base := Py.get Z.eqb Config.VEHICLE_PATTERN (dt_hour ct) 100) in *.
  set (lv := ((8 # 10) + ((12 # 10) - (8 # 10))
                         * rng_draws w (rng_pos w))%Q).
  assert (Hb : (30 <= inject_Z base <= 420)%Q).
  { split; [change 30%Q with (inject_Z 30)
           |change 420%Q with (inject_Z 420)];
      rewrite <- Zle_Qle; lia. }
  assert (Hlv : (8 # 10 <= lv <= 12 # 10)%Q) by (unfold lv; lra).
  assert (Hp1 : (24 <= inject_Z base * lv <= 504)%Q) by (split; nra).
  assert (Hrf : ~ (rf == 0)%Q) by lra.
  assert (Hband : forall v, 14 <= v <= 1108 ->
                    first_band Config.TRAFFIC_THRESHOLDS v
                    = Some (get_condition v)).
  { intros v Hv. unfold get_condition.
    rewrite first_band_thresholds. split_bands; solve [reflexivity | lia]. }
  assert (Hcount : forall dv : Q,
             (6 # 10 <= dv <= 11 # 10)%Q ->
             14 <= Py.int (inject_Z base * lv * dv * rf) <= 1108).
  { intros dv Hdv.
    assert (Hp2 : (144 # 10 <= inject_Z base * lv * dv <= 5544 # 10)%Q)
      by (split; nra).
    change 14 with (Qfloor (144 # 10)).
    change 1108 with (Qfloor (11088 # 10)).
    apply int_between; [lra|split; nra]. }
  match goal with
  | |- context [bind (if ?c then _ else _)] => destruct c
  end;
    rewrite (bind_ok _ _ _ _ _ (uniform_run _ _ _));
    cbn [rng_draws rng_pos clock clock_pos net net_pos db];
    match goal with
    | |- context [calculate_speed ?v rf] =>
        rewrite (bind_ok _ _ _ _ _ (engine_speed_run v rf _ Hrf));
        assert (Hv : 14 <= v <= 1108) by (apply Hcount; lra)
    end;
    unfold ret; eexists _, _; (split; [reflexivity|]);
    cbn [rng_draws rng_pos clock clock_pos net net_pos db];
    (split; [reflexivity|]); (split; [reflexivity|]);
    unfold generated_record_ok;
    cbn [hour timestamp vehicle_count condition is_peak speed_kmh
         rain_factor data_source Datetime.strftime dt_hour];
    (split; [reflexivity|]); (split; [exact Hv|]);
    (split; [reflexivity|]); (split; [now apply Hband|]);
    (split; [now rewrite peak_test_is_engine|]);
    (split; [apply round_one_decimal_bounds, clamp_bounds|]);
    (split; [split; assumption|reflexivity]).
Qed.

Lemma traffic_loop_facts ct dow weather names b w :
  unit_draws w ->
  Forall generated_record_ok (traffic_batch b) ->
  exists b' w',
    for_each names (traffic_step ct dow weather) b w = Ok b' w'
    /\ db w' = db w
    /\ rng_draws w' = rng_draws w
    /\ Forall generated_record_ok (traffic_batch b').
Proof.
  revert b w. induction names as [|loc rest IH]; intros b w Hd Hb.
  - exists b, w. repeat split. exact Hb.
  - destruct (traffic_step_facts ct dow weather loc b w Hd)
      as (r & w1 & H1 & Hd1 & Hr1 & Hok).
    cbn [for_each]. rewrite (bind_ok _ _ _ _ _ H1).
    destruct (IH (mkbatches (traffic_batch b ++ [r]) (weather_batch b)
                            (count b + 1)) w1
                 (unit_draws_kept _ _ Hr1 Hd))
      as (b' & w' & H2 & Hd2 & Hr2 & Hb').
    { cbn [traffic_batch]. apply Forall_app. split; [exact Hb|].
      now constructor. }
    exists b', w'. split; [exact H2|].
    split; [congruence|]. split; [congruence|exact Hb'].
Qed.

Lemma weather_step_facts ct weather loc b w :
  exists r w',
    weather_step ct weather loc b w
    = Ok (mkbatches (traffic_batch b) (weather_batch b ++ [r])
                    (count b)) w'
    /\ db w' = db w
    /\ rng_draws w' = rng_draws w.
Proof.
  unfold weather_step.
  rewrite (bind_ok _ _ _ _ _ (uniform_run _ _ w)). unfold ret.
  eexists _, _. repeat split.
Qed.

Lemma weather_loop_facts ct weather names b w :
  exists b' w',
    for_each names (weather_step ct weather) b w = Ok b' w'
    /\ db w' = db w
    /\ rng_draws w' = rng_draws w
    /\ traffic_batch b' = traffic_batch b.
Proof.
  revert b w. induction names as [|loc rest IH]; intros b w.
  - exists b, w. repeat split.
  - destruct (weather_step_facts ct weather loc b w)
      as (r & w1 & H1 & Hd1 & Hr1).
    cbn [for_each]. rewrite (bind_ok _ _ _ _ _ H1).
    destruct (IH (mkbatches (traffic_batch b) (weather_batch b ++ [r])
                            (count b)) w1)
      as (b' & w' & H & Hd & Hr & Ht).
    exists b', w'. split; [exact H|].
    cbn [traffic_batch] in Ht.
    split; [congruence|]. split; [congruence|exact Ht].
Qed.

Lemma simulate_historical_weather_oracles hour dow w :
  exists sw w',
    simulate_historical_weather hour dow w = Ok sw w'
    /\ db w' = db w /\ rng_draws w' = rng_draws w.
Proof.
  unfold simulate_historical_weather, bind, random, uniform, ret, bind,
    random; cbn [rng_draws rng_pos clock clock_pos net net_pos db].
  repeat match goal with
         | |- context [if ?c then _ else _] => destruct c
         end;
    eexists _, _; repeat split; reflexivity.
Qed.

Lemma weather_cache_facts (cache : list (Z * simulated_weather)) hour dow
      w :
  exists cache' sw w',
    (if negb (Py.contains Z.eqb cache hour) then
       x <- simulate_historical_weather hour dow ;;
       ret (Py.set Z.eqb cache hour x)
     else ret cache) w = Ok cache' w'
    /\ db w' = db w
    /\ rng_draws w' = rng_draws w
    /\ Py.lookup Z.eqb hour cache' = Some sw.
Proof.
  unfold Py.contains.
  destruct (Py.lookup Z.eqb hour cache) as [sw|] eqn:E; simpl.
  - exists cache, sw, w. repeat split. exact E.
  - destruct (simulate_historical_weather_oracles hour dow w)
      as (sw & w' & H & Hd & Hr).
    rewrite (bind_ok _ _ _ _ _ H). unfold ret.
    exists (Py.set Z.eqb cache hour sw), sw, w'.
    repeat split; [exact Hd | exact Hr | apply lookup_set_same].
Qed.

(** Whenever the inner loop returns, the batch it returns is
    consistent. *)
Lemma slot_loop_records (cfg : settings) (now eod : datetime)
      (dow total : Z) :
  forall (fuel : nat) ct cache b w b' w',
    unit_draws w ->
    Forall generated_record_ok (traffic_batch b) ->
    slot_loop fuel cfg now eod dow total ct cache b w = Ok b' w' ->
    db w' = db w
    /\ rng_draws w' = rng_draws w
    /\ Forall generated_record_ok (traffic_batch b').
Proof.
  induction fuel as [|fuel IH]; intros ct cache b w b' w' Hd Hb Hrun.
  - discriminate.
  - cbn [slot_loop] in Hrun.
    destruct (Datetime.leb ct eod && Datetime.ltb ct now).
    + destruct (weather_cache_facts cache (dt_hour ct) dow w)
        as (cache' & sw & w1 & H1 & Hd1 & Hr1 & Hsw).
      rewrite (bind_ok _ _ _ _ _ H1) in Hrun. rewrite Hsw in Hrun.
      rewrite (bind_ok _ _ w1 sw w1 eq_refl) in Hrun.
      pose proof (unit_draws_kept _ _ Hr1 Hd) as Hu1.
      destruct (traffic_loop_facts ct dow sw
                  (map fst (cfg_LOCATIONS cfg)) b w1 Hu1 Hb)
        as (b1 & w2 & H2 & Hd2 & Hr2 & Hb1).
      rewrite (bind_ok _ _ _ _ _ H2) in Hrun.
      assert (Hweather :
               exists b2 w3,
                 (if dt_minute ct =? 0
                  then for_each (map fst (cfg_LOCATIONS cfg))
                                (weather_step ct sw) b1
                  else ret b1) w2 = Ok b2 w3
                 /\ db w3 = db w2
                 /\ rng_draws w3 = rng_draws w2
                 /\ traffic_batch b2 = traffic_batch b1).
      { destruct (dt_minute ct =? 0).
        - apply weather_loop_facts.
        - exists b1, w2. repeat split. }
      destruct Hweather as (b2 & w3 & H3 & Hd3 & Hr3 & Ht3).
      rewrite (bind_ok _ _ _ _ _ H3) in Hrun.
      apply bind_inv in Hrun.
      destruct Hrun as ([] & w4 & Hp & Hrun).
      assert (w4 = w3).
      { destruct (count b2 mod 10000 =? 0); [|now injection Hp].
        unfold bind, truediv in Hp.
        destruct (Qeq_bool (inject_Z total) 0); [discriminate|].
        now injection Hp. }
      subst w4.
      apply IH in Hrun.
      * destruct Hrun as (Hd4 & Hr4 & Hb').
        split; [congruence|]. split; [congruence|exact Hb'].
      * apply (unit_draws_kept w). congruence. exact Hd.
      * now rewrite Ht3.
    + injection Hrun as <- <-. repeat split. exact Hb.
Qed.

Lemma number_from_Forall (P : traffic_record -> Prop) n records :
  Forall P records ->
  Forall (fun row : traffic_row => P row)
         (TrafficDatabase.number_from mktraffic_row n records).
Proof.
  intros H. revert n. induction H as [|r rest Hr _ IH]; intros n.
  - constructor.
  - simpl. constructor; [exact Hr|apply IH].
Qed.

Lemma insert_keeps_invariant old records d :
  Forall generated_record_ok records ->
  Forall (generated_or_old old) (traffic_data d) ->
  Forall (generated_or_old old)
         (traffic_data (TrafficDatabase.insert_traffic_data records d)).
Proof.
  intros Hr Hd. rewrite insert_traffic_data_appends.
  apply Forall_app. split; [exact Hd|].
  eapply Forall_impl; [|apply number_from_Forall, Hr].
  intros row H. now right.
Qed.

(** Whenever the outer loop returns, the batch and the table are
    consistent. *)
Lemma day_loop_records (cfg : settings) (now : datetime) (total : Z)
      (old : list traffic_row) :
  forall (fuel : nat) current_date b w b' w',
    backfill_invariant old b w ->
    day_loop fuel cfg now total current_date b w = Ok b' w' ->
    backfill_invariant old b' w'.
Proof.
  induction fuel as [|fuel IH]; intros cd b w b' w' Hinv Hrun.
  - discriminate.
  - cbn [day_loop] in Hrun.
    destruct (Datetime.ltb cd now).
    + apply bind_inv in Hrun. destruct Hrun as (b1 & w1 & Hslot & Hrun).
      destruct Hinv as (Hu & Hb & Hrows).
      apply slot_loop_records in Hslot; [|exact Hu|exact Hb].
      destruct Hslot as (Hd1 & Hr1 & Hb1).
      apply bind_inv in Hrun. destruct Hrun as (b2 & w2 & Hflush & Hrun).
      apply IH in Hrun; [exact Hrun|].
      destruct (Z.of_nat (List.length (traffic_batch b1)) >? 5000).
      * unfold bind, with_db, ret in Hflush.
        injection Hflush as <- <-.
        split; [exact (unit_draws_kept w _ Hr1 Hu)|].
        cbn [traffic_batch db]. split; [constructor|].
        apply insert_keeps_invariant; [exact Hb1|].
        now rewrite Hd1.
      * injection Hflush as <- <-.
        split; [exact (unit_draws_kept w _ Hr1 Hu)|].
        split; [exact Hb1|]. now rewrite Hd1.
    + injection Hrun as <- <-. exact Hinv.
Qed.

(** Whenever the backfill returns, every row of the table is an old one
    or a consistent generated one. *)
Lemma generate_historical_data_records (cfg : settings) (fuel : nat)
      (w w' : world) :
  unit_draws w ->
  generate_historical_data fuel cfg w = Ok tt w' ->
  Forall (generated_or_old (traffic_data (db w))) (traffic_data (db w')).
Proof.
  intros Hu Hrun.
  unfold generate_historical_data in Hrun.
  rewrite (bind_ok datetime_now _ w _ _ eq_refl) in Hrun.
  set (now := clock w (clock_pos w)) in *.
  set (w0 := mkworld _ _ _ _ _ _ _) in *.
  apply bind_inv in Hrun. destruct Hrun as (per_day & w0' & Hdiv & Hrun).
  assert (w0' = w0).
  { unfold floordiv in Hdiv.
    destruct (cfg_DATA_INTERVAL_MINUTES cfg =? 0); [discriminate|].
    now injection Hdiv. }
  subst w0'.
  apply bind_inv in Hrun. destruct Hrun as (b & w1 & Hloop & Hrun).
  assert (Hst : Forall storable (weather_batch b)).
  { apply (day_loop_storable _ _ _ _ _ _ _ _ _ Hloop). constructor. }
  apply (day_loop_records cfg now _ (traffic_data (db w))) in Hloop.
  - destruct Hloop as (Hu1 & Hb & Hrows).
    destruct (final_flush_run (traffic_batch b) w1)
      as (w2 & Hflush & Hd2).
    match type of Hrun with
    | context [bind ?m ?k w1] =>
        rewrite (bind_ok m k w1 tt w2 Hflush) in Hrun
    end.
    cbv zeta in Hrun. unfold range_step in Hrun.
    destruct (weather_chunks_run
                1000 (weather_batch b) Hst
                ((List.length (weather_batch b) + (1000 - 1)) / 1000)
                0 w2)
      as (w3 & rows & Hchunks & Hdt3 & _).
    match type of Hrun with
    | context [bind ?m ?k w2] =>
        rewrite (bind_ok m k w2 tt w3 Hchunks) in Hrun
    end.
    unfold bind, read_db, ret in Hrun. injection Hrun as <-.
    rewrite Hdt3, Hd2. now apply insert_keeps_invariant.
  - split; [exact Hu|]. split; [constructor|].
    subst w0. cbn [db]. apply Forall_forall. intros row H. now left.
Qed.

(** X17. Every row a backfill adds is consistent.  With draws in
    [0, 1), a backfill of at least one day at a five-minute interval
    over a non-empty list of locations completes, and each row of the
    traffic table afterwards is a row that was there before or a
    generated one whose hour is the hour of its timestamp, whose count
    lies between 14 and 1108 and so inside a band of
    [TRAFFIC_THRESHOLDS], whose label and peak flag are the ones the
    live engine gives that count and that hour, whose speed lies in
    [5, 60] and whose rain factor in [1, 2]. *)
Theorem backfill_records_consistent (cfg : settings) (w : world)
        (fuel : nat) :
  unit_draws w ->
  1 <= cfg_HISTORICAL_DAYS cfg ->
  cfg_DATA_INTERVAL_MINUTES cfg = 5 ->
  cfg_LOCATIONS cfg <> [] ->
  (289 + Z.to_nat (cfg_HISTORICAL_DAYS cfg) <= fuel)%nat ->
  exists w',
    generate_historical_data fuel cfg w = Ok tt w'
    /\ forall row,
      In row (traffic_data (db w')) ->
      In row (traffic_data (db w)) \/ generated_record_ok row.
Proof.
  intros Hu Hdays Hstep Hlocs Hfuel.
  destruct (backfill_run cfg w fuel Hdays Hstep Hlocs Hfuel)
    as (w' & _ & _ & Hrun & _).
  exists w'. split; [exact Hrun|].
  pose proof (generate_historical_data_records cfg fuel w w' Hu Hrun)
    as H.
  rewrite Forall_forall in H. exact H.
Qed.

Lemma backfill_records_consistent_witness :
  exists w',
    generate_historical_data 290 two_location_settings offline_world
    = Ok tt w'
    /\ forall row,
      In row (traffic_data (db w')) -> generated_record_ok row.
Proof.
  assert (Hu : unit_draws offline_world).
  { intros n. split; simpl; [discriminate|reflexivity]. }
  assert (Hdays : 1 <= cfg_HISTORICAL_DAYS two_location_settings)
    by (simpl; lia).
  assert (Hfuel : (289 + Z.to_nat
                           (cfg_HISTORICAL_DAYS two_location_settings)
                   <= 290)%nat) by (simpl; lia).
  destruct (backfill_records_consistent
              two_location_settings offline_world 290 Hu Hdays eq_refl
              ltac:(discriminate) Hfuel)
    as (w' & Hrun & H).
  exists w'. split; [exact Hrun|].
  intros row Hrow. destruct (H row Hrow) as [[]|Hok]. exact Hok.
Defined.

End GeneratedRecords.

(* ================================================================== *)
(** * Further properties of the analytics *)
(* ================================================================== *)

Section Grouping.

Import TrafficDatabase.

Context {K : Type} (eqb : K -> K -> bool) (le : K -> K -> bool).
Hypothesis eqb_eq : forall a b, eqb a b = true <-> a = b.

Lemma keys_mem_In (k : K) ks : Np.mem eqb k ks = true <-> In k ks.
Proof.
  unfold Np.mem. rewrite existsb_exists. split.
  - intros (x & Hin & E). apply eqb_eq in E. now subst x.
  - intros Hin. exists k. split; [exact Hin | now apply eqb_eq].
Qed.

Lemma keys_unique_acc_In (k : K) seen xs :
  In k (Np.unique_acc eqb seen xs) <-> In k xs /\ ~ In k seen.
Proof.
  revert seen. induction xs as [|x rest IH]; intros seen; simpl.
  - tauto.
  - destruct (Np.mem eqb x seen) eqn:E.
    + apply keys_mem_In in E. rewrite IH. split.
      * intros [H1 H2]. auto.
      * intros [[->|H1] H2]; [contradiction | auto].
    + assert (Hx : ~ In x seen).
      { intros H. apply keys_mem_In in H. congruence. }
      simpl. rewrite IH. simpl. split.
      * intros [->|[H1 H2]]; [auto|]. split; [auto|]. tauto.
      * intros [[->|H1] H2]; [now left|].
        destruct (eqb x k) eqn:Exk.
        -- apply eqb_eq in Exk. now left.
        -- right. split; [exact H1|]. intros [H|H]; [|auto].
           assert (eqb x k = true) by now apply eqb_eq.
           congruence.
Qed.

Lemma keys_unique_acc_NoDup seen xs : NoDup (Np.unique_acc eqb seen xs).
Proof.
  revert seen. induction xs as [|x rest IH]; intros seen; simpl.
  - constructor.
  - destruct (Np.mem eqb x seen); [apply IH|].
    constructor; [|apply IH].
    rewrite keys_unique_acc_In. simpl. tauto.
Qed.

Lemma keys_In (k : K) xs : In k (Np.group_keys eqb le xs) <-> In k xs.
Proof.
  unfold Np.group_keys, Np.unique.
  rewrite sort_In, keys_unique_acc_In. simpl. tauto.
Qed.

Lemma keys_NoDup xs : NoDup (Np.group_keys eqb le xs).
Proof. apply sort_NoDup, keys_unique_acc_NoDup. Qed.

Lemma total_app xs ys : total (xs ++ ys) = total xs + total ys.
Proof.
  unfold total. induction xs as [|x xs IH]; simpl; [reflexivity|].
  rewrite IH. lia.
Qed.

Lemma total_add {A : Type} (f g : A -> Z) l :
  total (map (fun k => f k + g k) l) = total (map f l) + total (map g l).
Proof.
  unfold total. induction l as [|x l IH]; simpl; [reflexivity|].
  rewrite IH. lia.
Qed.

Lemma total_Permutation xs ys :
  Permutation xs ys -> total xs = total ys.
Proof.
  unfold total. induction 1; simpl; lia.
Qed.

Lemma total_indicator (x : K) keys :
  NoDup keys ->
  total (map (fun k => if eqb x k then 1 else 0) keys)
  = if Np.mem eqb x keys then 1 else 0.
Proof.
  unfold total. induction 1 as [|k keys Hk Hnd IH]; [reflexivity|].
  cbn [map fold_right]. rewrite IH.
  unfold Np.mem. cbn [existsb]. fold (Np.mem eqb x keys).
  destruct (eqb x k) eqn:E; [|reflexivity].
  apply eqb_eq in E. subst k.
  destruct (Np.mem eqb x keys) eqn:M; [|reflexivity].
  apply keys_mem_In in M. contradiction.
Qed.

(** The groups of a [groupby] partition the frame: their sizes add up
    to its length. *)
Lemma groups_partition {R : Type} (key : R -> K) (df : list R) keys :
  NoDup keys ->
  (forall r, In r df -> In (key r) keys) ->
  total (map (fun k => Np.len (filter (fun r => eqb (key r) k) df)) keys)
  = Np.len df.
Proof.
  intros Hnd. induction df as [|r df IH]; intros Hall.
  - unfold total, Np.len. cbn [filter List.length]. clear Hnd Hall.
    induction keys as [|k keys IHk]; [reflexivity|].
    cbn [map fold_right]. now rewrite IHk.
  - rewrite <- (map_ext
                  (fun k => (if eqb (key r) k then 1 else 0)
                            + Np.len (filter (fun r => eqb (key r) k) df))).
    + rewrite total_add, IH by (intros r' Hr'; apply Hall; now right).
      rewrite total_indicator by exact Hnd.
      assert (M : Np.mem eqb (key r) keys = true)
        by (apply keys_mem_In, Hall; now left).
      rewrite M. unfold Np.len. cbn [List.length]. lia.
    + intros k. cbn [filter]. destruct (eqb (key r) k).
      * unfold Np.len. cbn [List.length]. lia.
      * lia.
Qed.

End Grouping.

Section SortedFrames.

Lemma StronglySorted_firstn {A : Type} (R : A -> A -> Prop) l n :
  StronglySorted R l -> StronglySorted R (firstn n l).
Proof.
  revert n. induction l as [|a l IH]; intros n Hs.
  - rewrite firstn_nil. constructor.
  - destruct n as [|n]; [constructor|].
    inversion Hs as [|? ? Hl Hall]; subst. simpl.
    constructor; [now apply IH|].
    apply Forall_forall. intros x Hx.
    rewrite Forall_forall in Hall. apply Hall.
    rewrite <- (firstn_skipn n l). apply in_or_app. now left.
Qed.

Lemma StronglySorted_filter {A : Type} (R : A -> A -> Prop)
      (p : A -> bool) l :
  StronglySorted R l -> StronglySorted R (filter p l).
Proof.
  induction 1 as [|a l Hl IH Hall]; simpl; [constructor|].
  destruct (p a); [|exact IH].
  constructor; [exact IH|].
  apply Forall_forall. intros x Hx. apply filter_In in Hx.
  rewrite Forall_forall in Hall. now apply Hall.
Qed.

Lemma StronglySorted_last {A : Type} (R : A -> A -> Prop) pre x :
  StronglySorted R (pre ++ [x]) -> Forall (fun y => R y x) pre.
Proof.
  induction pre as [|a pre IH]; intros Hs; [constructor|].
  simpl in Hs. inversion Hs as [|? ? Hl Hall]; subst.
  constructor; [|now apply IH].
  rewrite Forall_forall in Hall. apply Hall.
  apply in_or_app. right. now left.
Qed.

End SortedFrames.

Section TopCongestion.

Import TrafficDatabase TrafficAnalytics.

Lemma most_vehicles_first_total a b :
  most_vehicles_first a b = false -> most_vehicles_first b a = true.
Proof.
  unfold most_vehicles_first. intros H.
  apply Z.leb_gt in H. apply Z.leb_le. lia.
Qed.

Lemma most_vehicles_first_trans a b c :
  most_vehicles_first a b = true -> most_vehicles_first b c = true ->
  most_vehicles_first a c = true.
Proof.
  unfold most_vehicles_first. intros H1 H2.
  apply Z.leb_le in H1, H2. apply Z.leb_le. lia.
Qed.

Lemma nlargest_sorted (df : list traffic_row) :
  StronglySorted busier_or_same (sort most_vehicles_first df).
Proof.
  eapply StronglySorted_ind
    with (P := StronglySorted busier_or_same);
    [constructor| |apply sort_StronglySorted;
                   [apply most_vehicles_first_total
                   |apply most_vehicles_first_trans]].
  intros a l _ IH Hall. constructor; [exact IH|].
  eapply Forall_impl; [|exact Hall].
  intros b Hb. unfold busier_or_same. now apply Z.leb_le.
Qed.

(** X18. [get_top_congestion] splits the stored rows into the returned
    ones and the rest: it returns the six columns of
    [min(top_n, rows)] rows (none for a non-positive [top_n]), listed
    from the largest vehicle count down, and no row it leaves out has
    more vehicles than a row it returns. *)
Theorem top_congestion_largest (d : database) (top_n : Z) :
  exists top rest,
    Permutation (traffic_data d) (top ++ rest)
    /\ get_top_congestion d top_n = map congestion_of top
    /\ List.length top
       = Nat.min (Z.to_nat top_n) (List.length (traffic_data d))
    /\ StronglySorted busier_or_same top
    /\ forall a b, In a top -> In b rest -> busier_or_same a b.
Proof.
  set (df := get_all_traffic_data d).
  set (sorted := sort most_vehicles_first df).
  exists (firstn (Z.to_nat top_n) sorted),
    (skipn (Z.to_nat top_n) sorted).
  assert (Hs : StronglySorted busier_or_same sorted)
    by exact (nlargest_sorted df).
  split; [|split; [|split; [|split]]].
  - rewrite firstn_skipn. subst sorted df. unfold get_all_traffic_data.
    eapply perm_trans; apply sort_Permutation.
  - unfold get_top_congestion. fold df.
    destruct (is_empty df) eqn:E; [|reflexivity].
    apply is_empty_nil in E. subst sorted. rewrite E.
    cbn [sort fold_right]. now rewrite firstn_nil.
  - rewrite length_firstn. subst sorted df.
    unfold get_all_traffic_data. now rewrite !sort_length.
  - now apply StronglySorted_firstn.
  - intros a b. now apply prefix_dominates.
Qed.

End TopCongestion.

Section CurrentStatus.

Import TrafficDatabase TrafficAnalytics.

Lemma oldest_first_total a b :
  oldest_first a b = false -> oldest_first b a = true.
Proof. unfold oldest_first. apply datetime_leb_total. Qed.

Lemma oldest_first_trans a b c :
  oldest_first a b = true -> oldest_first b c = true ->
  oldest_first a c = true.
Proof. unfold oldest_first. apply datetime_leb_trans. Qed.

Lemma datetime_leb_refl a : Datetime.leb a a = true.
Proof.
  destruct (Datetime.leb a a) eqn:E; [reflexivity|].
  pose proof (datetime_leb_total _ _ E) as H. congruence.
Qed.

Lemma string_leb_total a b : String.leb a b = false -> String.leb b a = true.
Proof.
  intros H. destruct (String.leb_total a b) as [E|E]; congruence.
Qed.

Lemma flat_map_keys {A B : Type} (f : A -> list B) (proj : B -> A) keys :
  (forall k, In k keys -> exists x, f k = [x] /\ proj x = k) ->
  map proj (flat_map f keys) = keys.
Proof.
  induction keys as [|k keys IH]; intros H; [reflexivity|].
  destruct (H k (or_introl eq_refl)) as (x & E & Hx).
  cbn [flat_map]. rewrite E. cbn [app map]. rewrite Hx. f_equal.
  apply IH. intros k' Hk'. apply H. now right.
Qed.

(** The newest reading of a location that has readings, as the frame
    sorted by time gives it. *)
Lemma last_of_location (d : database) (loc : string) :
  In loc (map (fun r : traffic_row => location r) (traffic_data d)) ->
  exists r t,
    rev (filter (fun r : traffic_row => String.eqb (location r) loc)
                (sort oldest_first (get_all_traffic_data d)))
    = r :: t
    /\ location r = loc
    /\ latest_reading (traffic_data d) r.
Proof.
  intros Hloc.
  set (sorted := sort oldest_first (get_all_traffic_data d)).
  assert (Hin : forall r, In r sorted <-> In r (traffic_data d)).
  { intros r. subst sorted. unfold get_all_traffic_data.
    now rewrite !sort_In. }
  set (l := filter (fun r : traffic_row => String.eqb (location r) loc)
                   sorted).
  assert (Hl : forall r, In r l
                         <-> In r (traffic_data d) /\ location r = loc).
  { intros r. subst l. rewrite filter_In, Hin, String.eqb_eq.
    reflexivity. }
  assert (Hs : StronglySorted
                 (fun a b : traffic_row => oldest_first a b = true) l).
  { subst l sorted. apply StronglySorted_filter.
    apply sort_StronglySorted;
      [apply oldest_first_total|apply oldest_first_trans]. }
  destruct (rev l) as [|r t] eqn:E.
  - exfalso. apply in_map_iff in Hloc. destruct Hloc as (r & Hr & Hrd).
    assert (H : In r l) by (apply Hl; now split).
    apply in_rev in H. rewrite E in H. destruct H.
  - exists r, t. split; [reflexivity|].
    assert (El : l = rev t ++ [r]).
    { rewrite <- (rev_involutive l), E. reflexivity. }
    assert (Hr : In r l)
      by (rewrite El; apply in_or_app; right; now left).
    apply Hl in Hr. destruct Hr as [Hrd Hrl].
    split; [exact Hrl|]. split; [exact Hrd|].
    intros r' Hr' Hloc'.
    assert (H : In r' l) by (apply Hl; split; congruence).
    rewrite El in H, Hs. apply in_app_or in H. destruct H as [H|[<-|[]]].
    + apply StronglySorted_last in Hs. rewrite Forall_forall in Hs.
      exact (Hs r' H).
    + apply datetime_leb_refl.
Qed.

(** X19. [get_current_status] returns one row per location that has
    readings, in the alphabetical order of the locations, and the row of
    a location shows a stored reading of that location that no other
    reading of that location is later than. *)
Theorem current_status_latest (d : database) :
  (forall s, In s (get_current_status d) ->
             exists r, latest_reading (traffic_data d) r
                       /\ s = status_of r)
  /\ NoDup (map st_location (get_current_status d))
  /\ Sorted text_le (map st_location (get_current_status d))
  /\ (forall loc,
         In loc (map st_location (get_current_status d))
         <-> In loc (map (fun r : traffic_row => location r)
                         (traffic_data d))).
Proof.
  set (sorted := sort oldest_first (get_all_traffic_data d)).
  set (keys := Np.group_keys String.eqb String.leb
                 (map (fun r : traffic_row => location r) sorted)).
  set (f := fun loc =>
              match rev (filter (fun r : traffic_row =>
                                   String.eqb (location r) loc) sorted)
              with
              | r :: _ =>
                  [mkstatus loc (vehicle_count r) (condition r)
                            (speed_kmh r) (rain_factor r) (timestamp r)]
              | [] => []
              end).
  assert (Hres : get_current_status d = flat_map f keys).
  { unfold get_current_status.
    destruct (is_empty (get_all_traffic_data d)) eqn:E; [|reflexivity].
    apply is_empty_nil in E. subst keys sorted. now rewrite E. }
  assert (Hkeys : forall loc,
             In loc keys
             <-> In loc (map (fun r : traffic_row => location r)
                             (traffic_data d))).
  { intros loc. subst keys.
    rewrite (keys_In String.eqb String.leb String.eqb_eq).
    rewrite !in_map_iff. subst sorted. unfold get_all_traffic_data.
    split; intros (r & E & Hr); exists r; (split; [exact E|]).
    - now rewrite !sort_In in Hr.
    - now rewrite !sort_In. }
  assert (Hf : forall loc, In loc keys ->
                           exists r, f loc = [status_of r]
                                     /\ location r = loc
                                     /\ latest_reading (traffic_data d) r).
  { intros loc Hloc. apply Hkeys in Hloc.
    destruct (last_of_location d loc Hloc) as (r & t & E & Hl & Hlatest).
    exists r. subst f sorted. cbv beta. rewrite E.
    split; [|now split]. unfold status_of. now rewrite Hl. }
  assert (Hlocs : map st_location (flat_map f keys) = keys).
  { apply flat_map_keys. intros k Hk.
    destruct (Hf k Hk) as (r & E & Hl & _).
    exists (status_of r). split; [exact E|exact Hl]. }
  rewrite Hres, Hlocs.
  split; [|split; [|split]].
  - intros s Hs. apply in_flat_map in Hs. destruct Hs as (loc & Hk & Hs).
    destruct (Hf loc Hk) as (r & E & _ & Hlatest).
    rewrite E in Hs. destruct Hs as [<-|[]]. now exists r.
  - apply (keys_NoDup String.eqb String.leb String.eqb_eq).
  - subst keys. unfold Np.group_keys, text_le.
    apply sort_Sorted. exact string_leb_total.
  - exact Hkeys.
Qed.

End CurrentStatus.

Section LocationComparison.

Import TrafficDatabase TrafficAnalytics.

Lemma fold_min_le l x : fold_left Z.min l x <= x.
Proof.
  revert x. induction l as [|y l IH]; intros x; simpl; [lia|].
  specialize (IH (Z.min x y)). lia.
Qed.

Lemma fold_max_le l x : x <= fold_left Z.max l x.
Proof.
  revert x. induction l as [|y l IH]; intros x; simpl; [lia|].
  specialize (IH (Z.max x y)). lia.
Qed.

Lemma minZ_le_maxZ l : Np.minZ l <= Np.maxZ l.
Proof.
  destruct l as [|x l]; simpl; [lia|].
  pose proof (fold_min_le l x). pose proof (fold_max_le l x). lia.
Qed.

Lemma percentage_bounds (m t : Z) :
  0 <= m <= t -> 0 < t ->
  (0 <= inject_Z m / inject_Z t * 100 <= 100)%Q.
Proof.
  intros Hm Ht.
  assert (Hm0 : (0 <= inject_Z m)%Q) by (unfold Qle; simpl; lia).
  assert (Hmt : (inject_Z m <= inject_Z t)%Q)
    by (rewrite <- Zle_Qle; lia).
  assert (Ht0 : (0 < inject_Z t)%Q) by (unfold Qlt; simpl; lia).
  pose proof (Qinv_lt_0_compat _ Ht0) as Hi.
  assert (E : (inject_Z t * / inject_Z t == 1)%Q)
    by (apply Qmult_inv_r; lra).
  unfold Qdiv. set (i := (/ inject_Z t)%Q) in *.
  split; nra.
Qed.

Lemma Sorted_refine {A : Type} (R R' : A -> A -> Prop) (P : A -> Prop) l :
  (forall a b, P a -> P b -> R a b -> R' a b) ->
  Forall P l -> Sorted R l -> Sorted R' l.
Proof.
  intros H HP Hs. induction Hs as [|a l Hl IH Hhd]; [constructor|].
  apply Forall_cons_iff in HP. destruct HP as [Pa Pl].
  constructor; [now apply IH|].
  destruct Hhd as [|b l Hab]; constructor.
  apply Forall_cons_iff in Pl. destruct Pl as [Pb _]. now apply H.
Qed.

Lemma busiest_first_total a b :
  busiest_first a b = false -> busiest_first b a = true.
Proof.
  unfold busiest_first, Np.le_sort.
  destruct (lc_avg_vehicles a) as [|x], (lc_avg_vehicles b) as [|y];
    try congruence.
  intros H. apply Qle_bool_iff.
  destruct (Qle_bool y x) eqn:E; [discriminate|].
  assert (~ (y <= x)%Q) by (rewrite <- Qle_bool_iff; congruence).
  lra.
Qed.

(** The row of one location in the comparison. *)
Lemma compare_row_facts (d : database) (loc : string) :
  In loc (map (fun r : traffic_row => location r) (traffic_data d)) ->
  let row := compare_row (get_all_traffic_data d) loc in
  lc_location row = loc
  /\ lc_total_records row = Np.len (readings_of d loc)
  /\ lc_macet_count row = Np.len (jams_of d loc)
  /\ 0 <= lc_macet_count row <= lc_total_records row
  /\ 0 < lc_total_records row
  /\ lc_min_vehicles row <= lc_max_vehicles row
  /\ (exists p, lc_macet_pct row = Num p /\ (0 <= p <= 100)%Q)
  /\ (exists a, lc_avg_vehicles row = Num a).
Proof.
  intros Hloc. cbv zeta. unfold compare_row.
  cbn [lc_location lc_total_records lc_macet_count lc_min_vehicles
       lc_max_vehicles lc_macet_pct lc_avg_vehicles].
  set (g := filter (fun r : traffic_row => String.eqb (location r) loc)
                   (get_all_traffic_data d)).
  set (m := filter (fun r : traffic_row => String.eqb (condition r) "Macet")
                   g).
  assert (Hg : Np.len g = Np.len (readings_of d loc)).
  { unfold Np.len, readings_of. subst g. unfold get_all_traffic_data.
    now rewrite filter_length_sort. }
  assert (Hm : Np.len m = Np.len (jams_of d loc)).
  { unfold Np.len, jams_of. subst m g. unfold get_all_traffic_data.
    now rewrite filter_filter, filter_length_sort. }
  assert (Hle : 0 <= Np.len m <= Np.len g).
  { unfold Np.len. subst m. split; [lia|].
    apply Nat2Z.inj_le, filter_length_le. }
  assert (Hpos : 0 < Np.len g).
  { rewrite Hg. unfold Np.len, readings_of.
    apply in_map_iff in Hloc. destruct Hloc as (r & E & Hr).
    assert (H : In r (filter (fun r : traffic_row =>
                                String.eqb (location r) loc)
                             (traffic_data d)))
      by (apply filter_In; split; [exact Hr|now apply String.eqb_eq]).
    destruct (filter _ (traffic_data d)); [destruct H|simpl; lia]. }
  split; [reflexivity|]. split; [exact Hg|]. split; [exact Hm|].
  split; [exact Hle|]. split; [exact Hpos|].
  split; [apply minZ_le_maxZ|]. split.
  - destruct (Z.eqb_spec (Np.len g) 0) as [E|E]; [lia|].
    eexists. split; [reflexivity|].
    apply round_within;
      [now apply percentage_bounds|reflexivity|reflexivity].
  - unfold Np.mean, vehicles.
    destruct g as [|r g']; [unfold Np.len in Hpos; simpl in Hpos; lia|].
    cbn [map Np.round]. eexists. reflexivity.
Qed.

(** X20. The location comparison has one row per location that has
    readings.  The row counts the readings of the location and those of
    them labelled "Macet", its percentage of the latter is a number
    between 0 and 100, its minimum is not above its maximum; the counts
    of all rows add up to the number of stored readings, and the rows
    are listed from the largest mean vehicle count down. *)
Theorem location_comparison_rows (d : database) :
  NoDup (map lc_location (get_location_comparison d))
  /\ (forall loc,
         In loc (map lc_location (get_location_comparison d))
         <-> In loc (map (fun r : traffic_row => location r)
                         (traffic_data d)))
  /\ (forall row,
         In row (get_location_comparison d) ->
         lc_total_records row = Np.len (readings_of d (lc_location row))
         /\ lc_macet_count row = Np.len (jams_of d (lc_location row))
         /\ 0 <= lc_macet_count row <= lc_total_records row
         /\ 0 < lc_total_records row
         /\ lc_min_vehicles row <= lc_max_vehicles row
         /\ exists p, lc_macet_pct row = Num p /\ (0 <= p <= 100)%Q)
  /\ total (map lc_total_records (get_location_comparison d))
     = get_traffic_count d
  /\ Sorted busier_location (get_location_comparison d).
Proof.
  set (df := get_all_traffic_data d).
  set (keys := Np.group_keys String.eqb String.leb
                 (map (fun r : traffic_row => location r) df)).
  set (rows := map (compare_row df) keys).
  assert (Hres : get_location_comparison d = sort busiest_first rows).
  { unfold get_location_comparison. fold df.
    destruct (is_empty df) eqn:E; [|reflexivity].
    apply is_empty_nil in E. subst rows keys. now rewrite E. }
  assert (Hdf : forall r, In r df <-> In r (traffic_data d)).
  { intros r. subst df. unfold get_all_traffic_data. apply sort_In. }
  assert (Hkeys : forall loc,
             In loc keys
             <-> In loc (map (fun r : traffic_row => location r)
                             (traffic_data d))).
  { intros loc. subst keys.
    rewrite (keys_In String.eqb String.leb String.eqb_eq).
    rewrite !in_map_iff.
    split; intros (r & E & Hr); exists r; (split; [exact E|]);
      now apply Hdf. }
  assert (Hnd : NoDup keys)
    by apply (keys_NoDup String.eqb String.leb String.eqb_eq).
  assert (Hlocs : map lc_location rows = keys).
  { subst rows. rewrite map_map. apply map_id. }
  assert (Hperm : Permutation rows (get_location_comparison d)).
  { rewrite Hres. apply sort_Permutation. }
  assert (Hrow : forall row, In row (get_location_comparison d) ->
                             exists loc, In loc keys
                                         /\ row = compare_row df loc).
  { intros row Hin. rewrite Hres in Hin. apply sort_In in Hin.
    subst rows. apply in_map_iff in Hin.
    destruct Hin as (loc & E & Hk). now exists loc. }
  split; [|split; [|split; [|split]]].
  - eapply Permutation_NoDup;
      [apply Permutation_map, Hperm|]. now rewrite Hlocs.
  - intros loc. rewrite <- Hkeys, <- Hlocs. split; intros H.
    + eapply Permutation_in; [|exact H].
      apply Permutation_map, Permutation_sym, Hperm.
    + eapply Permutation_in; [|exact H]. apply Permutation_map, Hperm.
  - intros row Hin. destruct (Hrow row Hin) as (loc & Hk & ->).
    apply Hkeys in Hk.
    destruct (compare_row_facts d loc Hk)
      as (H1 & H2 & H3 & H4 & H5 & H6 & H7 & _).
    fold df in H1, H2, H3, H4, H5, H6, H7.
    rewrite H1. repeat split; try assumption; tauto.
  - rewrite <- (total_Permutation _ _ (Permutation_map _ Hperm)).
    subst rows. rewrite map_map.
    change (fun x => lc_total_records (compare_row df x))
      with (fun k => Np.len (filter (fun r : traffic_row =>
                                       String.eqb (location r) k) df)).
    rewrite (groups_partition String.eqb String.eqb_eq
               (fun r : traffic_row => location r) df keys Hnd).
    + unfold get_traffic_count, Np.len. subst df.
      unfold get_all_traffic_data. now rewrite sort_length.
    + intros r Hr. subst keys.
      apply (keys_In String.eqb String.leb String.eqb_eq).
      apply in_map_iff. exists r. split; [reflexivity|exact Hr].
  - rewrite Hres.
    apply (Sorted_refine (fun a b => busiest_first a b = true)
                         busier_location
                         (fun row => exists a, lc_avg_vehicles row = Num a)).
    + intros a b (x & Hx) (y & Hy). unfold busiest_first, busier_location.
      rewrite Hx, Hy. cbn [Np.le_sort]. now rewrite Qle_bool_iff.
    + apply Forall_forall. intros row Hin. rewrite <- Hres in Hin.
      destruct (Hrow row Hin) as (loc & Hk & ->).
      apply Hkeys in Hk.
      now destruct (compare_row_facts d loc Hk) as (_ & _ & _ & _ & _ & _
                                                    & _ & H).
    + apply sort_Sorted. exact busiest_first_total.
Qed.

End LocationComparison.

Section OverallStats.

Import TrafficDatabase TrafficAnalytics.

Lemma fold_max_ge_all l x y : In y l -> y <= fold_left Z.max l x.
Proof.
  revert x. induction l as [|z l IH]; intros x Hy; [destruct Hy|].
  simpl. destruct Hy as [->|Hy]; [|now apply IH].
  pose proof (fold_max_le l (Z.max x y)). lia.
Qed.

Lemma fold_min_le_all l x y : In y l -> fold_left Z.min l x <= y.
Proof.
  revert x. induction l as [|z l IH]; intros x Hy; [destruct Hy|].
  simpl. destruct Hy as [->|Hy]; [|now apply IH].
  pose proof (fold_min_le l (Z.min x y)). lia.
Qed.

Lemma maxZ_ge l y : In y l -> y <= Np.maxZ l.
Proof.
  destruct l as [|x l]; intros Hy; [destruct Hy|].
  simpl. destruct Hy as [->|Hy];
    [apply fold_max_le|now apply fold_max_ge_all].
Qed.

Lemma minZ_le l y : In y l -> Np.minZ l <= y.
Proof.
  destruct l as [|x l]; intros Hy; [destruct Hy|].
  simpl. destruct Hy as [->|Hy];
    [apply fold_min_le|now apply fold_min_le_all].
Qed.

Lemma fold_left_max_In l x : In (fold_left Z.max l x) (x :: l).
Proof.
  revert x. induction l as [|y l IH]; intros x; [now left|].
  simpl. destruct (IH (Z.max x y)) as [E|H].
  - destruct (Z.max_spec x y) as [[_ M]|[_ M]]; rewrite M in E |- *.
    + right. now left.
    + now left.
  - right. now right.
Qed.

Lemma maxZ_In l : l <> [] -> In (Np.maxZ l) l.
Proof.
  destruct l as [|x l]; [congruence|]. intros _. apply fold_left_max_In.
Qed.

Lemma round_integer (k : Z) (n : nat) :
  (Py.round (inject_Z k) n == inject_Z k)%Q.
Proof.
  unfold Py.round.
  set (s := Z.to_pos (10 ^ Z.of_nat n)).
  assert (E : Py.round_half_even (inject_Z k * inject_Z (Z.pos s))
              = k * Z.pos s).
  { unfold Py.round_half_even.
    assert (Ex : (inject_Z k * inject_Z (Z.pos s)
                  == inject_Z (k * Z.pos s))%Q)
      by (now rewrite inject_Z_mult).
    assert (Ef : Qfloor (inject_Z k * inject_Z (Z.pos s)) = k * Z.pos s).
    { rewrite (Qfloor_comp _ _ Ex). apply Qfloor_Z. }
    rewrite Ef.
    destruct (Qcompare_spec
                (inject_Z k * inject_Z (Z.pos s)
                 - inject_Z (k * Z.pos s)) (1 # 2)) as [H|H|H];
      [exfalso; lra|reflexivity|exfalso; lra]. }
  rewrite E. unfold Qeq, inject_Z. simpl. lia.
Qed.

Lemma sum_between (lo hi : Q) (xs : list Q) :
  Forall (fun x => lo <= x <= hi)%Q xs ->
  (inject_Z (Np.len xs) * lo <= Np.sum xs
   <= inject_Z (Np.len xs) * hi)%Q.
Proof.
  induction 1 as [|x xs [H1 H2] _ IH].
  - unfold Np.len, Np.sum. cbn [List.length fold_right Z.of_nat].
    change (inject_Z 0) with 0%Q. lra.
  - unfold Np.len, Np.sum in *. cbn [List.length fold_right].
    rewrite Nat2Z.inj_succ, <- Z.add_1_r, inject_Z_plus.
    change (inject_Z 1) with 1%Q. lra.
Qed.

Lemma mean_between (lo hi : Q) (xs : list Q) :
  xs <> [] ->
  Forall (fun x => lo <= x <= hi)%Q xs ->
  exists m, Np.mean xs = Num m /\ (lo <= m <= hi)%Q.
Proof.
  intros Hne Hall. destruct xs as [|x xs]; [congruence|].
  eexists. split; [reflexivity|].
  pose proof (sum_between lo hi _ Hall) as Hs.
  set (n := inject_Z (Np.len (x :: xs))) in *.
  assert (Hn : (0 < n)%Q).
  { subst n. unfold Np.len, Qlt. simpl. lia. }
  pose proof (Qinv_lt_0_compat _ Hn) as Hi.
  assert (E : (n * / n == 1)%Q) by (apply Qmult_inv_r; lra).
  unfold Qdiv. set (i := (/ n)%Q) in *.
  set (s := Np.sum (x :: xs)) in *.
  assert (H1 : (0 <= (s - n * lo) * i)%Q)
    by (apply Qmult_le_0_compat; lra).
  assert (H2 : (0 <= (n * hi - s) * i)%Q)
    by (apply Qmult_le_0_compat; lra).
  assert (E1 : (lo * (n * i) == lo)%Q) by (rewrite E; ring).
  assert (E2 : (hi * (n * i) == hi)%Q) by (rewrite E; ring).
  split; nra.
Qed.

Lemma filter_map_length {A B : Type} (p : B -> bool) (f : A -> B) l :
  List.length (filter p (map f l))
  = List.length (filter (fun x => p (f x)) l).
Proof.
  induction l as [|x l IH]; simpl; [reflexivity|].
  destruct (p (f x)); simpl; now rewrite IH.
Qed.

(** The count of a label in the frame is its count in the table. *)
Lemma count_of_label (d : database) (c : string) :
  Np.count_of String.eqb c
              (map (fun r : traffic_row => condition r)
                   (get_all_traffic_data d))
  = labelled d c.
Proof.
  unfold Np.count_of, labelled, Np.len, get_all_traffic_data.
  rewrite filter_map_length, filter_length_sort.
  do 2 f_equal. apply filter_ext. intros r. apply String.eqb_sym.
Qed.

(** The head of the mode is a label of the frame that no label
    outnumbers. *)
Lemma mode_is_most_frequent (xs : list string) :
  xs <> [] ->
  exists m rest,
    Np.mode String.eqb String.leb xs = m :: rest
    /\ In m xs
    /\ forall c, Np.count_of String.eqb c xs
                 <= Np.count_of String.eqb m xs.
Proof.
  intros Hne. unfold Np.mode.
  set (keys := Np.group_keys String.eqb String.leb xs).
  set (counts := map (fun k => Np.count_of String.eqb k xs) keys).
  set (best := Np.maxZ counts).
  assert (Hk : forall k, In k keys <-> In k xs)
    by (intros k; apply (keys_In String.eqb String.leb String.eqb_eq)).
  assert (Hkeys : keys <> []).
  { destruct xs as [|x xs]; [congruence|].
    intros E. assert (H : In x keys) by (apply Hk; now left).
    rewrite E in H. destruct H. }
  assert (Hbest : In best counts).
  { apply maxZ_In. subst counts. destruct keys; [congruence|discriminate]. }
  apply in_map_iff in Hbest. destruct Hbest as (k0 & E0 & Hk0).
  assert (Hin : In k0 (filter (fun k => Np.count_of String.eqb k xs
                                        =? best) keys)).
  { apply filter_In. split; [exact Hk0|]. now apply Z.eqb_eq. }
  destruct (filter (fun k => Np.count_of String.eqb k xs =? best) keys)
    as [|m rest] eqn:Ef; [destruct Hin|].
  exists m, rest. split; [reflexivity|].
  assert (Hm : In m (m :: rest)) by now left.
  rewrite <- Ef in Hm. apply filter_In in Hm.
  destruct Hm as [Hmk Hmb]. apply Z.eqb_eq in Hmb.
  split; [now apply Hk|].
  intros c. rewrite Hmb.
  destruct (in_dec string_dec c xs) as [Hc|Hc].
  - apply maxZ_ge. subst counts. apply in_map_iff.
    exists c. split; [reflexivity|now apply Hk].
  - assert (E : Np.count_of String.eqb c xs = 0).
    { unfold Np.count_of, Np.len.
      destruct (filter (String.eqb c) xs) as [|y ys] eqn:Ey;
        [reflexivity|].
      assert (Hy : In y (filter (String.eqb c) xs))
        by (rewrite Ey; now left).
      apply filter_In in Hy. destruct Hy as [Hy Hcy].
      apply String.eqb_eq in Hcy. subst y. contradiction. }
    rewrite E. rewrite <- E0. unfold Np.count_of, Np.len. lia.
Qed.

(** X21. On a table with readings the overall statistics are a
    summary of it: the record count is the number of rows, there is at
    least one location and not more locations than rows, every stored
    count lies between the reported minimum and maximum and so does the
    reported mean, the rainy records are not more than all records, and
    the most common condition is a label of the table that no label
    outnumbers. *)
Theorem overall_stats_summarise (d : database) :
  traffic_data d <> [] ->
  exists s,
    get_overall_stats d = Dict s
    /\ os_total_records s = get_traffic_count d
    /\ 1 <= os_total_locations s <= os_total_records s
    /\ (forall r : traffic_row,
           In r (traffic_data d) ->
           os_min_vehicles s <= vehicle_count r <= os_max_vehicles s)
    /\ (exists a, os_avg_vehicles s = Num a
                  /\ (inject_Z (os_min_vehicles s) <= a
                      <= inject_Z (os_max_vehicles s))%Q)
    /\ 0 <= os_rainy_records s <= os_total_records s
    /\ 0 < labelled d (os_most_common_condition s)
    /\ forall c, labelled d c <= labelled d (os_most_common_condition s).
Proof.
  intros Hne. unfold get_overall_stats.
  set (df := get_all_traffic_data d).
  assert (Hdf : forall r, In r df <-> In r (traffic_data d)).
  { intros r. subst df. unfold get_all_traffic_data. apply sort_In. }
  assert (Hlen : List.length df = List.length (traffic_data d)).
  { subst df. unfold get_all_traffic_data. apply sort_length. }
  destruct (is_empty df) eqn:E.
  { apply is_empty_nil in E. rewrite E in Hlen.
    destruct (traffic_data d); [congruence|discriminate]. }
  eexists. split; [reflexivity|].
  cbn [os_total_records os_total_locations os_avg_vehicles
       os_max_vehicles os_min_vehicles os_rainy_records
       os_most_common_condition].
  set (counts := map (fun r : traffic_row => vehicle_count r) df).
  assert (Hcounts : forall r : traffic_row,
             In r df ->
             Np.minZ counts <= vehicle_count r <= Np.maxZ counts).
  { intros r Hr.
    assert (H : In (vehicle_count r) counts).
    { subst counts. apply in_map_iff. now exists r. }
    split; [now apply minZ_le|now apply maxZ_ge]. }
  split; [unfold Np.len, get_traffic_count; now rewrite Hlen|].
  split; [|split; [|split; [|split]]].
  - set (locs := map (fun r : traffic_row => location r) df).
    assert (Hnd : NoDup (Np.unique String.eqb locs))
      by apply (keys_unique_acc_NoDup String.eqb String.leb
                                      String.eqb_eq).
    assert (Hin : forall k, In k (Np.unique String.eqb locs)
                            <-> In k locs).
    { intros k. unfold Np.unique.
      rewrite (keys_unique_acc_In String.eqb String.leb String.eqb_eq).
      simpl. tauto. }
    unfold Np.len. split.
    + destruct df as [|r df'] eqn:Ed; [discriminate|].
      assert (H : In (location r) (Np.unique String.eqb locs))
        by (apply Hin; subst locs; now left).
      destruct (Np.unique String.eqb locs); [destruct H|simpl; lia].
    + apply Nat2Z.inj_le.
      replace (List.length df) with (List.length locs)
        by (subst locs; apply length_map).
      apply NoDup_incl_length; [exact Hnd|].
      intros k Hk. now apply Hin.
  - intros r Hr. apply Hcounts. now apply Hdf.
  - assert (Hq : Forall (fun x => inject_Z (Np.minZ counts) <= x
                                  <= inject_Z (Np.maxZ counts))%Q
                        (vehicles df)).
    { unfold vehicles. apply Forall_forall. intros x Hx.
      apply in_map_iff in Hx. destruct Hx as (r & <- & Hr).
      rewrite <- !Zle_Qle. now apply Hcounts. }
    assert (Hv : vehicles df <> [])
      by (unfold vehicles; destruct df; discriminate).
    destruct (mean_between _ _ (vehicles df) Hv Hq) as (m & Em & Hm).
    rewrite Em. cbn [Np.round]. eexists. split; [reflexivity|].
    apply round_within; [exact Hm| |]; apply round_integer.
  - unfold Np.len. split; [lia|].
    apply Nat2Z.inj_le, filter_length_le.
  - assert (Hc : map (fun r : traffic_row => condition r) df <> [])
      by (destruct df; discriminate).
    destruct (mode_is_most_frequent _ Hc)
      as (m & rest & Emode & Hm & Hmax).
    rewrite Emode. split.
    + apply in_map_iff in Hm. destruct Hm as (r & <- & Hr).
      apply Hdf in Hr. unfold labelled, Np.len.
      assert (H : In r (filter (fun r0 : traffic_row =>
                                  String.eqb (condition r0) (condition r))
                               (traffic_data d)))
        by (apply filter_In; split; [exact Hr|apply String.eqb_refl]).
      destruct (filter _ (traffic_data d)); [destruct H|simpl; lia].
    + intros c. rewrite <- !count_of_label. apply Hmax.
Qed.

Lemma overall_stats_summarise_witness :
  exists s,
    get_overall_stats
      (database_of [reading_at_7 1 "Jakarta Pusat" 100;
                    reading_at_7 2 "Jakarta Barat" 600])
    = Dict s
    /\ os_min_vehicles s = 100 /\ os_max_vehicles s = 600.
Proof.
  destruct (overall_stats_summarise
              (database_of [reading_at_7 1 "Jakarta Pusat" 100;
                            reading_at_7 2 "Jakarta Barat" 600])
              ltac:(discriminate))
    as (s & Hs & _).
  exists s. split; [exact Hs|].
  vm_compute in Hs. injection Hs as <-. split; reflexivity.
Defined.

End OverallStats.

Section WeekdayWeekend.

Import TrafficDatabase TrafficAnalytics.

Lemma filter_split_length {A : Type} (p q : A -> bool) l :
  (forall x, q x = negb (p x)) ->
  (List.length (filter p l) + List.length (filter q l))%nat
  = List.length l.
Proof.
  intros H. induction l as [|x l IH]; simpl; [reflexivity|].
  rewrite H. destruct (p x); simpl; lia.
Qed.

Lemma daytype_of_nothing label :
  daytype label [] = mkdaytype label (Num 0) (Num 0) 0.
Proof. reflexivity. Qed.

(** X22. On a table with readings the weekday-against-weekend report
    counts every reading exactly once: the readings of Monday to Friday
    on the weekday side, those of Saturday and Sunday on the weekend
    side, and the two counts add up to the number of rows.  A side
    without readings reports the averages 0 instead of failing. *)
Theorem weekday_weekend_partition (d : database) :
  traffic_data d <> [] ->
  exists r,
    get_weekday_vs_weekend d = Dict r
    /\ dy_total_records (weekday r) = Np.len (weekday_readings d)
    /\ dy_total_records (weekend r) = Np.len (weekend_readings d)
    /\ dy_total_records (weekday r) + dy_total_records (weekend r)
       = get_traffic_count d
    /\ (weekday_readings d = [] ->
        dy_avg_vehicles (weekday r) = Num 0
        /\ dy_avg_speed (weekday r) = Num 0)
    /\ (weekend_readings d = [] ->
        dy_avg_vehicles (weekend r) = Num 0
        /\ dy_avg_speed (weekend r) = Num 0).
Proof.
  intros Hne. unfold get_weekday_vs_weekend.
  set (df := get_all_traffic_data d).
  assert (Hlen : forall p, List.length (filter p df)
                           = List.length (filter p (traffic_data d))).
  { intros p. subst df. unfold get_all_traffic_data.
    apply filter_length_sort. }
  destruct (is_empty df) eqn:E.
  { apply is_empty_nil in E. exfalso. apply Hne.
    apply length_zero_iff_nil.
    subst df. unfold get_all_traffic_data in E.
    rewrite <- (sort_length newest_first), E. reflexivity. }
  eexists. split; [reflexivity|].
  cbn [weekday weekend].
  set (wd := filter (fun r => day_of_week r <? 5) df).
  set (we := filter (fun r => day_of_week r >=? 5) df).
  assert (Hwd : List.length wd = List.length (weekday_readings d)).
  { subst wd. unfold weekday_readings. apply Hlen. }
  assert (Hwe : List.length we = List.length (weekend_readings d)).
  { subst we. unfold weekend_readings. rewrite Hlen. f_equal.
    apply filter_ext. intros r. unfold day_of_week. apply Z.geb_leb. }
  assert (Hsum : (List.length wd + List.length we)%nat = List.length df).
  { subst wd we. apply filter_split_length. intros r.
    now rewrite Z.geb_leb, Z.ltb_antisym, negb_involutive. }
  unfold daytype. cbn [dy_total_records dy_avg_vehicles dy_avg_speed].
  unfold Np.len. rewrite Hwd, Hwe.
  split; [reflexivity|]. split; [reflexivity|]. split.
  - unfold get_traffic_count. rewrite <- Hwd, <- Hwe, <- Nat2Z.inj_add.
    rewrite Hsum. subst df. unfold get_all_traffic_data.
    now rewrite sort_length.
  - split; intros H; rewrite H in *.
    + apply length_zero_iff_nil in Hwd. now rewrite Hwd.
    + apply length_zero_iff_nil in Hwe. now rewrite Hwe.
Qed.

Lemma weekday_weekend_partition_witness :
  exists r,
    get_weekday_vs_weekend
      (database_of [reading_at_7 1 "Jakarta Pusat" 100;
                    reading_at_7 2 "Jakarta Barat" 600])
    = Dict r
    /\ dy_total_records (weekday r) + dy_total_records (weekend r) = 2.
Proof.
  destruct (weekday_weekend_partition
              (database_of [reading_at_7 1 "Jakarta Pusat" 100;
                            reading_at_7 2 "Jakarta Barat" 600])
              ltac:(discriminate))
    as (r & Hr & _ & _ & Hsum & _).
  exists r. split; [exact Hr|exact Hsum].
Defined.

End WeekdayWeekend.

Section HourlyOrder.

Import TrafficDatabase TrafficAnalytics.

Lemma Sorted_strict l :
  Sorted (fun a b => (a <=? b) = true) l -> NoDup l -> Sorted Z.lt l.
Proof.
  induction 1 as [|a l Hl IH Hhd]; intros Hnd; [constructor|].
  apply NoDup_cons_iff in Hnd. destruct Hnd as [Ha Hnd].
  constructor; [now apply IH|].
  destruct Hhd as [|b l Hab]; constructor.
  apply Z.leb_le in Hab.
  assert (a <> b) by (intros ->; apply Ha; now left).
  lia.
Qed.

Lemma leb_total a b : (a <=? b) = false -> (b <=? a) = true.
Proof. intros H. apply Z.leb_gt in H. apply Z.leb_le. lia. Qed.

Lemma filter_all {A : Type} (l : list A) : filter (fun _ => true) l = l.
Proof.
  induction l as [|x l IH]; simpl; [reflexivity|]. now rewrite IH.
Qed.

(** X23. The hourly pattern lists its hours in strictly ascending
    order; its record counts add up to the number of readings it was
    computed over (all of them, or those of the location), and the
    maximum of an hour is not below the count of any of those readings
    at that hour. *)
Theorem hourly_pattern_ordered (d : database)
        (filter_by : option string) :
  Sorted Z.lt (map g_key (get_hourly_pattern d filter_by))
  /\ total (map g_count (get_hourly_pattern d filter_by))
     = Np.len (selected_readings d filter_by)
  /\ (forall g (r : traffic_row),
         In g (get_hourly_pattern d filter_by) ->
         In r (selected_readings d filter_by) ->
         hour r = g_key g ->
         vehicle_count r <= g_max_vehicles g).
Proof.
  destruct (hourly_frame d filter_by) as (df & -> & Hin & Hlen).
  set (keys := Np.group_keys Z.eqb Z.leb
                 (map (fun r : traffic_row => hour r) df)).
  destruct (is_empty df) eqn:E.
  - apply is_empty_nil in E. subst df.
    split; [constructor|]. split; [|intros g r []].
    cbn [map total fold_right]. unfold total, Np.len, selected_readings.
    specialize (Hlen (fun _ => true)). cbn [filter List.length] in Hlen.
    rewrite (filter_ext _ (selected filter_by)) in Hlen
      by (intros r; apply andb_true_r).
    now rewrite <- Hlen.
  - split; [|split].
    + rewrite aggregate_keys. apply Sorted_strict.
      * unfold Np.group_keys. apply sort_Sorted. exact leb_total.
      * apply group_keys_NoDup.
    + assert (Hc : map g_count
                       (round_means
                          (aggregate Z.eqb Z.leb
                                     (fun r : traffic_row => hour r) df))
                   = map (fun k =>
                            Np.len (filter (fun r : traffic_row =>
                                              hour r =? k) df))
                         keys).
      { unfold round_means, aggregate. rewrite !map_map. reflexivity. }
      rewrite Hc.
      rewrite (groups_partition Z.eqb Z.eqb_eq
                 (fun r : traffic_row => hour r) df keys).
      * unfold Np.len, selected_readings.
        specialize (Hlen (fun _ => true)). rewrite filter_all in Hlen.
        rewrite Hlen. do 2 f_equal. apply filter_ext.
        intros r. apply andb_true_r.
      * apply group_keys_NoDup.
      * intros r Hr. apply group_keys_In, in_map_iff.
        exists r. split; [reflexivity|exact Hr].
    + intros g r Hg Hr Hh.
      unfold round_means, aggregate in Hg. rewrite map_map in Hg.
      apply in_map_iff in Hg. destruct Hg as (k & <- & Hk).
      cbn [g_key g_max_vehicles] in *.
      apply maxZ_ge. apply in_map_iff. exists r.
      split; [reflexivity|]. apply filter_In. split.
      * apply Hin. unfold selected_readings in Hr.
        apply filter_In in Hr. exact Hr.
      * now apply Z.eqb_eq.
Qed.

End HourlyOrder.

Section PredictionRange.

Import TrafficDatabase TrafficAnalytics.

Variable sqrt : Q -> Q.
Hypothesis sqrt_nonneg : forall q, (0 <= sqrt q)%Q.

Lemma int_nonpos (q : Q) : (q <= 0)%Q -> Py.int q <= 0.
Proof.
  destruct q as [n d]. unfold Qle, Py.int; simpl. intros H.
  assert (Hn : n <= 0) by lia.
  replace n with (- (- n)) by lia. rewrite Z.quot_opp_l by lia.
  assert (0 <= Z.quot (- n) (Z.pos d)) by (apply Z.quot_pos; lia).
  lia.
Qed.

Lemma int_monotone_from_nonneg (x y : Q) :
  (0 <= y)%Q -> (x <= y)%Q -> Py.int x <= Py.int y.
Proof.
  intros Hy Hxy.
  assert (H0 : 0 <= Py.int y).
  { rewrite int_is_floor by exact Hy.
    change 0 with (Qfloor 0). now apply Qfloor_resp_le. }
  destruct (Qlt_le_dec x 0) as [Hx|Hx].
  - pose proof (int_nonpos x ltac:(lra)). lia.
  - rewrite !int_is_floor by lra. now apply Qfloor_resp_le.
Qed.

(** The slice of the prediction holds the matching readings. *)
Lemma prediction_slice_In d loc h (r : traffic_row) :
  In r (filter (fun r : traffic_row => hour r =? h)
               (get_traffic_by_location loc d))
  <-> In r (matching d loc h).
Proof.
  unfold get_traffic_by_location, matching.
  rewrite !filter_In, sort_In, filter_In, andb_true_iff. tauto.
Qed.

(** The prediction from two matching readings on, field by field. *)
Lemma predict_traffic_value d loc h :
  (2 <= List.length (matching d loc h))%nat ->
  exists avg var,
    let slice := filter (fun r : traffic_row => hour r =? h)
                        (get_traffic_by_location loc d) in
    Np.mean (vehicles slice) = Num avg
    /\ predict_traffic sqrt d loc h
       = Returns
           (Dict (mkprediction
                    loc h (Z.max 0 (Py.int (avg - sqrt var)))
                    (Py.int avg) (Py.int (avg + sqrt var))
                    (Np.round (Np.mean (speeds slice)) 1)
                    (classify_prediction (Py.int avg))
                    "Sedang (berbasis rata-rata historis)"
                    (Np.len slice))).
Proof.
  intros H2. rewrite <- prediction_slice_length in H2.
  cbv zeta. unfold predict_traffic.
  set (df := get_traffic_by_location loc d) in *.
  set (slice := filter _ df) in *.
  destruct (is_empty df) eqn:Edf.
  - subst slice. rewrite slice_of_empty_frame in H2 by exact Edf.
    simpl in H2. lia.
  - destruct slice as [|r1 [|r2 rest]] eqn:Es;
      [simpl in H2; lia | simpl in H2; lia |].
    cbn [is_empty].
    assert (Hvar : exists var, Np.var (vehicles (r1 :: r2 :: rest))
                               = Num var).
    { unfold Np.var.
      destruct (Np.len (vehicles (r1 :: r2 :: rest)) <=? 1) eqn:E.
      - apply Z.leb_le in E. unfold Np.len, vehicles in E.
        rewrite length_map in E. simpl in E. lia.
      - eexists. reflexivity. }
    destruct Hvar as (var & Hvar).
    eexists _, var. split; [reflexivity|].
    unfold std. rewrite Hvar. reflexivity.
Qed.

(** X24. With at least two stored readings for the location and the
    hour, none of them negative, and a square root that is never
    negative, [predict_traffic] returns a prediction whose range is
    ordered, [0 <= min <= avg <= max]; the point value lies between any
    two bounds of the matching counts, the sample count is the number of
    matching readings, and below 9999 the label is the one the shared
    classifier gives the point value. *)
Theorem prediction_range_ordered (d : database) (loc : string) (h : Z) :
  (2 <= List.length (matching d loc h))%nat ->
  (forall r : traffic_row,
      In r (matching d loc h) -> 0 <= vehicle_count r) ->
  exists p,
    predict_traffic sqrt d loc h = Returns (Dict p)
    /\ 0 <= predicted_vehicles_min p
    /\ predicted_vehicles_min p <= predicted_vehicles_avg p
    /\ predicted_vehicles_avg p <= predicted_vehicles_max p
    /\ samples_used p = Np.len (matching d loc h)
    /\ (forall lo hi,
           (forall r : traffic_row,
               In r (matching d loc h) -> lo <= vehicle_count r <= hi) ->
           lo <= predicted_vehicles_avg p <= hi)
    /\ (predicted_vehicles_avg p < 9999 ->
        predicted_condition p
        = TrafficEngine.get_traffic_condition (predicted_vehicles_avg p)).
Proof.
  intros H2 Hpos.
  destruct (predict_traffic_value d loc h H2) as (avg & var & Hmean & Hp).
  cbv zeta in Hmean, Hp.
  set (slice := filter (fun r : traffic_row => hour r =? h)
                       (get_traffic_by_location loc d)) in *.
  assert (Hne : vehicles slice <> []).
  { intros E. rewrite E in Hmean. discriminate. }
  assert (Hbounds : forall lo hi,
             (forall r : traffic_row,
                 In r (matching d loc h) -> lo <= vehicle_count r <= hi) ->
             (inject_Z lo <= avg <= inject_Z hi)%Q).
  { intros lo hi Hall.
    destruct (mean_between (inject_Z lo) (inject_Z hi) (vehicles slice)
                           Hne) as (m & Em & Hm).
    - unfold vehicles. apply Forall_forall. intros x Hx.
      apply in_map_iff in Hx. destruct Hx as (r & <- & Hr).
      apply prediction_slice_In in Hr. rewrite <- !Zle_Qle.
      now apply Hall.
    - rewrite Hmean in Em. injection Em as <-. exact Hm. }
  assert (Havg : (0 <= avg)%Q).
  { destruct (vehicles slice) as [|x xs] eqn:Ev; [congruence|].
    assert (Hx : In x (vehicles slice)) by (rewrite Ev; now left).
    unfold vehicles in Hx. apply in_map_iff in Hx.
    destruct Hx as (r & _ & Hr). apply prediction_slice_In in Hr.
    assert (Hall : forall r0 : traffic_row,
               In r0 (matching d loc h) ->
               0 <= vehicle_count r0 <= Z.max 0 (Np.maxZ
                                                   (map (fun r1 : traffic_row
                                                         => vehicle_count r1)
                                                      (matching d loc h)))).
    { intros r0 Hr0. split; [now apply Hpos|].
      assert (vehicle_count r0
              <= Np.maxZ (map (fun r1 : traffic_row => vehicle_count r1)
                              (matching d loc h))).
      { apply maxZ_ge. apply in_map_iff. now exists r0. }
      lia. }
    destruct (Hbounds _ _ Hall) as [H0 _].
    exact H0. }
  pose proof (sqrt_nonneg var) as Hs.
  eexists. split; [exact Hp|].
  cbn [predicted_vehicles_min predicted_vehicles_avg
       predicted_vehicles_max samples_used predicted_condition].
  assert (H0 : 0 <= Py.int avg).
  { rewrite int_is_floor by exact Havg.
    change 0 with (Qfloor 0). now apply Qfloor_resp_le. }
  split; [lia|]. split.
  - pose proof (int_monotone_from_nonneg (avg - sqrt var) avg Havg
                                         ltac:(lra)).
    lia.
  - split; [apply int_monotone_from_nonneg; lra|].
    split; [unfold Np.len; f_equal; apply prediction_slice_length|].
    split.
    + intros lo hi Hall. destruct (Hbounds lo hi Hall) as [Hlo Hhi].
      rewrite int_is_floor by exact Havg.
      rewrite <- (Qfloor_Z lo), <- (Qfloor_Z hi).
      split; now apply Qfloor_resp_le.
    + intros Hlt. apply classify_prediction_in_table. lia.
Qed.

End PredictionRange.

Lemma prediction_range_ordered_witness :
  exists p,
    TrafficAnalytics.predict_traffic
      (fun _ => 0%Q)
      (database_of [reading_at_7 1 "Jakarta Pusat" 300;
                    reading_at_7 2 "Jakarta Pusat" 401])
      "Jakarta Pusat" 7
    = Returns (Dict p)
    /\ predicted_vehicles_avg p = 350.
Proof.
  assert (Hs : forall q : Q, (0 <= (fun _ : Q => 0%Q) q)%Q)
    by (intros q; apply Qle_refl).
  assert (Hpos : forall r : traffic_row,
             In r (matching
                     (database_of [reading_at_7 1 "Jakarta Pusat" 300;
                                   reading_at_7 2 "Jakarta Pusat" 401])
                     "Jakarta Pusat" 7) ->
             0 <= vehicle_count r).
  { intros r [<-|[<-|[]]]; simpl; lia. }
  destruct (prediction_range_ordered
              (fun _ => 0%Q) Hs
              (database_of [reading_at_7 1 "Jakarta Pusat" 300;
                            reading_at_7 2 "Jakarta Pusat" 401])
              "Jakarta Pusat" 7 (le_n 2) Hpos)
    as (p & Hp & _).
  exists p. split; [exact Hp|].
  vm_compute in Hp. injection Hp as <-. reflexivity.
Defined.
